(** * Stock-rps-selection: relative price strength ranking and trend filters

    A shallow embedding of [rpstool.py] (first-pass screener), [train.py]
    (second-pass screener) and [checkrps.py] (single-instrument lookup),
    together with the pandas / numpy operations they call.

    Numbers.  A numpy [float64] is modelled by [float]: NaN, the two
    infinities, or an exact rational.  Comparison, NaN propagation and
    division by zero follow IEEE 754; rounding error and the sign of zero
    are not modelled.  Timestamps are integers (seconds). *)

From Stdlib Require Import String Ascii.
From Stdlib Require Import ZArith QArith Qround List Bool Lia Lqa.
From Stdlib Require Import Permutation Sorted.
Import ListNotations.

Local Open Scope Z_scope.

(** ** Exceptions and results *)

Inductive exn : Type :=
| IndexError
| KeyError
| ZeroDivisionError.

Inductive result (A : Type) : Type :=
| Ok (a : A)
| Raise (e : exn).

Arguments Ok {A} a.
Arguments Raise {A} e.

Definition bind {A B : Type} (r : result A) (k : A -> result B) : result B :=
  match r with
  | Ok a => k a
  | Raise e => Raise e
  end.

Notation "x <- r ;; k" := (bind r (fun x => k))
  (at level 61, r at next level, right associativity).

(** ** numpy float64, idealised *)

Module Np.

Inductive float : Type :=
| NaN
| NInf
| Fin (q : Q)
| PInf.

Definition isnan (x : float) : bool :=
  match x with NaN => true | _ => false end.

Definition Qlt_bool (a b : Q) : bool := negb (Qle_bool b a).

(** [x < y]; false as soon as one side is NaN. *)
Definition ltb (x y : float) : bool :=
  match x, y with
  | NaN, _ | _, NaN => false
  | NInf, NInf => false
  | NInf, _ => true
  | Fin a, Fin b => Qlt_bool a b
  | Fin _, PInf => true
  | Fin _, NInf => false
  | PInf, _ => false
  end.

(** [x == y]; false as soon as one side is NaN. *)
Definition eqb (x y : float) : bool :=
  match x, y with
  | NInf, NInf => true
  | Fin a, Fin b => Qeq_bool a b
  | PInf, PInf => true
  | _, _ => false
  end.

Definition leb (x y : float) : bool := ltb x y || eqb x y.
Definition gtb (x y : float) : bool := ltb y x.
Definition geb (x y : float) : bool := leb y x.

Definition neg (x : float) : float :=
  match x with
  | NaN => NaN
  | NInf => PInf
  | Fin q => Fin (- q)
  | PInf => NInf
  end.

Definition add (x y : float) : float :=
  match x, y with
  | NaN, _ | _, NaN => NaN
  | Fin a, Fin b => Fin (a + b)
  | PInf, NInf | NInf, PInf => NaN
  | PInf, _ | _, PInf => PInf
  | NInf, _ | _, NInf => NInf
  end.

Definition sub (x y : float) : float := add x (neg y).

(** Sign of a rational as an infinity, NaN for zero: the value of
    [q * inf] and of [q / 0]. *)
Definition signed_inf (q : Q) : float :=
  match Qcompare q 0 with
  | Gt => PInf
  | Lt => NInf
  | Eq => NaN
  end.

Definition mul (x y : float) : float :=
  match x, y with
  | NaN, _ | _, NaN => NaN
  | Fin a, Fin b => Fin (a * b)
  | Fin a, PInf | PInf, Fin a => signed_inf a
  | Fin a, NInf | NInf, Fin a => signed_inf (- a)
  | PInf, PInf | NInf, NInf => PInf
  | PInf, NInf | NInf, PInf => NInf
  end.

Definition div (x y : float) : float :=
  match x, y with
  | NaN, _ | _, NaN => NaN
  | Fin a, Fin b => if Qeq_bool b 0 then signed_inf a else Fin (a / b)
  | Fin _, PInf | Fin _, NInf => Fin 0
  | PInf, Fin b => if Qle_bool 0 b then PInf else NInf
  | NInf, Fin b => if Qle_bool 0 b then NInf else PInf
  | _, _ => NaN
  end.

Definition of_Z (z : Z) : float := Fin (inject_Z z).
Definition of_nat (n : nat) : float := of_Z (Z.of_nat n).

(** Nearest integer, halves to the even neighbour. *)
Definition rint (q : Q) : Z :=
  let n := Qfloor q in
  match Qcompare (q - inject_Z n) (1 # 2) with
  | Lt => n
  | Gt => n + 1
  | Eq => if Z.even n then n else n + 1
  end.

(** [round(x, 2)] *)
Definition round2 (x : float) : float :=
  match x with
  | Fin q => Fin (inject_Z (rint (q * 100)) / 100)
  | _ => x
  end.

(** Equality of floats as numbers (rationals up to [Qeq]); NaN is only
    related to NaN, which makes this the "same cell" relation of a table
    rather than the [==] of the language. *)
Definition same (x y : float) : Prop :=
  match x, y with
  | NaN, NaN | NInf, NInf | PInf, PInf => True
  | Fin a, Fin b => a == b
  | _, _ => False
  end.

End Np.

Import Np.

(** ** pandas Series operations on a column of floats *)

Module Pd.

Definition Series := list float.

(** [s.iloc[-1]] *)
Definition iloc_last {A : Type} (s : list A) : result A :=
  match rev s with
  | x :: _ => Ok x
  | [] => Raise IndexError
  end.

(** [s.iloc[-2]] *)
Definition iloc_prev {A : Type} (s : list A) : result A :=
  match rev s with
  | _ :: x :: _ => Ok x
  | _ => Raise IndexError
  end.

(** [s.iloc[0]] *)
Definition iloc_first {A : Type} (s : list A) : result A :=
  match s with
  | x :: _ => Ok x
  | [] => Raise IndexError
  end.

(** [s.iloc[-n:]] *)
Definition tail_rows {A : Type} (n : nat) (s : list A) : list A :=
  skipn (length s - n) s.

Definition dropna (s : Series) : Series :=
  filter (fun x => negb (isnan x)) s.

(** [s.count()]: the number of non-missing cells. *)
Definition count (s : Series) : nat := length (dropna s).

Definition fmax (x y : float) : float := if ltb x y then y else x.

(** [s.max()]: missing cells skipped, NaN when nothing is left. *)
Definition max (s : Series) : float :=
  match dropna s with
  | [] => NaN
  | x :: xs => fold_left fmax xs x
  end.

Definition fsum (s : Series) : float := fold_left add s (Fin 0).

(** [s.rolling(window=w).mean()]: row [i] holds the mean of rows
    [i-w+1 .. i], NaN while fewer than [w] rows are available (a NaN in
    the window propagates through the sum). *)
Definition rolling_mean (w : nat) (s : Series) : Series :=
  map (fun i =>
         if (w <=? i + 1)%nat
         then div (fsum (firstn w (skipn (i + 1 - w) s))) (of_nat w)
         else NaN)
      (seq 0 (length s)).

(** [s.shift(p)] *)
Definition shift (p : nat) (s : Series) : Series :=
  firstn (length s) (repeat NaN p ++ s).

(** [s.ffill()] *)
Fixpoint ffill_from (prev : float) (s : Series) : Series :=
  match s with
  | [] => []
  | x :: s' =>
      let y := if isnan x then prev else x in
      y :: ffill_from y s'
  end.

Definition ffill (s : Series) : Series := ffill_from NaN s.

Fixpoint zip_with {A B C : Type} (f : A -> B -> C) (l : list A) (m : list B) : list C :=
  match l, m with
  | a :: l', b :: m' => f a b :: zip_with f l' m'
  | _, _ => []
  end.

(** [s.pct_change(periods=p, fill_method=None)]: [s / s.shift(p) - 1]. *)
Definition pct_change_nofill (p : nat) (s : Series) : Series :=
  zip_with (fun x y => sub (div x y) (Fin 1)) s (shift p s).

(** [s.pct_change(periods=p)], whose default [fill_method] pads forward
    before dividing when [pad] is set (the behaviour depends on the pandas
    release). *)
Definition pct_change (pad : bool) (p : nat) (s : Series) : Series :=
  pct_change_nofill p (if pad then ffill s else s).

(** [s.diff()] *)
Definition diff (s : Series) : Series :=
  zip_with sub s (shift 1 s).

(** Ascending insertion sort of non-missing values. *)
Fixpoint insert_sorted (x : float) (l : list float) : list float :=
  match l with
  | [] => [x]
  | y :: l' => if leb x y then x :: l else y :: insert_sorted x l'
  end.

Definition sort_values (s : Series) : list float :=
  fold_right insert_sorted [] (dropna s).

(** The 1-indexed positions, counted from [pos], that hold the value [v]. *)
Fixpoint tied_ranks (v : float) (pos : Z) (sorted : list float) : list Z :=
  match sorted with
  | [] => []
  | y :: rest =>
      if eqb y v then pos :: tied_ranks v (pos + 1) rest
      else tied_ranks v (pos + 1) rest
  end.

Definition zsum (l : list Z) : Z := fold_right Z.add 0 l.

(** [method='average']: the mean of the ranks of the group of ties. *)
Definition average_rank (v : float) (s : Series) : Q :=
  let rs := tied_ranks v 1 (sort_values s) in
  inject_Z (zsum rs) / inject_Z (Z.of_nat (length rs)).

(** [s.rank(pct=True)]: average rank over the number of non-missing
    cells; a missing cell keeps NaN ([na_option='keep']). *)
Definition rank_pct (s : Series) : Series :=
  map (fun v =>
         if isnan v then NaN
         else div (Fin (average_rank v s)) (of_nat (count s)))
      s.

End Pd.

(** ** Date-indexed frames

    A DataFrame is modelled row by row.  Besides the index ([date]) and the
    [close] column a row carries the derived columns [ma<w>] and [rps<p>],
    addressed by their window and period; a column is read only after the
    pipeline has written it, so the lookup is total. *)

Definition code := string.

Record Row : Type := mkRow {
  date : Z;
  close : float;
  ma : nat -> float;
  rps : nat -> float
}.

Definition DataFrame := list Row.

(** The mapping from instrument code to frame, in insertion order. *)
Definition Universe := list (code * DataFrame).

Definition timedelta_days (n : Z) : Z := n * 86400.

(** [df[f"ma{w}"] = col] *)
Definition set_ma (w : nat) (col : Pd.Series) (df : DataFrame) : DataFrame :=
  Pd.zip_with
    (fun r v => mkRow (date r) (close r)
                      (fun k => if Nat.eqb k w then v else ma r k) (rps r))
    df col.

(** [df[f"rps{p}"] = v], a scalar broadcast over the column. *)
Definition set_rps (p : nat) (v : float) (df : DataFrame) : DataFrame :=
  map (fun r => mkRow (date r) (close r) (ma r)
                      (fun k => if Nat.eqb k p then v else rps r k))
      df.

(** [d[key]] on a dict or a labelled Series. *)
Fixpoint getitem {A : Type} (d : list (code * A)) (key : code) : result A :=
  match d with
  | [] => Raise KeyError
  | (k, v) :: d' => if String.eqb k key then Ok v else getitem d' key
  end.

Fixpoint mapM {A B : Type} (f : A -> result B) (l : list A) : result (list B) :=
  match l with
  | [] => Ok []
  | a :: l' => b <- f a ;; bs <- mapM f l' ;; Ok (b :: bs)
  end.

Definition count_true (l : list bool) : nat := length (filter id l).

Definition all (l : list bool) : bool := forallb id l.

(** The shared ranking step of [rpstool.py] and [train.py]. *)

Module Ranker.

(** Insertion of a date into a strictly increasing index. *)
Fixpoint insert_date (d : Z) (idx : list Z) : list Z :=
  match idx with
  | [] => [d]
  | e :: idx' =>
      if d <? e then d :: idx
      else if d =? e then idx
      else e :: insert_date d idx'
  end.

(** The index of [pd.DataFrame({code: data['close'] ...})]: the sorted
    union of the date indexes of the frames, which [load_cache] returns
    sorted. *)
Definition union_index (U : Universe) : list Z :=
  fold_right insert_date [] (flat_map (fun cd => map date (snd cd)) U).

(** The cell of a frame's [close] column at a date of the union index,
    NaN where the frame has no bar on that date (the dates of a frame are
    distinct). *)
Definition cell (d : Z) (df : DataFrame) : float :=
  match find (fun r => date r =? d) df with
  | Some r => close r
  | None => NaN
  end.

Definition all_closes (U : Universe) : list (code * Pd.Series) :=
  let idx := union_index U in
  map (fun cd => (fst cd, map (fun d => cell d (snd cd)) idx)) U.

(** [all_closes.pct_change(periods=period, fill_method=None).iloc[-1]] *)
Definition latest_changes (U : Universe) (period : nat) : result (list (code * float)) :=
  _ <- Pd.iloc_last (union_index U) ;;
  Ok (map (fun cc => (fst cc, last (Pd.pct_change_nofill period (snd cc)) NaN))
          (all_closes U)).

(** [rps = pct_changes.iloc[-1].rank(pct=True) * 100], labelled by code. *)
Definition rps_of_row (row : list (code * float)) : list (code * float) :=
  combine (map fst row)
          (map (fun r => mul r (Fin 100)) (Pd.rank_pct (map snd row))).

Definition rps_series (U : Universe) (period : nat) : result (list (code * float)) :=
  row <- latest_changes U period ;;
  Ok (rps_of_row row).

Definition calculate_rps (U : Universe) (period : nat) : result Universe :=
  rps <- rps_series U period ;;
  mapM (fun cd => v <- getitem rps (fst cd) ;;
                  Ok (fst cd, set_rps period v (snd cd)))
       U.

(** The score [rps[code]] that [calculate_rps] writes for an instrument. *)
Definition rps_score (U : Universe) (period : nat) (c : code) : result float :=
  rps <- rps_series U period ;;
  getitem rps c.

End Ranker.

(** ** rpstool.py *)

Module RpsTool.

Definition calculate_rps := Ranker.calculate_rps.

Definition calculate_moving_averages (df : DataFrame) : DataFrame :=
  fold_left (fun d w => set_ma w (Pd.rolling_mean w (map close d)) d)
            [40; 60; 120; 250]%nat df.

Record Selected : Type := mkSelected {
  sel_code : code;
  sel_rps50 : float;
  sel_rps120 : float;
  sel_rps250 : float;
  sel_max_yearly_return : option float
}.

Section Clock.

Variable YEAR_START_DATE : Z.
Variable now : Z.

Definition calculate_max_gain_this_year (df : DataFrame) : result (option float) :=
  first <- Pd.iloc_first df ;;
  if YEAR_START_DATE <? date first then Ok None
  else
    let year_data := filter (fun r => YEAR_START_DATE <=? date r) df in
    year_start_price <- Pd.iloc_first (map close year_data) ;;
    let max_price_this_year := Pd.max (map close year_data) in
    Ok (Some (round2 (mul (div (sub max_price_this_year year_start_price)
                               year_start_price)
                          (Fin 100)))).

Definition rps_condition (latest : Row) : bool :=
  gtb (add (rps latest 120) (rps latest 250)) (Fin 185).

Definition ma_condition (latest : Row) : bool :=
  gtb (close latest) (ma latest 40)
  && gtb (ma latest 60) (ma latest 120)
  && gtb (ma latest 60) (ma latest 250).

Definition max_gain_condition (max_gain_this_year : option float) : bool :=
  match max_gain_this_year with
  | None => false
  | Some g => leb g (Fin 50)
  end.

Definition filter_criteria (df : DataFrame) : result bool :=
  latest <- Pd.iloc_last df ;;
  let twenty_days_ago := now - timedelta_days 30 in
  let year_high :=
    Pd.max (map close
      (filter (fun r => (YEAR_START_DATE <=? date r) && (date r <=? twenty_days_ago)) df)) in
  let recent_high_condition :=
    geb (Pd.max (map close (filter (fun r => twenty_days_ago <? date r) df))) year_high in
  let rps_cond := rps_condition latest in
  let ma_cond := ma_condition latest in
  let current_price := close latest in
  let max_price := Pd.max (map close (filter (fun r => twenty_days_ago <? date r) df)) in
  let drawdown_condition :=
    leb (div (sub max_price current_price) max_price) (Fin (3 # 10)) in
  max_gain_this_year <- calculate_max_gain_this_year df ;;
  let max_gain_cond := max_gain_condition max_gain_this_year in
  Ok (all [recent_high_condition; rps_cond; ma_cond; drawdown_condition; max_gain_cond]).

Definition process_stock (bs_code : code) (all_stocks_data : Universe)
  : result (option Selected) :=
  hist_data <- getitem all_stocks_data bs_code ;;
  if (250 <=? length hist_data)%nat then
    let hist_data := calculate_moving_averages hist_data in
    ok <- filter_criteria hist_data ;;
    if ok then
      latest <- Pd.iloc_last hist_data ;;
      gain <- calculate_max_gain_this_year hist_data ;;
      Ok (Some (mkSelected bs_code
                  (round2 (rps latest 50))
                  (round2 (rps latest 120))
                  (round2 (rps latest 250))
                  gain))
    else Ok None
  else Ok None.

(** [[result for future in as_completed(futures) if result is not None]]:
    the futures are consumed in the order in which they complete, and
    [future.result()] re-raises what the task raised. *)
Fixpoint collect {A : Type} (done : list (result (option A))) : result (list A) :=
  match done with
  | [] => Ok []
  | r :: done' =>
      o <- r ;;
      rest <- collect done' ;;
      Ok (match o with Some a => a :: rest | None => rest end)
  end.

(** [main], from the loaded cache to the rows of [selected_stocks_df], the
    table that is written to CSV and printed.  [completion] is the order
    in which the worker pool finishes the submitted tasks. *)
Definition main (cache : Universe) (completion : list code) : result (list Selected) :=
  let all_stocks_data := filter (fun cd => (250 <=? length (snd cd))%nat) cache in
  u50 <- calculate_rps all_stocks_data 50%nat ;;
  u120 <- calculate_rps u50 120%nat ;;
  u250 <- calculate_rps u120 250%nat ;;
  collect (map (fun bs_code => process_stock bs_code u250) completion).

End Clock.

End RpsTool.

(** ** train.py *)

Module Train.

Definition calculate_rps := Ranker.calculate_rps.

Definition calculate_moving_averages (df : DataFrame) : DataFrame :=
  fold_left (fun d w => set_ma w (Pd.rolling_mean w (map close d)) d)
            [10; 20; 200; 250]%nat df.

Record Selected : Type := mkSelected {
  sel_code : code;
  sel_rps120 : float;
  sel_rps250 : float
}.

Section Clock.

Variable now : Z.

Definition check_rps (latest : Row) : bool :=
  gtb (add (rps latest 120) (rps latest 250)) (Fin 185).

Definition check_drawdown (df : DataFrame) (latest : Row) : bool :=
  let twenty_days_ago := now - timedelta_days 20 in
  let current_price := close latest in
  let max_price := Pd.max (map close (filter (fun r => twenty_days_ago <? date r) df)) in
  leb (div (sub max_price current_price) max_price) (Fin (1 # 4)).

Definition check_ma_crossover (df : DataFrame) (days short_ma long_ma threshold : nat) : bool :=
  let last_n_days := Pd.tail_rows days df in
  let condition :=
    map (fun r => gtb (close r) (ma r short_ma) && gtb (close r) (ma r long_ma))
        last_n_days in
  (threshold <=? count_true condition)%nat.

Definition check_price_to_year_high (df : DataFrame) (latest : Row) : bool :=
  let one_year_ago := now - timedelta_days 365 in
  let year_high := Pd.max (map close (filter (fun r => one_year_ago <=? date r) df)) in
  geb (close latest) (mul (Fin (8 # 10)) year_high).

Definition ma_condition_5days (df : DataFrame) : bool :=
  let last_5_days := Pd.tail_rows 5 df in
  all (Pd.zip_with andb
         (map (fun d => gtb d (Fin 0)) (Pd.diff (map (fun r => ma r 20%nat) last_5_days)))
         (map (fun r => gtb (ma r 10%nat) (ma r 20%nat)) last_5_days)).

Definition ma_condition_latest (latest previous : Row) : bool :=
  gtb (ma latest 10%nat) (ma previous 10%nat)
  && gtb (ma latest 20%nat) (ma previous 20%nat)
  && gtb (ma latest 10%nat) (ma latest 20%nat).

Definition check_ma_trend (df : DataFrame) (latest previous : Row) : bool :=
  ma_condition_5days df || ma_condition_latest latest previous.

Definition check_price_above_ma20 (latest : Row) : bool :=
  gtb (close latest) (ma latest 20%nat).

Definition filter_criteria (df : DataFrame) : result bool :=
  latest <- Pd.iloc_last df ;;
  previous <- Pd.iloc_prev df ;;
  let conditions :=
    [ check_rps latest;
      check_drawdown df latest;
      check_ma_crossover df 30 200 250 25;
      check_ma_crossover df 10 20 20 9;
      check_ma_crossover df 4 10 20 3;
      check_price_to_year_high df latest;
      check_ma_trend df latest previous;
      check_price_above_ma20 latest ] in
  Ok (all conditions).

Definition process_stock (bs_code : code) (all_stocks_data : Universe)
  : result (option Selected) :=
  hist_data <- getitem all_stocks_data bs_code ;;
  if (250 <=? length hist_data)%nat then
    let hist_data := calculate_moving_averages hist_data in
    ok <- filter_criteria hist_data ;;
    if ok then
      latest <- Pd.iloc_last hist_data ;;
      Ok (Some (mkSelected bs_code (round2 (rps latest 120)) (round2 (rps latest 250))))
    else Ok None
  else Ok None.

Definition main (cache : Universe) (completion : list code) : result (list Selected) :=
  let all_stocks_data := filter (fun cd => (250 <=? length (snd cd))%nat) cache in
  u120 <- calculate_rps all_stocks_data 120%nat ;;
  u250 <- calculate_rps u120 250%nat ;;
  RpsTool.collect (map (fun bs_code => process_stock bs_code u250) completion).

End Clock.

End Train.

(** ** checkrps.py *)

Module CheckRps.

Definition RPS_PERIODS : list nat := [50; 120; 250]%nat.

(** What the process prints; an [RpsLine] shows its value with two
    decimals. *)
Inductive line : Type :=
| Usage
| InvalidCode
| NotFound (target : code)
| Header (target : code)
| RpsLine (period : nat) (value : float)
| Traceback (e : exn).

Record Outcome : Type := mkOutcome {
  stdout : list line;
  exit_status : Z;
  cache_loaded : bool
}.

Definition is_digit (c : ascii) : bool :=
  let n := nat_of_ascii c in ((48 <=? n) && (n <=? 57))%nat.

(** [s.isdigit()] on an ASCII string: a string is a list of bytes here,
    one for each character of an ASCII argument.  Python counts and tests
    code points, and takes digits of other scripts for digits, so an
    argument with a character beyond ASCII is outside this model. *)
Definition isdigit (s : string) : bool :=
  match s with
  | EmptyString => false
  | _ => forallb is_digit (list_ascii_of_string s)
  end.

Section Pandas.

(** Whether this pandas release pads forward in [pct_change] by default. *)
Variable pad : bool.

(** One turn of the loop that fills [all_changes]. *)
Definition latest_change (period : nat) (cd : code * DataFrame) : result (code * float) :=
  v <- Pd.iloc_last (Pd.pct_change pad period (map close (snd cd))) ;;
  Ok (fst cd, v).

Definition all_changes (all_stocks : Universe) (period : nat) : result (list (code * float)) :=
  mapM (latest_change period) all_stocks.

(** [a / b] on Python integers. *)
Definition truediv (a b : nat) : result float :=
  if Nat.eqb b 0 then Raise ZeroDivisionError
  else Ok (Fin (inject_Z (Z.of_nat a) / inject_Z (Z.of_nat b))).

(** The body of the loop once [all_changes] is filled. *)
Definition score (changes : list (code * float)) (target_change : float) : result float :=
  if isnan target_change then Ok NaN
  else
    let better_count :=
      length (filter (fun change => ltb change target_change && negb (isnan change))
                     (map snd changes)) in
    let total_valid :=
      length (filter (fun change => negb (isnan change)) (map snd changes)) in
    ratio <- truediv better_count total_valid ;;
    Ok (mul ratio (Fin 100)).

Definition calculate_rps (all_stocks : Universe) (target_stock : code)
  : result (list (nat * float)) :=
  _ <- getitem all_stocks target_stock ;;
  mapM (fun period =>
          changes <- all_changes all_stocks period ;;
          target_change <- getitem changes target_stock ;;
          v <- score changes target_change ;;
          Ok (period, v))
       RPS_PERIODS.

(** [rps_results[f'rps{period}']] *)
Fixpoint rps_of (rps_data : list (nat * float)) (period : nat) : result float :=
  match rps_data with
  | [] => Raise KeyError
  | (p, v) :: rest => if Nat.eqb p period then Ok v else rps_of rest period
  end.

Definition in_cache (all_stocks : Universe) (target : code) : bool :=
  existsb (fun cd => String.eqb (fst cd) target) all_stocks.

(** [main]: [argv] is [sys.argv], its arguments in ASCII, [cache] what
    [load_all_stocks_data] returns when it is reached. *)
Definition main (argv : list string) (cache : Universe) : Outcome :=
  match argv with
  | [_; target_stock] =>
      if negb (Nat.eqb (String.length target_stock) 6) || negb (isdigit target_stock)
      then mkOutcome [InvalidCode] 1 false
      else
        let all_stocks := cache in
        if negb (in_cache all_stocks target_stock)
        then mkOutcome [NotFound target_stock] 1 true
        else
          match calculate_rps all_stocks target_stock with
          | Ok rps_results =>
              mkOutcome
                (Header target_stock :: map (fun pv => RpsLine (fst pv) (snd pv)) rps_results)
                0 true
          | Raise e => mkOutcome [Traceback e] 1 true
          end
  | _ => mkOutcome [Usage] 1 false
  end.

End Pandas.

End CheckRps.

(** ** The cache directory: fetchdata.py writes, rpstool.py and train.py read *)

Module Cache.

(** What reading and converting a cache file does: it yields the rows of
    the file in file order (unparsable closes already coerced to NaN),
    raises one of the errors that [load_cache] catches ([JSONDecodeError],
    [ValueError]), or raises [KeyError] because the records have no
    [date] or [close] field. *)
Inductive file : Type :=
| Rows (rows : DataFrame)
| Unreadable
| NoDateColumn.

(** [os.listdir(CACHE_DIR)] with the content of each entry. *)
Definition Directory := list (string * file).

Fixpoint read (dir : Directory) (name : string) : option file :=
  match dir with
  | [] => None
  | (n, f) :: dir' => if String.eqb n name then Some f else read dir' name
  end.

Definition dot : ascii := "."%char.

(** [s.split(".")] *)
Fixpoint split (s : string) : list string :=
  match s with
  | EmptyString => [EmptyString]
  | String c s' =>
      if Ascii.eqb c dot then EmptyString :: split s'
      else match split s' with
           | part :: parts => String c part :: parts
           | [] => [String c EmptyString]
           end
  end.

(** [s.endswith(suffix)] *)
Definition endswith (suffix s : string) : bool :=
  let n := String.length s in
  let m := String.length suffix in
  (m <=? n)%nat && String.eqb (String.substring (n - m) m s) suffix.

(** The file that [save_cache] of fetchdata.py writes for [bs_code], and
    the one that [load_cache] opens for a prefix and a code; both inside
    the cache directory. *)
Definition saved_name (bs_code : string) : string :=
  String.append bs_code ".json".

Definition cache_file (prefix bs_code : string) : string :=
  String.append prefix (String.append "." (String.append bs_code ".json")).

(** [f.split(".")[1]] *)
Definition code_of (f : string) : result code :=
  match split f with
  | _ :: c :: _ => Ok c
  | _ => Raise IndexError
  end.

(** [[f.split(".")[1] for f in os.listdir(CACHE_DIR) if f.endswith(".json")]] *)
Definition stock_list (dir : Directory) : result (list code) :=
  mapM code_of (filter (endswith ".json") (map fst dir)).

(** [df.sort_index()], a stable sort on the dates. *)
Fixpoint insert_row (r : Row) (df : DataFrame) : DataFrame :=
  match df with
  | [] => [r]
  | r' :: df' => if date r <=? date r' then r :: df else r' :: insert_row r df'
  end.

Definition sort_index (df : DataFrame) : DataFrame :=
  fold_right insert_row [] df.

Inductive message : Type :=
| ErrorReading (bs_code : code)
| NoCacheFile (bs_code : code).

(** The loop of [load_cache] over the prefixes that are left. *)
Fixpoint load_from (dir : Directory) (bs_code : code) (prefixes : list string)
  : list message * result (option DataFrame) :=
  match prefixes with
  | [] => ([NoCacheFile bs_code], Ok None)
  | prefix :: rest =>
      match read dir (cache_file prefix bs_code) with
      | None => load_from dir bs_code rest
      | Some (Rows rows) => ([], Ok (Some (sort_index rows)))
      | Some Unreadable =>
          let (printed, returned) := load_from dir bs_code rest in
          (ErrorReading bs_code :: printed, returned)
      | Some NoDateColumn => ([], Raise KeyError)
      end
  end.

(** [load_cache]: what it prints and what it returns. *)
Definition load_cache (dir : Directory) (bs_code : code)
  : list message * result (option DataFrame) :=
  load_from dir bs_code ["sh"%string; "sz"%string].

(** [d[key] = value] on a dict: a known key keeps its place. *)
Fixpoint dict_set {A : Type} (d : list (code * A)) (key : code) (value : A)
  : list (code * A) :=
  match d with
  | [] => [(key, value)]
  | (k, v) :: d' =>
      if String.eqb k key then (k, value) :: d' else (k, v) :: dict_set d' key value
  end.

(** The comprehension that builds [all_stocks_data] in [main]; what
    [load_cache] prints on the way is left out. *)
Fixpoint collect_frames (dir : Directory) (codes : list code) (acc : Universe)
  : result Universe :=
  match codes with
  | [] => Ok acc
  | bs_code :: rest =>
      loaded <- snd (load_cache dir bs_code) ;;
      match loaded with
      | Some df =>
          if (250 <=? length df)%nat
          then collect_frames dir rest (dict_set acc bs_code df)
          else collect_frames dir rest acc
      | None => collect_frames dir rest acc
      end
  end.

Definition all_stocks_data (dir : Directory) : result Universe :=
  stock_list <- stock_list dir ;;
  collect_frames dir stock_list [].

End Cache.

(** ** fetchdata.py: filling the cache *)

Module FetchData.

(** [open(path, "w")] and a dump: a file of that name is replaced, a new
    one is added to the directory. *)
Fixpoint write (dir : Cache.Directory) (name : string) (f : Cache.file) : Cache.Directory :=
  match dir with
  | [] => [(name, f)]
  | (n, g) :: dir' =>
      if String.eqb n name then (n, f) :: dir' else (n, g) :: write dir' name f
  end.

(** [save_cache] *)
Definition save_cache (dir : Cache.Directory) (bs_code : string) (df : DataFrame)
  : Cache.Directory :=
  write dir (Cache.saved_name bs_code) (Cache.Rows df).

(** [fetch_and_cache_stock_data]; [fetched] stands for the bars that
    [fetch_data] got from the data service, in the order it sent them,
    each as the screeners read it back from the records of the file (the
    date parsed, the close coerced to a number). *)
Definition fetch_and_cache_stock_data (dir : Cache.Directory) (bs_code : string)
    (fetched : DataFrame) : Cache.Directory :=
  match fetched with
  | [] => dir
  | _ :: _ => save_cache dir bs_code (Cache.sort_index fetched)
  end.

End FetchData.

(** ** Concrete universes *)

Module Scenario.

Definition bar (day : Z) (c : Q) : Row :=
  mkRow (timedelta_days day) (Fin c) (fun _ => NaN) (fun _ => NaN).

(** [n + 1] daily bars from day [start]: flat at [first], the last one
    closing at [final]. *)
Definition series (start : Z) (n : nat) (first final : Q) : DataFrame :=
  map (fun i => bar (start + Z.of_nat i) first) (seq 0 n)
  ++ [bar (start + Z.of_nat n) final].

(** Period-50 changes 0.10, -0.05 and 0.20. *)
Definition three : Universe :=
  [ ("000001"%string, series 0 50 100 110);
    ("000002"%string, series 0 50 100 95);
    ("000003"%string, series 0 50 100 120) ].

(** Period-50 changes 0.10 and 0.20. *)
Definition two : Universe :=
  [ ("600000"%string, series 0 50 100 110);
    ("600001"%string, series 0 50 100 120) ].

(** [three] and a fourth instrument listed 30 days ago, whose period-50
    change is missing. *)
Definition with_newcomer : Universe :=
  three ++ [ ("000004"%string, series 20 30 50 80) ].

(** [n] daily bars from day [start], all closing at [c]. *)
Definition flat (start : Z) (n : nat) (c : Q) : DataFrame :=
  map (fun i => bar (start + Z.of_nat i) c) (seq 0 n).

(** 260 daily bars: 140 at 20, 60 at 2, 59 at 18 and a last one at 19.
    On the last bar ma40 = 18.025, ma60 = 18.02, ma120 = 10.01 and
    ma250 = 15.20: ma60 is above both longer averages, and ma250 is above
    ma120. *)
Definition diverging : DataFrame :=
  flat 1 140 20 ++ flat 141 60 2 ++ flat 201 59 18 ++ [bar 260 19].

(** The year begins on day 230 and the run takes place at noon of day
    260. *)
Definition year_start : Z := timedelta_days 230.
Definition noon_260 : Z := timedelta_days 260 + 43200.

(** 260 daily bars flat at [c] that halve on the last day. *)
Definition loser (c : Q) : DataFrame := series 1 259 c (c / 2).

(** Two instruments that pass the first-pass filter among five that do
    not. *)
Definition cache7 : Universe :=
  [ ("600519"%string, diverging);
    ("600520"%string, diverging);
    ("000001"%string, loser 10);
    ("000002"%string, loser 12);
    ("000003"%string, loser 14);
    ("000004"%string, loser 16);
    ("000005"%string, loser 8) ].

(** 250 daily bars, the last one on day 250: a cache that was last
    refreshed before the year that begins on day 300. *)
Definition stale : DataFrame := flat 1 250 10.

(** Rows that only carry the two short averages. *)
Definition ma_row (day : Z) (ma10 ma20 : Q) : Row :=
  mkRow (timedelta_days day) (Fin ma10)
        (fun w => if Nat.eqb w 10 then Fin ma10
                  else if Nat.eqb w 20 then Fin ma20 else NaN)
        (fun _ => NaN).

(** ma10 rises 11, 12, 13, 14, 15 above a flat ma20 of 10. *)
Definition rising_over_flat : DataFrame :=
  [ ma_row 1 11 10; ma_row 2 12 10; ma_row 3 13 10; ma_row 4 14 10; ma_row 5 15 10 ].

(** Both averages rise on the last bar, ma10 above ma20. *)
Definition fresh_trend_rows : DataFrame :=
  [ ma_row 1 9 10; ma_row 2 9 10; ma_row 3 9 10; ma_row 4 11 10; ma_row 5 12 11 ].

(** A frame whose first bar is dated at the very start of the year that
    begins on day 1. *)
Definition from_new_year : DataFrame := flat 1 3 10.

(** A frame whose first bar comes after the start of that year. *)
Definition listed_in_march : DataFrame := flat 60 3 10.

(** 250 daily bars: [diverging] without the bars of days 11 to 20, when
    the instrument was suspended. *)
Definition suspended : DataFrame :=
  flat 1 10 20 ++ flat 21 120 20 ++ flat 141 60 2 ++ flat 201 59 18 ++ [bar 260 19].

(** The suspended instrument next to one that traded on all 260 days. *)
Definition cache_suspended : Universe :=
  [ ("600519"%string, suspended); ("000001"%string, loser 10) ].

(** The code column of the table that [rpstool.py] writes. *)
Definition selected_codes (r : result (list RpsTool.Selected)) : list code :=
  match r with
  | Ok rows => map RpsTool.sel_code rows
  | Raise _ => []
  end.

(** The latest period-50 changes of [with_newcomer]. *)
Definition newcomer_changes : list (code * float) :=
  [ ("000001"%string, Fin 0.10);
    ("000002"%string, Fin (-0.05));
    ("000003"%string, Fin 0.20);
    ("000004"%string, NaN) ].

(** The period-50 score that [checkrps.py] reports for a target. *)
Definition checkrps_rps50 (pad : bool) (U : Universe) (target : code) : result float :=
  rps_results <- CheckRps.calculate_rps pad U target ;;
  CheckRps.rps_of rps_results 50.

End Scenario.

(** ** Concrete cache directories *)

Module Shelf.

(** Three bars stored latest first. *)
Definition latest_first : DataFrame :=
  [ Scenario.bar 3 12; Scenario.bar 2 11; Scenario.bar 1 10 ].

(** The same code cached under both prefixes. *)
Definition both_prefixes : Cache.Directory :=
  [ ("sz.600000.json"%string, Cache.Rows [Scenario.bar 1 9]);
    ("sh.600000.json"%string, Cache.Rows latest_first);
    ("notes.txt"%string, Cache.Unreadable) ].

(** A directory with a code cached twice, a frame stored latest first, an
    unreadable file, a short history and a file that is not a cache
    file. *)
Definition mixed : Cache.Directory :=
  [ ("sh.600519.json"%string, Cache.Rows (rev Scenario.diverging));
    ("sz.600519.json"%string, Cache.Rows Scenario.stale);
    ("sz.000001.json"%string, Cache.Rows (Scenario.loser 10));
    ("sh.000002.json"%string, Cache.Unreadable);
    ("sz.300001.json"%string, Cache.Rows (Scenario.flat 1 100 5));
    ("README.md"%string, Cache.Unreadable) ].

(** 300 daily bars that close one unit higher each day. *)
Definition rising : DataFrame :=
  map (fun i => Scenario.bar (Z.of_nat i) (inject_Z (100 + Z.of_nat i))) (seq 1 300).

End Shelf.

(** ** The ranking in the words of the specification *)

Module Spec.

(** Valid observations strictly below, and tied with, a value. *)
Definition count_less (v : float) (s : Pd.Series) : nat :=
  length (filter (fun x => ltb x v) (Pd.dropna s)).

Definition count_equal (v : float) (s : Pd.Series) : nat :=
  length (filter (fun x => eqb x v) (Pd.dropna s)).

(** The 1-indexed ascending rank with ties averaged: the observations tied
    with [v] hold the ranks [less + 1 .. less + equal], whose mean is
    [less + (equal + 1) / 2]. *)
Definition ascending_rank (v : float) (s : Pd.Series) : Q :=
  inject_Z (Z.of_nat (count_less v s))
  + (inject_Z (Z.of_nat (count_equal v s)) + 1) / 2.

(** Rank [r] out of [n] valid observations maps to [r / n * 100]. *)
Definition percentile (v : float) (s : Pd.Series) : Q :=
  ascending_rank v s * (100 / inject_Z (Z.of_nat (Pd.count s))).

(** "Over the last 5 bars the shorter moving average is monotonically
    increasing": each of the bars after the first is above its
    predecessor. *)
Fixpoint increasing (l : list float) : bool :=
  match l with
  | x :: (y :: _) as rest => ltb x y && increasing rest
  | _ => true
  end.

(** Branch (a): ma10 increasing over the last 5 bars and above ma20 on
    every one of them. *)
Definition sustained_trend (df : DataFrame) : bool :=
  let last_5 := Pd.tail_rows 5 df in
  increasing (map (fun r => ma r 10%nat) last_5)
  && forallb (fun r => gtb (ma r 10%nat) (ma r 20%nat)) last_5.

(** Branch (b): on the most recent bar both averages exceed the prior
    bar's and ma10 is above ma20. *)
Definition fresh_trend (latest previous : Row) : bool :=
  gtb (ma latest 10%nat) (ma previous 10%nat)
  && gtb (ma latest 20%nat) (ma previous 20%nat)
  && gtb (ma latest 10%nat) (ma latest 20%nat).

End Spec.

(** [a; a + 1; ...], [n] consecutive integers. *)
Definition seqZ (a : Z) (n : nat) : list Z :=
  map (fun i => a + Z.of_nat i) (seq 0 n).

(** ** Auxiliary notions *)

(** A column in ascending order. *)
Definition ascending (l : list float) : Prop :=
  StronglySorted (fun a b => leb a b = true) l.

(** What [rank(pct=True) * 100] leaves in a cell holding [v] when the row
    holds the values [s]. *)
Definition cell_score (s : Pd.Series) (v : float) : float :=
  mul (if isnan v then NaN
       else div (Fin (Pd.average_rank v s)) (of_nat (Pd.count s)))
      (Fin 100).

(** The latest change of one frame, NaN standing in when the frame has no
    row (the case in which [all_changes] raises). *)
Definition latest_or_nan (pad : bool) (p : nat) (cd : code * DataFrame) : code * float :=
  match CheckRps.latest_change pad p cd with
  | Ok cv => cv
  | Raise _ => (fst cd, NaN)
  end.

Definition has_latest (pad : bool) (p : nat) (cd : code * DataFrame) : bool :=
  match CheckRps.latest_change pad p cd with
  | Ok _ => true
  | Raise _ => false
  end.

(** A string without a dot. *)
Fixpoint no_dot (s : string) : bool :=
  match s with
  | EmptyString => true
  | String c s' => negb (Ascii.eqb c Cache.dot) && no_dot s'
  end.

(** A command-line argument all of whose characters are ASCII: on such a
    string the bytes are the characters. *)
Definition is_ascii (s : string) : bool :=
  forallb (fun c => (nat_of_ascii c <? 128)%nat) (list_ascii_of_string s).

(** A frame in ascending order of its dates. *)
Definition date_sorted (df : DataFrame) : Prop :=
  StronglySorted (fun r r' => date r <= date r') df.

(** What holds of every entry of the universe under construction. *)
Definition loaded_entry (dir : Cache.Directory) (codes : list code) (cd : code * DataFrame)
  : Prop :=
  In (fst cd) codes
  /\ snd (Cache.load_cache dir (fst cd)) = Ok (Some (snd cd))
  /\ (250 <= length (snd cd))%nat.

(** No frame of the cache is empty. *)
Definition no_empty_frame (U : Universe) : bool :=
  forallb (fun cd => negb (Nat.eqb (length (snd cd)) 0)) U.

(** A row restricted to its valid observations. *)
Definition valid_only (row : list (code * float)) : list (code * float) :=
  filter (fun cv => negb (isnan (snd cv))) row.

(** Two frames with the same bars: same index, same closes. *)
Definition same_bars (cd cd' : code * DataFrame) : Prop :=
  fst cd' = fst cd
  /\ map date (snd cd') = map date (snd cd)
  /\ forall d, Ranker.cell d (snd cd') = Ranker.cell d (snd cd).

(** * Properties *)

(** ** Order facts on floats *)

Lemma Qlt_bool_iff (a b : Q) : Qlt_bool a b = true <-> (a < b)%Q.
Proof.
  unfold Qlt_bool. rewrite negb_true_iff. split; intro H.
  - apply Qnot_le_lt. intro Hle. apply Qle_bool_iff in Hle. congruence.
  - destruct (Qle_bool b a) eqn:E; trivial.
    apply Qle_bool_iff in E. exfalso. apply (Qlt_not_le _ _ H E).
Qed.

Lemma Qlt_bool_false (a b : Q) : Qlt_bool a b = false <-> (b <= a)%Q.
Proof.
  unfold Qlt_bool. rewrite negb_false_iff. apply Qle_bool_iff.
Qed.

Lemma Qeq_bool_false (a b : Q) : Qeq_bool a b = false <-> ~ (a == b)%Q.
Proof.
  split.
  - apply Qeq_bool_neq.
  - intro H. destruct (Qeq_bool a b) eqn:E; trivial.
    apply Qeq_bool_iff in E. contradiction.
Qed.

(** Turns boolean comparisons of rationals in the context into
    propositions that [lra] reads. *)
Ltac q_reflect :=
  repeat match goal with
    | H : Qlt_bool _ _ = true |- _ => apply Qlt_bool_iff in H
    | H : Qlt_bool _ _ = false |- _ => apply Qlt_bool_false in H
    | H : Qeq_bool _ _ = true |- _ => apply Qeq_bool_iff in H
    | H : Qeq_bool _ _ = false |- _ => apply Qeq_bool_false in H
    | H : Qle_bool _ _ = true |- _ => apply Qle_bool_iff in H
    end.

(** Decides a boolean comparison in the goal from the reflected context. *)
Ltac q_decide :=
  match goal with
  | |- ?b = true => destruct b eqn:?; [reflexivity | exfalso]
  | |- ?b = false => destruct b eqn:?; [exfalso | reflexivity]
  end; q_reflect; lra.

Ltac float_cases :=
  repeat match goal with
    | x : float |- _ => destruct x
    end;
  unfold leb, gtb, geb in *; simpl in *;
  try discriminate; try reflexivity; try tauto.

Lemma eqb_refl (x : float) : isnan x = false -> eqb x x = true.
Proof. float_cases. intros _. apply Qeq_bool_iff. reflexivity. Qed.

Lemma eqb_sym (x y : float) : eqb x y = eqb y x.
Proof.
  float_cases.
  destruct (Qeq_bool q0 q) eqn:E1; destruct (Qeq_bool q q0) eqn:E2; trivial;
    q_reflect; exfalso; lra.
Qed.

Lemma ltb_irrefl_eq (x y : float) : eqb x y = true -> ltb x y = false.
Proof. float_cases. intros. q_decide. Qed.

Lemma ltb_asym (x y : float) : ltb x y = true -> ltb y x = false.
Proof. float_cases. intros. q_decide. Qed.

Lemma ltb_eqb_false (x y : float) : ltb x y = true -> eqb x y = false.
Proof. float_cases. intros. q_decide. Qed.

(** On non-missing values the order is total. *)
Lemma trichotomy (x y : float) :
  isnan x = false -> isnan y = false ->
  ltb x y = true \/ eqb x y = true \/ ltb y x = true.
Proof.
  float_cases. intros _ _.
  match goal with
  | |- ?a = true \/ ?b = true \/ _ =>
      destruct a eqn:?; [now left |];
      destruct b eqn:?; [now (right; left) |];
      right; right; q_decide
  end.
Qed.

Lemma leb_total (x y : float) :
  isnan x = false -> isnan y = false -> leb x y = false -> leb y x = true.
Proof.
  intros Hx Hy H. unfold leb in *. apply orb_false_iff in H. destruct H as [H1 H2].
  destruct (trichotomy x y Hx Hy) as [H | [H | H]]; try congruence.
  rewrite H. reflexivity.
Qed.

Lemma ltb_trans (x y z : float) : ltb x y = true -> ltb y z = true -> ltb x z = true.
Proof. float_cases. intros. q_decide. Qed.

Lemma ltb_eqb_trans (x y z : float) : ltb x y = true -> eqb y z = true -> ltb x z = true.
Proof. float_cases. intros. q_decide. Qed.

Lemma eqb_ltb_trans (x y z : float) : eqb x y = true -> ltb y z = true -> ltb x z = true.
Proof. float_cases. intros. q_decide. Qed.

Lemma eqb_trans (x y z : float) : eqb x y = true -> eqb y z = true -> eqb x z = true.
Proof. float_cases. intros. q_decide. Qed.

Lemma leb_trans (x y z : float) : leb x y = true -> leb y z = true -> leb x z = true.
Proof.
  unfold leb. rewrite !orb_true_iff. intros [H1 | H1] [H2 | H2].
  - left. eapply ltb_trans; eauto.
  - left. eapply ltb_eqb_trans; eauto.
  - left. eapply eqb_ltb_trans; eauto.
  - right. eapply eqb_trans; eauto.
Qed.

Lemma leb_not_ltb (x y : float) : leb x y = true -> ltb y x = false.
Proof.
  unfold leb. rewrite orb_true_iff. intros [H | H].
  - apply ltb_asym. exact H.
  - apply ltb_irrefl_eq. rewrite eqb_sym. exact H.
Qed.

Lemma ltb_notnan (x y : float) : ltb x y = true -> isnan x = false /\ isnan y = false.
Proof. float_cases. Qed.

Lemma eqb_notnan (x y : float) : eqb x y = true -> isnan x = false /\ isnan y = false.
Proof. float_cases. Qed.

(** ** The average rank of a sorted column *)

Lemma filter_length_perm {A : Type} (f : A -> bool) (l l' : list A) :
  Permutation l l' -> length (filter f l) = length (filter f l').
Proof.
  induction 1; simpl.
  - reflexivity.
  - destruct (f x); simpl; congruence.
  - destruct (f x), (f y); reflexivity.
  - congruence.
Qed.

Lemma dropna_perm (s s' : Pd.Series) :
  Permutation s s' -> Permutation (Pd.dropna s) (Pd.dropna s').
Proof.
  unfold Pd.dropna. induction 1; simpl.
  - constructor.
  - destruct (negb (isnan x)); auto.
  - destruct (negb (isnan x)), (negb (isnan y)); auto. constructor.
  - eapply Permutation_trans; eauto.
Qed.

Lemma dropna_notnan (s : Pd.Series) :
  Forall (fun x => isnan x = false) (Pd.dropna s).
Proof.
  apply Forall_forall. intros x Hx. apply filter_In in Hx.
  destruct Hx as [_ Hx]. apply negb_true_iff. exact Hx.
Qed.

Lemma dropna_idem (s : Pd.Series) : Pd.dropna (Pd.dropna s) = Pd.dropna s.
Proof.
  unfold Pd.dropna. induction s as [| x s IH]; simpl; trivial.
  destruct (negb (isnan x)) eqn:E; simpl; rewrite ?E, IH; reflexivity.
Qed.

Lemma insert_sorted_perm (x : float) (l : list float) :
  Permutation (Pd.insert_sorted x l) (x :: l).
Proof.
  induction l as [| y l IH]; simpl.
  - apply Permutation_refl.
  - destruct (leb x y).
    + apply Permutation_refl.
    + eapply Permutation_trans; [apply perm_skip, IH | apply perm_swap].
Qed.

Lemma sort_values_perm (s : Pd.Series) :
  Permutation (Pd.sort_values s) (Pd.dropna s).
Proof.
  unfold Pd.sort_values. induction (Pd.dropna s) as [| x l IH]; simpl.
  - constructor.
  - eapply Permutation_trans; [apply insert_sorted_perm | apply perm_skip, IH].
Qed.

Lemma insert_sorted_ascending (x : float) (l : list float) :
  isnan x = false -> Forall (fun y => isnan y = false) l ->
  ascending l -> ascending (Pd.insert_sorted x l).
Proof.
  intros Hx Hl Hs. induction Hs as [| y l Hs IH Hy]; simpl.
  - repeat constructor.
  - inversion Hl as [| ? ? Hny Hl']; subst.
    destruct (leb x y) eqn:E.
    + constructor; [constructor; assumption |].
      constructor; [exact E |].
      eapply Forall_impl; [| exact Hy].
      intros z Hz. simpl in Hz. eapply leb_trans; eauto.
    + constructor; [apply IH; assumption |].
      eapply Permutation_Forall; [apply Permutation_sym, insert_sorted_perm |].
      constructor; [apply leb_total; assumption | exact Hy].
Qed.

Lemma sort_values_ascending (s : Pd.Series) : ascending (Pd.sort_values s).
Proof.
  unfold Pd.sort_values.
  pose proof (dropna_notnan s) as Hn.
  induction (Pd.dropna s) as [| x l IH]; simpl.
  - constructor.
  - inversion Hn; subst. apply insert_sorted_ascending; auto.
    eapply Permutation_Forall; [apply Permutation_sym | eassumption].
    clear. induction l as [| y l IH]; simpl.
    + constructor.
    + eapply Permutation_trans; [apply insert_sorted_perm | apply perm_skip, IH].
Qed.

Lemma seqZ_cons (a : Z) (n : nat) : seqZ a (S n) = a :: seqZ (a + 1) n.
Proof.
  unfold seqZ. simpl. f_equal.
  - lia.
  - rewrite <- seq_shift, map_map. apply map_ext. intros i. lia.
Qed.

(** In an ascending column the ties of [v] sit right after the values
    below [v]. *)
Lemma tied_ranks_ascending (v : float) (l : list float) :
  ascending l ->
  forall pos,
    Pd.tied_ranks v pos l
    = seqZ (pos + Z.of_nat (length (filter (fun x => ltb x v) l)))
           (length (filter (fun x => eqb x v) l)).
Proof.
  induction 1 as [| y l Hs IH Hy]; intros pos; simpl.
  - reflexivity.
  - rewrite IH. destruct (eqb y v) eqn:Eeq.
    + rewrite (ltb_irrefl_eq _ _ Eeq). simpl length. rewrite seqZ_cons.
      assert (Hnone : filter (fun x => ltb x v) l = []).
      { clear IH. induction l as [| z l IHl]; simpl; trivial.
        inversion Hy as [| ? ? Hz Hy']; subst. inversion Hs; subst.
        assert (ltb z v = false) as ->.
        { destruct (ltb z v) eqn:Elt; trivial.
          pose proof (ltb_eqb_trans _ _ _ Elt (eq_trans (eqb_sym v y) Eeq)) as Hzy.
          apply leb_not_ltb in Hz. congruence. }
        apply IHl; assumption. }
      rewrite Hnone. simpl. f_equal; f_equal; lia.
    + destruct (ltb y v) eqn:Elt; simpl length.
      * f_equal. lia.
      * assert (Hnone : filter (fun x => eqb x v) l = []).
        { clear IH Hs. induction l as [| z l IHl]; simpl; trivial.
          inversion Hy as [| ? ? Hz Hy']; subst.
          assert (eqb z v = false) as ->.
          { destruct (eqb z v) eqn:Ez; trivial.
            assert (leb y v = true) as Hyv.
            { eapply leb_trans; [exact Hz |]. unfold leb. rewrite Ez. apply orb_true_r. }
            unfold leb in Hyv. rewrite Elt, Eeq in Hyv. discriminate. }
          apply IHl; assumption. }
        rewrite Hnone. reflexivity.
Qed.

Lemma tied_ranks_sort_values (v : float) (s : Pd.Series) :
  Pd.tied_ranks v 1 (Pd.sort_values s)
  = seqZ (1 + Z.of_nat (Spec.count_less v s)) (Spec.count_equal v s).
Proof.
  rewrite (tied_ranks_ascending v _ (sort_values_ascending s)).
  unfold Spec.count_less, Spec.count_equal.
  rewrite (filter_length_perm (fun x => ltb x v) _ _ (sort_values_perm s)).
  rewrite (filter_length_perm (fun x => eqb x v) _ _ (sort_values_perm s)).
  reflexivity.
Qed.

Lemma seqZ_length (a : Z) (n : nat) : length (seqZ a n) = n.
Proof. unfold seqZ. rewrite length_map, length_seq. reflexivity. Qed.

Lemma zsum_seqZ (n : nat) :
  forall a, 2 * Pd.zsum (seqZ a n) = Z.of_nat n * (2 * a + Z.of_nat n - 1).
Proof.
  induction n as [| n IH]; intros a.
  - reflexivity.
  - rewrite seqZ_cons. simpl Pd.zsum.
    rewrite Z.mul_add_distr_l, IH. lia.
Qed.

(** The mean of the tied ranks is the averaged 1-indexed rank. *)
Lemma average_rank_spec (v : float) (s : Pd.Series) :
  Spec.count_equal v s <> 0%nat ->
  (Pd.average_rank v s == Spec.ascending_rank v s)%Q.
Proof.
  intros Hpos. unfold Pd.average_rank, Spec.ascending_rank.
  rewrite tied_ranks_sort_values, seqZ_length.
  pose proof (zsum_seqZ (Spec.count_equal v s) (1 + Z.of_nat (Spec.count_less v s))) as Hsum.
  set (k := Spec.count_equal v s) in *. set (m := Spec.count_less v s) in *.
  assert (Hk : ~ (inject_Z (Z.of_nat k) == 0)%Q).
  { unfold Qeq. simpl. lia. }
  assert (Hq : (inject_Z (2 * Pd.zsum (seqZ (1 + Z.of_nat m) k))
                == inject_Z (Z.of_nat k * (2 * (1 + Z.of_nat m) + Z.of_nat k + -1)))%Q).
  { rewrite Hsum. apply inject_Z_injective. lia. }
  rewrite !inject_Z_mult, !inject_Z_plus, !inject_Z_mult, !inject_Z_plus in Hq.
  change (inject_Z 2) with 2%Q in Hq. change (inject_Z 1) with 1%Q in Hq.
  change (inject_Z (-1)) with (-1)%Q in Hq.
  field_simplify_eq; [| exact Hk].
  lra.
Qed.

(** ** The score of one cell of the ranked row *)

Lemma combine_fst_snd {A B C : Type} (f : B -> C) (row : list (A * B)) :
  combine (map fst row) (map f (map snd row))
  = map (fun cv => (fst cv, f (snd cv))) row.
Proof.
  induction row as [| [c v] row IH]; simpl; [reflexivity |].
  rewrite IH. reflexivity.
Qed.

Lemma rps_of_row_map (row : list (code * float)) :
  Ranker.rps_of_row row
  = map (fun cv => (fst cv, cell_score (map snd row) (snd cv))) row.
Proof.
  unfold Ranker.rps_of_row, Pd.rank_pct. rewrite map_map.
  apply (combine_fst_snd (cell_score (map snd row))).
Qed.

Lemma getitem_map_snd {A B : Type} (f : A -> B) (d : list (code * A)) (c : code) :
  getitem (map (fun cv => (fst cv, f (snd cv))) d) c
  = (v <- getitem d c ;; Ok (f v)).
Proof.
  induction d as [| [k v] d IH]; simpl; [reflexivity |].
  destruct (String.eqb k c); [reflexivity | exact IH].
Qed.

Lemma getitem_rps_of_row (row : list (code * float)) (c : code) :
  getitem (Ranker.rps_of_row row) c
  = (v <- getitem row c ;; Ok (cell_score (map snd row) v)).
Proof. rewrite rps_of_row_map. apply getitem_map_snd. Qed.

Lemma getitem_In {A : Type} (d : list (code * A)) (c : code) (v : A) :
  getitem d c = Ok v -> In v (map snd d).
Proof.
  induction d as [| [k w] d IH]; simpl; [discriminate |].
  destruct (String.eqb k c); intro H.
  - left. congruence.
  - right. auto.
Qed.

Lemma filter_disjoint_le {A : Type} (f g h : A -> bool) (l : list A) :
  (forall x, f x = true -> h x = true) ->
  (forall x, g x = true -> h x = true) ->
  (forall x, f x = true -> g x = false) ->
  (length (filter f l) + length (filter g l) <= length (filter h l))%nat.
Proof.
  intros Hf Hg Hfg. induction l as [| x l IH]; simpl; [lia |].
  destruct (f x) eqn:Ef; destruct (g x) eqn:Eg.
  - rewrite (Hfg x Ef) in Eg. discriminate.
  - rewrite (Hf x Ef). simpl. lia.
  - rewrite (Hg x Eg). simpl. lia.
  - destruct (h x); simpl; lia.
Qed.

Lemma count_less_equal_le (v : float) (s : Pd.Series) :
  (Spec.count_less v s + Spec.count_equal v s <= Pd.count s)%nat.
Proof.
  unfold Spec.count_less, Spec.count_equal, Pd.count.
  rewrite <- (dropna_idem s) at 3. unfold Pd.dropna at 3.
  apply filter_disjoint_le.
  - intros x H. apply ltb_notnan in H. destruct H as [H _]. rewrite H. reflexivity.
  - intros x H. apply eqb_notnan in H. destruct H as [H _]. rewrite H. reflexivity.
  - intros x H. apply ltb_eqb_false. exact H.
Qed.

Lemma count_equal_pos (v : float) (s : Pd.Series) :
  isnan v = false -> In v s -> Spec.count_equal v s <> 0%nat.
Proof.
  intros Hv Hin. unfold Spec.count_equal.
  assert (Hf : In v (filter (fun x => eqb x v) (Pd.dropna s))).
  { apply filter_In. split.
    - apply filter_In. split; [exact Hin | rewrite Hv; reflexivity].
    - apply eqb_refl. exact Hv. }
  destruct (filter (fun x => eqb x v) (Pd.dropna s)); [contradiction | discriminate].
Qed.

(** A strictly smaller value leaves its ties and everything below them
    under the larger one. *)
Lemma count_less_mono (v w : float) (s : Pd.Series) :
  ltb v w = true ->
  (Spec.count_less v s + Spec.count_equal v s <= Spec.count_less w s)%nat.
Proof.
  intros Hvw. unfold Spec.count_less, Spec.count_equal.
  apply filter_disjoint_le.
  - intros x H. eapply ltb_trans; eauto.
  - intros x H. eapply eqb_ltb_trans; eauto.
  - intros x H. apply ltb_eqb_false. exact H.
Qed.

Lemma inject_nat_pos (n : nat) : n <> 0%nat -> (0 < inject_Z (Z.of_nat n))%Q.
Proof. intro H. unfold Qlt. simpl. lia. Qed.

Lemma inject_nat_le (n m : nat) :
  (n <= m)%nat -> (inject_Z (Z.of_nat n) <= inject_Z (Z.of_nat m))%Q.
Proof. intro H. rewrite <- Zle_Qle. lia. Qed.

Lemma inject_nat_plus (n m : nat) :
  (inject_Z (Z.of_nat (n + m)) == inject_Z (Z.of_nat n) + inject_Z (Z.of_nat m))%Q.
Proof. rewrite Nat2Z.inj_add, inject_Z_plus. reflexivity. Qed.

(** The cell of a valid observation holds the percentile of the
    specification. *)
Lemma cell_score_valid (s : Pd.Series) (v : float) :
  isnan v = false -> In v s ->
  exists q, cell_score s v = Fin q /\ (q == Spec.percentile v s)%Q.
Proof.
  intros Hv Hin. pose proof (count_equal_pos v s Hv Hin) as Heq.
  pose proof (count_less_equal_le v s) as Hle.
  assert (Hn : Pd.count s <> 0%nat) by lia.
  pose proof (inject_nat_pos _ Hn) as Hpos.
  unfold cell_score. rewrite Hv. unfold div, of_nat, of_Z.
  assert (Qeq_bool (inject_Z (Z.of_nat (Pd.count s))) 0 = false) as ->.
  { apply Qeq_bool_false. lra. }
  simpl. eexists. split; [reflexivity |].
  unfold Spec.percentile. rewrite (average_rank_spec v s Heq).
  field. lra.
Qed.

Lemma cell_score_nan (s : Pd.Series) (v : float) :
  isnan v = true -> cell_score s v = NaN.
Proof. intro H. unfold cell_score. rewrite H. reflexivity. Qed.

(** Percentiles lie in (0, 100]. *)
Lemma percentile_range (s : Pd.Series) (v : float) :
  isnan v = false -> In v s ->
  (0 < Spec.percentile v s /\ Spec.percentile v s <= 100)%Q.
Proof.
  intros Hv Hin. pose proof (count_equal_pos v s Hv Hin) as Heq.
  pose proof (count_less_equal_le v s) as Hle.
  assert (Hn : Pd.count s <> 0%nat) by lia.
  pose proof (inject_nat_pos _ Hn) as Hpos.
  pose proof (inject_nat_pos _ Heq) as Hkpos.
  pose proof (inject_nat_le _ _ Hle) as Hsum. rewrite inject_nat_plus in Hsum.
  assert (Hk1 : (1 <= inject_Z (Z.of_nat (Spec.count_equal v s)))%Q).
  { change 1%Q with (inject_Z (Z.of_nat 1)). apply inject_nat_le. lia. }
  assert (Hm0 : (0 <= inject_Z (Z.of_nat (Spec.count_less v s)))%Q).
  { change 0%Q with (inject_Z (Z.of_nat 0)). apply inject_nat_le. lia. }
  unfold Spec.percentile, Spec.ascending_rank.
  set (n := inject_Z (Z.of_nat (Pd.count s))) in *.
  set (k := inject_Z (Z.of_nat (Spec.count_equal v s))) in *.
  set (m := inject_Z (Z.of_nat (Spec.count_less v s))) in *.
  assert (Hr : (1 <= m + (k + 1) / 2 /\ m + (k + 1) / 2 <= n)%Q).
  { unfold Qdiv. change (/ 2)%Q with (1 # 2)%Q. split; lra. }
  destruct Hr as [Hr1 Hrn]. set (r := (m + (k + 1) / 2)%Q) in *.
  split.
  - apply Qmult_lt_0_compat; [lra |].
    apply Qlt_shift_div_l; lra.
  - apply Qle_trans with (n * (100 / n))%Q.
    + apply Qmult_le_compat_r; [lra |].
      apply Qle_shift_div_l; lra.
    + assert (n * (100 / n) == 100)%Q as -> by (field; lra). lra.
Qed.

(** A strictly higher change gets a strictly higher percentile. *)
Lemma percentile_mono (s : Pd.Series) (v w : float) :
  In v s -> In w s -> ltb v w = true ->
  (Spec.percentile v s < Spec.percentile w s)%Q.
Proof.
  intros Hv Hw Hlt. destruct (ltb_notnan _ _ Hlt) as [Hnv Hnw].
  pose proof (count_equal_pos v s Hnv Hv) as Hkv.
  pose proof (count_equal_pos w s Hnw Hw) as Hkw.
  pose proof (count_less_equal_le v s) as Hle.
  assert (Hn : Pd.count s <> 0%nat) by lia.
  pose proof (inject_nat_pos _ Hn) as Hpos.
  pose proof (inject_nat_pos _ Hkv) as Hkvpos.
  pose proof (inject_nat_pos _ Hkw) as Hkwpos.
  pose proof (inject_nat_le _ _ (count_less_mono v w s Hlt)) as Hmono.
  rewrite inject_nat_plus in Hmono.
  unfold Spec.percentile, Spec.ascending_rank.
  set (n := inject_Z (Z.of_nat (Pd.count s))) in *.
  set (kv := inject_Z (Z.of_nat (Spec.count_equal v s))) in *.
  set (kw := inject_Z (Z.of_nat (Spec.count_equal w s))) in *.
  set (mv := inject_Z (Z.of_nat (Spec.count_less v s))) in *.
  set (mw := inject_Z (Z.of_nat (Spec.count_less w s))) in *.
  assert (Hk1 : (1 <= kv)%Q).
  { unfold kv. change 1%Q with (inject_Z (Z.of_nat 1)). apply inject_nat_le. lia. }
  assert (Hr : (mv + (kv + 1) / 2 < mw + (kw + 1) / 2)%Q).
  { unfold Qdiv. change (/ 2)%Q with (1 # 2)%Q. lra. }
  apply Qmult_lt_compat_r.
  - apply Qlt_shift_div_l; lra.
  - exact Hr.
Qed.

(** ** The union index does not depend on the order of the frames *)

Lemma insert_date_In (d x : Z) (idx : list Z) :
  In x (Ranker.insert_date d idx) <-> x = d \/ In x idx.
Proof.
  induction idx as [| e idx IH]; simpl.
  - intuition.
  - destruct (Z.ltb_spec d e); [simpl; intuition |].
    destruct (Z.eqb_spec d e); simpl.
    + subst. intuition.
    + rewrite IH. intuition.
Qed.

Lemma insert_date_sorted (d : Z) (idx : list Z) :
  StronglySorted Z.lt idx -> StronglySorted Z.lt (Ranker.insert_date d idx).
Proof.
  induction 1 as [| e idx Hs IH He]; simpl.
  - repeat constructor.
  - destruct (Z.ltb_spec d e).
    + constructor; [constructor; assumption |].
      constructor; [assumption |].
      eapply Forall_impl; [| exact He]. simpl. intros. lia.
    + destruct (Z.eqb_spec d e).
      * constructor; assumption.
      * constructor; [exact IH |].
        apply Forall_forall. intros x Hx. apply insert_date_In in Hx.
        destruct Hx as [-> | Hx]; [lia |].
        rewrite Forall_forall in He. auto.
Qed.

Lemma fold_insert_date_In (x : Z) (l : list Z) :
  In x (fold_right Ranker.insert_date [] l) <-> In x l.
Proof.
  induction l as [| d l IH]; simpl; [tauto |].
  rewrite insert_date_In, IH. intuition.
Qed.

Lemma fold_insert_date_sorted (l : list Z) :
  StronglySorted Z.lt (fold_right Ranker.insert_date [] l).
Proof.
  induction l as [| d l IH]; simpl; [constructor |].
  apply insert_date_sorted. exact IH.
Qed.

(** A strictly increasing list is determined by its elements. *)
Lemma strictly_sorted_ext (l1 : list Z) :
  forall l2,
    StronglySorted Z.lt l1 -> StronglySorted Z.lt l2 ->
    (forall x, In x l1 <-> In x l2) -> l1 = l2.
Proof.
  induction l1 as [| a l1 IH]; intros l2 H1 H2 Hin.
  - destruct l2 as [| b l2]; trivial.
    exfalso. apply (Hin b). left. reflexivity.
  - destruct l2 as [| b l2].
    + exfalso. apply (Hin a). left. reflexivity.
    + apply StronglySorted_inv in H1. destruct H1 as [H1 Ha].
      apply StronglySorted_inv in H2. destruct H2 as [H2 Hb].
      rewrite Forall_forall in Ha, Hb.
      assert (a = b).
      { destruct (proj1 (Hin a) (or_introl eq_refl)) as [Hab | Hab]; [congruence |].
        destruct (proj2 (Hin b) (or_introl eq_refl)) as [Hba | Hba]; [congruence |].
        specialize (Ha _ Hba). specialize (Hb _ Hab). lia. }
      subst b. f_equal. apply IH; trivial.
      intros x. split; intro Hx.
      * destruct (proj1 (Hin x) (or_intror Hx)) as [Hxa | Hxa]; trivial.
        subst x. specialize (Ha _ Hx). lia.
      * destruct (proj2 (Hin x) (or_intror Hx)) as [Hxa | Hxa]; trivial.
        subst x. specialize (Hb _ Hx). lia.
Qed.

Lemma flat_map_perm {A B : Type} (f : A -> list B) (l l' : list A) :
  Permutation l l' -> Permutation (flat_map f l) (flat_map f l').
Proof.
  induction 1; simpl.
  - constructor.
  - apply Permutation_app_head. assumption.
  - rewrite !app_assoc. apply Permutation_app_tail, Permutation_app_comm.
  - eapply Permutation_trans; eauto.
Qed.

Lemma union_index_perm (U U' : Universe) :
  Permutation U U' -> Ranker.union_index U = Ranker.union_index U'.
Proof.
  intro HP. unfold Ranker.union_index.
  apply strictly_sorted_ext; try apply fold_insert_date_sorted.
  intro x. rewrite !fold_insert_date_In.
  pose proof (flat_map_perm (fun cd : code * DataFrame => map date (snd cd)) _ _ HP) as Hf.
  split; apply Permutation_in; [exact Hf | apply Permutation_sym; exact Hf].
Qed.

(** ** Lookups by code in a permuted mapping *)

Lemma getitem_not_in {A : Type} (d : list (code * A)) (c : code) :
  ~ In c (map fst d) -> getitem d c = Raise KeyError.
Proof.
  induction d as [| [k v] d IH]; simpl; intro H; [reflexivity |].
  destruct (String.eqb_spec k c); [exfalso; auto | apply IH; auto].
Qed.

Lemma getitem_perm {A : Type} (d d' : list (code * A)) (c : code) :
  NoDup (map fst d) -> Permutation d d' -> getitem d c = getitem d' c.
Proof.
  intros Hnd HP. induction HP as [| [k v] d d' HP IH | [k1 v1] [k2 v2] d | d d' d'' HP1 IH1 HP2 IH2].
  - reflexivity.
  - simpl in *. inversion Hnd; subst. rewrite IH; trivial.
  - simpl in *. inversion Hnd as [| ? ? Hn1 Hnd']; subst.
    destruct (String.eqb_spec k1 c), (String.eqb_spec k2 c); trivial.
    subst. exfalso. apply Hn1. left. reflexivity.
  - rewrite IH1; trivial. apply IH2.
    eapply Permutation_NoDup; [| exact Hnd]. apply Permutation_map. exact HP1.
Qed.

(** ** The ranked row does not depend on the order of its cells *)

Lemma average_rank_perm (v : float) (s s' : Pd.Series) :
  Permutation s s' -> Pd.average_rank v s = Pd.average_rank v s'.
Proof.
  intro HP. unfold Pd.average_rank. rewrite !tied_ranks_sort_values.
  unfold Spec.count_less, Spec.count_equal.
  rewrite (filter_length_perm (fun x => ltb x v) _ _ (dropna_perm _ _ HP)).
  rewrite (filter_length_perm (fun x => eqb x v) _ _ (dropna_perm _ _ HP)).
  reflexivity.
Qed.

Lemma count_perm (s s' : Pd.Series) : Permutation s s' -> Pd.count s = Pd.count s'.
Proof. intro HP. unfold Pd.count. apply Permutation_length, dropna_perm, HP. Qed.

Lemma cell_score_perm (v : float) (s s' : Pd.Series) :
  Permutation s s' -> cell_score s v = cell_score s' v.
Proof.
  intro HP. unfold cell_score.
  rewrite (average_rank_perm v _ _ HP), (count_perm _ _ HP). reflexivity.
Qed.

Lemma rps_of_row_perm (row row' : list (code * float)) (c : code) :
  NoDup (map fst row) -> Permutation row row' ->
  getitem (Ranker.rps_of_row row) c = getitem (Ranker.rps_of_row row') c.
Proof.
  intros Hnd HP. rewrite !getitem_rps_of_row.
  rewrite <- (getitem_perm _ _ c Hnd HP).
  destruct (getitem row c); simpl; trivial.
  f_equal. apply cell_score_perm, Permutation_map, HP.
Qed.

Lemma latest_changes_perm (U U' : Universe) (p : nat) :
  Permutation U U' ->
  match Ranker.latest_changes U p, Ranker.latest_changes U' p with
  | Ok row, Ok row' => Permutation row row' /\ map fst row = map fst U
  | Raise e, Raise e' => e = e'
  | _, _ => False
  end.
Proof.
  intro HP. unfold Ranker.latest_changes, Ranker.all_closes.
  rewrite <- (union_index_perm _ _ HP).
  destruct (Pd.iloc_last (Ranker.union_index U)); simpl; [| reflexivity].
  split.
  - rewrite !map_map. apply Permutation_map. exact HP.
  - rewrite !map_map. reflexivity.
Qed.

Lemma rps_score_perm (U U' : Universe) (p : nat) (c : code) :
  NoDup (map fst U) -> Permutation U U' ->
  Ranker.rps_score U p c = Ranker.rps_score U' p c.
Proof.
  intros Hnd HP. unfold Ranker.rps_score, Ranker.rps_series.
  pose proof (latest_changes_perm U U' p HP) as H.
  destruct (Ranker.latest_changes U p) as [row | e],
           (Ranker.latest_changes U' p) as [row' | e']; simpl; try contradiction.
  - destruct H as [H Hk]. apply rps_of_row_perm; trivial. rewrite Hk. exact Hnd.
  - congruence.
Qed.

(** ** checkrps: the table of latest changes *)

Lemma iloc_last_raises {A : Type} (s : list A) (e : exn) :
  Pd.iloc_last s = Raise e -> e = IndexError.
Proof. unfold Pd.iloc_last. destruct (rev s); intro H; congruence. Qed.

Lemma latest_change_raises (pad : bool) (p : nat) (cd : code * DataFrame) (e : exn) :
  CheckRps.latest_change pad p cd = Raise e -> e = IndexError.
Proof.
  unfold CheckRps.latest_change.
  destruct (Pd.iloc_last _) eqn:E; simpl; [discriminate |].
  intro H. injection H as <-. eapply iloc_last_raises; eauto.
Qed.

Lemma latest_change_fst (pad : bool) (p : nat) (cd : code * DataFrame) :
  fst (latest_or_nan pad p cd) = fst cd.
Proof.
  unfold latest_or_nan, CheckRps.latest_change.
  destruct (Pd.iloc_last _); reflexivity.
Qed.

Lemma all_changes_spec (pad : bool) (p : nat) (U : Universe) :
  CheckRps.all_changes pad U p
  = if forallb (has_latest pad p) U then Ok (map (latest_or_nan pad p) U)
    else Raise IndexError.
Proof.
  unfold CheckRps.all_changes.
  induction U as [| cd U IH]; simpl; [reflexivity |].
  unfold has_latest at 1, latest_or_nan at 1.
  destruct (CheckRps.latest_change pad p cd) as [v | e] eqn:E; simpl.
  - rewrite IH. destruct (forallb (has_latest pad p) U); reflexivity.
  - rewrite (latest_change_raises _ _ _ _ E). reflexivity.
Qed.

Lemma forallb_perm {A : Type} (f : A -> bool) (l l' : list A) :
  Permutation l l' -> forallb f l = forallb f l'.
Proof.
  induction 1; simpl.
  - reflexivity.
  - congruence.
  - destruct (f x), (f y); reflexivity.
  - congruence.
Qed.

Lemma score_perm (changes changes' : list (code * float)) (v : float) :
  Permutation changes changes' ->
  CheckRps.score changes v = CheckRps.score changes' v.
Proof.
  intro HP. unfold CheckRps.score.
  pose proof (Permutation_map snd HP) as HPs.
  rewrite (filter_length_perm (fun change => ltb change v && negb (isnan change)) _ _ HPs).
  rewrite (filter_length_perm (fun change => negb (isnan change)) _ _ HPs).
  reflexivity.
Qed.

Lemma mapM_ext {A B : Type} (f g : A -> result B) (l : list A) :
  (forall a, In a l -> f a = g a) -> mapM f l = mapM g l.
Proof.
  induction l as [| a l IH]; simpl; intro H; [reflexivity |].
  rewrite (H a (or_introl eq_refl)), IH; auto.
Qed.

Lemma checkrps_perm (pad : bool) (U U' : Universe) (target : code) :
  NoDup (map fst U) -> Permutation U U' ->
  CheckRps.calculate_rps pad U target = CheckRps.calculate_rps pad U' target.
Proof.
  intros Hnd HP. unfold CheckRps.calculate_rps.
  rewrite <- (getitem_perm _ _ target Hnd HP).
  destruct (getitem U target); [| reflexivity].
  cbn [bind]. apply mapM_ext. intros p _.
  rewrite !all_changes_spec, <- (forallb_perm _ _ _ HP).
  destruct (forallb (has_latest pad p) U); simpl; [| reflexivity].
  assert (Hk : map fst (map (latest_or_nan pad p) U) = map fst U).
  { rewrite map_map. apply map_ext. intro cd. apply latest_change_fst. }
  rewrite <- (getitem_perm (map (latest_or_nan pad p) U) (map (latest_or_nan pad p) U') target).
  - destruct (getitem (map (latest_or_nan pad p) U) target); simpl; [| reflexivity].
    rewrite (score_perm _ (map (latest_or_nan pad p) U')); trivial.
    apply Permutation_map, HP.
  - rewrite Hk. exact Hnd.
  - apply Permutation_map, HP.
Qed.

(** ** Rows restricted to their valid observations *)

Lemma valid_only_values (row : list (code * float)) :
  map snd (valid_only row) = Pd.dropna (map snd row).
Proof.
  unfold valid_only, Pd.dropna.
  induction row as [| [c v] row IH]; simpl; [reflexivity |].
  destruct (negb (isnan v)); simpl; rewrite IH; reflexivity.
Qed.

Lemma getitem_valid_only (row : list (code * float)) (c : code) (v : float) :
  getitem row c = Ok v -> isnan v = false -> getitem (valid_only row) c = Ok v.
Proof.
  intros Hget Hv. induction row as [| [k w] row IH]; simpl in *; [discriminate |].
  destruct (String.eqb k c) eqn:E.
  - injection Hget as ->. rewrite Hv. simpl. rewrite E. reflexivity.
  - destruct (negb (isnan w)); simpl; [rewrite E |]; auto.
Qed.

Lemma cell_score_dropna (s : Pd.Series) (v : float) :
  cell_score (Pd.dropna s) v = cell_score s v.
Proof.
  unfold cell_score, Pd.average_rank, Pd.sort_values, Pd.count.
  rewrite dropna_idem. reflexivity.
Qed.

Lemma score_valid_only (row : list (code * float)) (v : float) :
  CheckRps.score (valid_only row) v = CheckRps.score row v.
Proof.
  unfold CheckRps.score. rewrite valid_only_values.
  assert (H1 : forall f : float -> bool,
             (forall x, f x = true -> isnan x = false) ->
             filter f (Pd.dropna (map snd row)) = filter f (map snd row)).
  { intros f Hf. unfold Pd.dropna. induction (map snd row) as [| x l IH]; simpl; trivial.
    destruct (isnan x) eqn:Ex; simpl.
    - destruct (f x) eqn:Efx; [rewrite (Hf x Efx) in Ex; discriminate | exact IH].
    - destruct (f x); rewrite IH; reflexivity. }
  rewrite !H1; trivial.
  - intros x H. apply negb_true_iff. exact H.
  - intros x H. apply andb_true_iff in H. destruct H as [_ H].
    apply negb_true_iff. exact H.
Qed.

(** ** The score written by the screeners' [calculate_rps] *)

(** On every universe, the score that [rpstool.py] and [train.py] write
    for an instrument with a valid latest change is its averaged 1-indexed
    ascending rank among the valid changes, times 100 / n. *)
Lemma rps_score_is_percentile (U : Universe) (p : nat) (row : list (code * float))
      (c : code) (v : float) :
  Ranker.latest_changes U p = Ok row ->
  getitem row c = Ok v ->
  isnan v = false ->
  exists q, Ranker.rps_score U p c = Ok (Fin q)
            /\ (q == Spec.percentile v (map snd row))%Q.
Proof.
  intros Hrow Hget Hv. unfold Ranker.rps_score, Ranker.rps_series.
  rewrite Hrow. simpl. rewrite getitem_rps_of_row, Hget. simpl.
  destruct (cell_score_valid (map snd row) v Hv (getitem_In _ _ _ Hget)) as [q [Hq1 Hq2]].
  exists q. rewrite Hq1. split; [reflexivity | exact Hq2].
Qed.

(** The screeners' scores lie in (0, 100] and grow strictly with the
    change. *)
Lemma rps_score_range_mono (U : Universe) (p : nat) (row : list (code * float))
      (c c' : code) (v v' : float) :
  Ranker.latest_changes U p = Ok row ->
  getitem row c = Ok v -> getitem row c' = Ok v' ->
  isnan v = false -> ltb v v' = true ->
  exists q q', Ranker.rps_score U p c = Ok (Fin q)
               /\ Ranker.rps_score U p c' = Ok (Fin q')
               /\ (0 < q /\ q <= 100 /\ q < q' /\ q' <= 100)%Q.
Proof.
  intros Hrow Hget Hget' Hv Hlt.
  destruct (ltb_notnan _ _ Hlt) as [_ Hv'].
  destruct (rps_score_is_percentile U p row c v Hrow Hget Hv) as [q [Hs Hq]].
  destruct (rps_score_is_percentile U p row c' v' Hrow Hget' Hv') as [q' [Hs' Hq']].
  pose proof (getitem_In _ _ _ Hget) as Hin. pose proof (getitem_In _ _ _ Hget') as Hin'.
  destruct (percentile_range (map snd row) v Hv Hin) as [H0 H100].
  destruct (percentile_range (map snd row) v' Hv' Hin') as [_ H100'].
  pose proof (percentile_mono (map snd row) v v' Hin Hin' Hlt) as Hm.
  exists q, q'. repeat split; trivial; lra.
Qed.

(** The lookup of [checkrps.py] reports, for a valid change, the share
    of the valid changes strictly below it: rank [r] without ties maps to
    [(r - 1) / n * 100]. *)
Lemma checkrps_score_counts_below (changes : list (code * float)) (v : float) :
  isnan v = false -> In v (map snd changes) ->
  exists q, CheckRps.score changes v = Ok (Fin q)
            /\ (q == inject_Z (Z.of_nat (Spec.count_less v (map snd changes)))
                     / inject_Z (Z.of_nat (Pd.count (map snd changes))) * 100)%Q.
Proof.
  intros Hv Hin. unfold CheckRps.score. rewrite Hv.
  assert (Hless : length (filter (fun change => ltb change v && negb (isnan change))
                                 (map snd changes))
                  = Spec.count_less v (map snd changes)).
  { unfold Spec.count_less, Pd.dropna. clear Hin.
    induction (map snd changes) as [| x l IH]; simpl; [reflexivity |].
    destruct (isnan x) eqn:Ex; simpl.
    - rewrite andb_false_r. exact IH.
    - rewrite andb_true_r. destruct (ltb x v); simpl; rewrite IH; reflexivity. }
  rewrite Hless. fold (Pd.dropna (map snd changes)). fold (Pd.count (map snd changes)).
  pose proof (count_equal_pos v _ Hv Hin) as Heq.
  pose proof (count_less_equal_le v (map snd changes)) as Hle.
  unfold CheckRps.truediv.
  destruct (Nat.eqb_spec (Pd.count (map snd changes)) 0) as [H0 | _]; [lia |].
  cbn [bind mul]. eexists. split; reflexivity.
Qed.

(** C1.  On the universe of the scenario the screeners score 66.67, 33.33
    and 100.0, the averaged rank times 100 / 3, while the lookup of
    [checkrps.py] reports 33.33, 0.0 and 66.67 for the same instruments:
    it counts the changes strictly below the target's instead of ranking
    the target. *)
Theorem checkrps_scenario_scores (pad : bool) :
  exists a b c a' b' c',
    Ranker.rps_score Scenario.three 50 "000001"%string = Ok a
    /\ Ranker.rps_score Scenario.three 50 "000002"%string = Ok b
    /\ Ranker.rps_score Scenario.three 50 "000003"%string = Ok c
    /\ same (round2 a) (Fin 66.67)
    /\ same (round2 b) (Fin 33.33)
    /\ same (round2 c) (Fin 100)
    /\ Scenario.checkrps_rps50 pad Scenario.three "000001"%string = Ok a'
    /\ Scenario.checkrps_rps50 pad Scenario.three "000002"%string = Ok b'
    /\ Scenario.checkrps_rps50 pad Scenario.three "000003"%string = Ok c'
    /\ same (round2 a') (Fin 33.33)
    /\ same (round2 b') (Fin 0)
    /\ same (round2 c') (Fin 66.67).
Proof.
  destruct pad; do 6 eexists;
    repeat match goal with
      | |- _ /\ _ => split
      end;
    try (vm_compute; reflexivity).
Qed.

(** C2.  [checkrps.py] gives the lowest valid change of a universe the
    score 0, outside (0, 100]; the screeners give the same instrument 50. *)
Theorem checkrps_lowest_scores_zero (pad : bool) :
  exists lo lo',
    Scenario.checkrps_rps50 pad Scenario.two "600000"%string = Ok (Fin lo)
    /\ ~ (0 < lo)%Q
    /\ Ranker.rps_score Scenario.two 50 "600000"%string = Ok (Fin lo')
    /\ (lo' == 50)%Q.
Proof.
  destruct pad; do 2 eexists;
    (split; [vm_compute; reflexivity |]);
    (split; [vm_compute; discriminate |]);
    (split; [vm_compute; reflexivity |]);
    vm_compute; reflexivity.
Qed.

(** What [calculate_rps] writes into the frames is the score of the
    table: every row of the instrument's frame carries it. *)
Lemma calculate_rps_writes_score (U : Universe) (p : nat) :
  forall (U2 : Universe) (c : code) (df : DataFrame),
    Ranker.calculate_rps U p = Ok U2 ->
    getitem U2 c = Ok df ->
    exists v, Ranker.rps_score U p c = Ok v /\ Forall (fun r => rps r p = v) df.
Proof.
  unfold Ranker.calculate_rps, Ranker.rps_score.
  destruct (Ranker.rps_series U p) as [tbl | e]; simpl; [| discriminate].
  induction U as [| [k d] U IH]; simpl; intros U2 c df Hm Hget.
  - injection Hm as <-. discriminate.
  - destruct (getitem tbl k) as [v | e] eqn:Ev; simpl in Hm; [| discriminate].
    destruct (mapM _ U) as [bs | e] eqn:Em; simpl in Hm; [| discriminate].
    injection Hm as <-. simpl in Hget.
    destruct (String.eqb_spec k c) as [-> | Hne].
    + injection Hget as <-. exists v. split; [exact Ev |].
      unfold set_rps. apply Forall_forall. intros r Hr.
      apply in_map_iff in Hr. destruct Hr as [r0 [<- _]]. simpl.
      rewrite Nat.eqb_refl. reflexivity.
    + eapply IH; eauto.
Qed.

(** C3.  An instrument whose latest change is missing is scored NaN, by
    the screeners and by the lookup alike; an instrument with a valid
    change is scored exactly as in the row restricted to the valid
    changes, its rank being divided by the number of valid changes. *)
Theorem missing_change_gets_no_score (pad : bool) (U : Universe) (p : nat) (c : code) :
  (forall row v,
      Ranker.latest_changes U p = Ok row -> getitem row c = Ok v ->
      (isnan v = true -> Ranker.rps_score U p c = Ok NaN)
      /\ (isnan v = false ->
          Ranker.rps_score U p c = getitem (Ranker.rps_of_row (valid_only row)) c
          /\ exists q, Ranker.rps_score U p c = Ok (Fin q)
                       /\ (q == Spec.ascending_rank v (map snd row)
                                * (100 / inject_Z (Z.of_nat (Pd.count (map snd row)))))%Q))
  /\ (forall changes v,
         CheckRps.all_changes pad U p = Ok changes -> getitem changes c = Ok v ->
         (isnan v = true -> CheckRps.score changes v = Ok NaN)
         /\ (isnan v = false ->
             CheckRps.score changes v = CheckRps.score (valid_only changes) v)).
Proof.
  split.
  - intros row v Hrow Hget. split; intro Hv.
    + unfold Ranker.rps_score, Ranker.rps_series. rewrite Hrow. simpl.
      rewrite getitem_rps_of_row, Hget. simpl. rewrite cell_score_nan; trivial.
    + split.
      * unfold Ranker.rps_score, Ranker.rps_series. rewrite Hrow. simpl.
        rewrite !getitem_rps_of_row, Hget, (getitem_valid_only _ _ _ Hget Hv). simpl.
        rewrite valid_only_values, cell_score_dropna. reflexivity.
      * apply (rps_score_is_percentile U p row c v Hrow Hget Hv).
  - intros changes v _ _. split; intro Hv.
    + unfold CheckRps.score. rewrite Hv. reflexivity.
    + symmetry. apply score_valid_only.
Qed.

Lemma missing_change_witness :
  Ranker.rps_score Scenario.with_newcomer 50 "000004"%string = Ok NaN
  /\ Ranker.rps_score Scenario.with_newcomer 50 "000001"%string
     = getitem (Ranker.rps_of_row (valid_only Scenario.newcomer_changes)) "000001"%string
  /\ CheckRps.score Scenario.newcomer_changes NaN = Ok NaN
  /\ CheckRps.score Scenario.newcomer_changes (Fin 0.10)
     = CheckRps.score (valid_only Scenario.newcomer_changes) (Fin 0.10).
Proof.
  assert (Hrow : Ranker.latest_changes Scenario.with_newcomer 50
                 = Ok Scenario.newcomer_changes) by (vm_compute; reflexivity).
  assert (Hch : CheckRps.all_changes false Scenario.with_newcomer 50
                = Ok Scenario.newcomer_changes) by (vm_compute; reflexivity).
  destruct (missing_change_gets_no_score false Scenario.with_newcomer 50 "000004"%string)
    as [Hscreen4 Hlookup4].
  destruct (missing_change_gets_no_score false Scenario.with_newcomer 50 "000001"%string)
    as [Hscreen1 Hlookup1].
  destruct (Hscreen4 _ NaN Hrow eq_refl) as [Hs4 _].
  destruct (Hscreen1 _ (Fin 0.10) Hrow eq_refl) as [_ Hs1].
  destruct (Hlookup4 _ NaN Hch eq_refl) as [Hl4 _].
  destruct (Hlookup1 _ (Fin 0.10) Hch eq_refl) as [_ Hl1].
  split; [exact (Hs4 eq_refl) |].
  split; [exact (proj1 (Hs1 eq_refl)) |].
  split; [exact (Hl4 eq_refl) | exact (Hl1 eq_refl)].
Defined.

(** C4.  Permuting the mapping from instrument code to series changes no
    score: neither the one the screeners write for an instrument nor the
    ones the lookup reports for it. *)
Theorem rps_invariant_under_permutation (pad : bool) (U U' : Universe) (p : nat) (c : code) :
  NoDup (map fst U) -> Permutation U U' ->
  Ranker.rps_score U p c = Ranker.rps_score U' p c
  /\ CheckRps.calculate_rps pad U c = CheckRps.calculate_rps pad U' c.
Proof.
  intros Hnd HP. split.
  - apply rps_score_perm; assumption.
  - apply checkrps_perm; assumption.
Qed.

Lemma rps_invariant_witness :
  Ranker.rps_score Scenario.three 50 "000002"%string
  = Ranker.rps_score (rev Scenario.three) 50 "000002"%string
  /\ CheckRps.calculate_rps true Scenario.three "000002"%string
     = CheckRps.calculate_rps true (rev Scenario.three) "000002"%string.
Proof.
  apply rps_invariant_under_permutation.
  - unfold Scenario.three. simpl.
    repeat constructor; simpl; intuition discriminate.
  - apply Permutation_rev.
Defined.

(** ** First-pass filter: moving-average alignment *)

(** C5.  An instrument whose ma60 is above ma120 and ma250 while ma250 is
    above ma120 satisfies the alignment test of [filter_criteria], which
    never compares ma120 with ma250, and is selected by the first pass. *)
Theorem alignment_accepts_unordered_averages :
  (latest <- Pd.iloc_last (RpsTool.calculate_moving_averages Scenario.diverging) ;;
   Ok (gtb (close latest) (ma latest 40),
       gtb (ma latest 60) (ma latest 120),
       gtb (ma latest 60) (ma latest 250),
       geb (ma latest 250) (ma latest 120),
       RpsTool.ma_condition latest))
  = Ok (true, true, true, true, true)
  /\ (selected <- RpsTool.main Scenario.year_start Scenario.noon_260
                    [("600519"%string, Scenario.diverging)] ["600519"%string] ;;
      Ok (map RpsTool.sel_code selected))
     = Ok ["600519"%string].
Proof. split; vm_compute; reflexivity. Qed.

(** ** Second-pass filter: moving-average trend *)

Lemma tail_rows_nonempty {A : Type} (n : nat) (l : list A) :
  l <> [] -> n <> 0%nat -> Pd.tail_rows n l <> [].
Proof.
  intros Hl Hn. unfold Pd.tail_rows. intro H.
  assert (Hlen : length (skipn (length l - n) l) = 0%nat) by (rewrite H; reflexivity).
  rewrite length_skipn in Hlen.
  destruct l as [| a l]; [contradiction |].
  change (length (a :: l)) with (S (length l)) in Hlen. lia.
Qed.

(** [diff] leaves NaN in the first row of the slice it is applied to, so
    the test over the last five bars fails on its first bar. *)
Lemma ma_condition_5days_false (df : DataFrame) :
  df <> [] -> Train.ma_condition_5days df = false.
Proof.
  intro Hdf. unfold Train.ma_condition_5days.
  pose proof (tail_rows_nonempty 5 df Hdf ltac:(discriminate)) as Ht.
  destruct (Pd.tail_rows 5 df) as [| r rest]; [contradiction |].
  unfold Pd.diff, Pd.shift. simpl.
  destruct (ma r 20%nat); reflexivity.
Qed.

Lemma iloc_last_nonempty {A : Type} (l : list A) (x : A) :
  Pd.iloc_last l = Ok x -> l <> [].
Proof. intros H ->. discriminate. Qed.

(** C6, as amended.  The trend condition holds whenever, on the most
    recent bar, both moving averages exceed the prior bar's and ma10 is
    above ma20; and whenever it holds, ma10 is above ma20 on the latest
    bar and ma20 is above its value on the prior bar. *)
Theorem ma_trend_fresh_branch (df : DataFrame) (latest previous : Row) :
  Pd.iloc_last df = Ok latest ->
  Pd.iloc_prev df = Ok previous ->
  (Spec.fresh_trend latest previous = true ->
   Train.check_ma_trend df latest previous = true)
  /\ (Train.check_ma_trend df latest previous = true ->
      gtb (ma latest 10) (ma latest 20) = true
      /\ gtb (ma latest 20) (ma previous 20) = true).
Proof.
  intros Hlast _. unfold Train.check_ma_trend.
  rewrite (ma_condition_5days_false df (iloc_last_nonempty _ _ Hlast)). simpl.
  unfold Spec.fresh_trend, Train.ma_condition_latest. split.
  - trivial.
  - intro H. apply andb_true_iff in H. destruct H as [H H3].
    apply andb_true_iff in H. destruct H as [_ H2]. split; assumption.
Qed.

Lemma ma_trend_fresh_witness :
  exists latest previous,
    Pd.iloc_last Scenario.fresh_trend_rows = Ok latest
    /\ Pd.iloc_prev Scenario.fresh_trend_rows = Ok previous
    /\ Train.check_ma_trend Scenario.fresh_trend_rows latest previous = true
    /\ gtb (ma latest 10) (ma latest 20) = true
    /\ gtb (ma latest 20) (ma previous 20) = true.
Proof.
  exists (Scenario.ma_row 5 12 11), (Scenario.ma_row 4 11 10).
  destruct (ma_trend_fresh_branch Scenario.fresh_trend_rows
              (Scenario.ma_row 5 12 11) (Scenario.ma_row 4 11 10) eq_refl eq_refl)
    as [Hfresh Hholds].
  split; [reflexivity |]. split; [reflexivity |].
  split; [exact (Hfresh eq_refl) | exact (Hholds (Hfresh eq_refl))].
Defined.

(** A series with ma10 rising and above ma20 on each of the last five
    bars, ma20 being flat: branch (a) of the specification holds, the condition of
    the code does not. *)
Lemma ma_trend_not_sustained_branch :
  ~ (forall (df : DataFrame) (latest previous : Row),
        Pd.iloc_last df = Ok latest ->
        Pd.iloc_prev df = Ok previous ->
        (Train.check_ma_trend df latest previous = true
         <-> Spec.sustained_trend df = true \/ Spec.fresh_trend latest previous = true)).
Proof.
  intro H.
  specialize (H Scenario.rising_over_flat
                (Scenario.ma_row 5 15 10) (Scenario.ma_row 4 14 10) eq_refl eq_refl).
  destruct H as [_ H].
  assert (Hcode : Train.check_ma_trend Scenario.rising_over_flat
                    (Scenario.ma_row 5 15 10) (Scenario.ma_row 4 14 10) = false)
    by (vm_compute; reflexivity).
  rewrite Hcode in H. discriminate H. left. vm_compute. reflexivity.
Qed.

(** ** First-pass filter: the cap on the yearly gain *)

Lemma iloc_last_cons {A : Type} (x : A) (l : list A) :
  exists y, Pd.iloc_last (x :: l) = Ok y.
Proof.
  unfold Pd.iloc_last.
  destruct (rev (x :: l)) as [| y r] eqn:E.
  - apply (f_equal (@length A)) in E. rewrite length_rev in E. discriminate.
  - exists y. reflexivity.
Qed.

Lemma all_last_false (a b c d : bool) : all [a; b; c; d; false] = false.
Proof. destruct a, b, c, d; reflexivity. Qed.

(** C7, as amended.  For a series whose first bar is dated strictly after
    the start of the year, the yearly gain is not computable ([None]), and
    [filter_criteria] returns [False] without raising. *)
Theorem no_history_before_year_excluded
        (YEAR_START_DATE now : Z) (first : Row) (rest : DataFrame) :
  YEAR_START_DATE < date first ->
  RpsTool.calculate_max_gain_this_year YEAR_START_DATE (first :: rest) = Ok None
  /\ RpsTool.max_gain_condition None = false
  /\ RpsTool.filter_criteria YEAR_START_DATE now (first :: rest) = Ok false.
Proof.
  intro Hlate.
  assert (Hgain : RpsTool.calculate_max_gain_this_year YEAR_START_DATE (first :: rest)
                  = Ok None).
  { unfold RpsTool.calculate_max_gain_this_year. simpl.
    destruct (Z.ltb_spec YEAR_START_DATE (date first)); [reflexivity | lia]. }
  split; [exact Hgain |]. split; [reflexivity |].
  unfold RpsTool.filter_criteria.
  destruct (iloc_last_cons first rest) as [latest ->]. cbn [bind].
  rewrite Hgain. cbn [bind]. unfold RpsTool.max_gain_condition.
  rewrite all_last_false. reflexivity.
Qed.

Lemma no_history_before_year_witness :
  RpsTool.calculate_max_gain_this_year (timedelta_days 1) Scenario.listed_in_march = Ok None
  /\ RpsTool.max_gain_condition None = false
  /\ RpsTool.filter_criteria (timedelta_days 1) (timedelta_days 63) Scenario.listed_in_march
     = Ok false.
Proof.
  apply (no_history_before_year_excluded (timedelta_days 1) (timedelta_days 63)
           (Scenario.bar 60 10) [Scenario.bar 61 10; Scenario.bar 62 10]).
  vm_compute. reflexivity.
Defined.

(** A series none of whose bars is dated before the start of the year,
    the first one being dated on the very first day: the yearly gain is
    computed (0.0 here) and the cap condition holds. *)
Lemma gain_computed_from_new_year :
  ~ (forall (YEAR_START_DATE : Z) (df : DataFrame),
        (forall r, In r df -> YEAR_START_DATE <= date r) ->
        RpsTool.calculate_max_gain_this_year YEAR_START_DATE df = Ok None
        /\ (g <- RpsTool.calculate_max_gain_this_year YEAR_START_DATE df ;;
            Ok (RpsTool.max_gain_condition g)) = Ok false).
Proof.
  intro H.
  assert (Hcap : (g <- RpsTool.calculate_max_gain_this_year (timedelta_days 1)
                        Scenario.from_new_year ;;
                  Ok (RpsTool.max_gain_condition g)) = Ok true)
    by (vm_compute; reflexivity).
  destruct (H (timedelta_days 1) Scenario.from_new_year) as [_ Hfalse].
  - intros r Hr. simpl in Hr.
    destruct Hr as [<- | [<- | [<- | []]]]; vm_compute; discriminate.
  - rewrite Hcap in Hfalse. discriminate Hfalse.
Qed.

(** ** The orchestrators' output order *)





(** ** The lookup's command line *)

(** C9, as amended.  A wrong number of arguments exits with status 1 and
    the usage message, an ASCII argument that is not six digits with
    status 1 and a request for a valid code, both before the cache is
    loaded; a code that is absent from the cache exits with the same
    status 1 and its own message, nothing else being printed. *)
Theorem cli_errors_exit_one (pad : bool) (argv : list string) (cache : Universe) :
  (length argv <> 2%nat ->
   CheckRps.main pad argv cache = CheckRps.mkOutcome [CheckRps.Usage] 1 false)
  /\ (forall prog target,
         argv = [prog; target] ->
         is_ascii target = true ->
         String.length target <> 6%nat \/ CheckRps.isdigit target = false ->
         CheckRps.main pad argv cache = CheckRps.mkOutcome [CheckRps.InvalidCode] 1 false)
  /\ (forall prog target,
         argv = [prog; target] ->
         String.length target = 6%nat -> CheckRps.isdigit target = true ->
         CheckRps.in_cache cache target = false ->
         CheckRps.main pad argv cache
         = CheckRps.mkOutcome [CheckRps.NotFound target] 1 true).
Proof.
  split; [| split].
  - intro Hlen. destruct argv as [| a [| b [| c rest]]]; simpl in *; try reflexivity.
    exfalso. apply Hlen. reflexivity.
  - intros prog target -> _ Hbad. simpl.
    destruct Hbad as [Hlen | Hdig].
    + apply Nat.eqb_neq in Hlen. rewrite Hlen. reflexivity.
    + rewrite Hdig. rewrite orb_true_r. reflexivity.
  - intros prog target -> Hlen Hdig Hin. simpl.
    rewrite Hlen, Hdig, Hin. reflexivity.
Qed.

Lemma cli_errors_witness :
  CheckRps.main false ["checkrps.py"%string] Scenario.three
  = CheckRps.mkOutcome [CheckRps.Usage] 1 false
  /\ CheckRps.main false ["checkrps.py"%string; "60000a"%string] Scenario.three
     = CheckRps.mkOutcome [CheckRps.InvalidCode] 1 false
  /\ CheckRps.main false ["checkrps.py"%string; "600000"%string] Scenario.three
     = CheckRps.mkOutcome [CheckRps.NotFound "600000"%string] 1 true.
Proof.
  split; [| split].
  - apply (proj1 (cli_errors_exit_one false ["checkrps.py"%string] Scenario.three)).
    simpl. discriminate.
  - apply (proj1 (proj2 (cli_errors_exit_one false
                           ["checkrps.py"%string; "60000a"%string] Scenario.three))
             "checkrps.py"%string "60000a"%string eq_refl eq_refl).
    right. reflexivity.
  - apply (proj2 (proj2 (cli_errors_exit_one false
                           ["checkrps.py"%string; "600000"%string] Scenario.three))
             "checkrps.py"%string "600000"%string eq_refl); reflexivity.
Defined.

(** The exit status for a code that is absent from the cache is the one
    of a usage error. *)
Lemma not_found_status_is_usage_status :
  ~ (forall (pad : bool) (cache : Universe) (prog target : string),
        String.length target = 6%nat -> CheckRps.isdigit target = true ->
        CheckRps.in_cache cache target = false ->
        CheckRps.exit_status (CheckRps.main pad [prog; target] cache)
        <> CheckRps.exit_status (CheckRps.main pad [prog] cache)).
Proof.
  intro H.
  apply (H false Scenario.three "checkrps.py"%string "600000"%string);
    reflexivity.
Qed.

(** ** Missing RPS scores in the filters *)

Lemma add_nan_l (x y : float) : isnan x = true -> add x y = NaN.
Proof. destruct x; try discriminate. reflexivity. Qed.

Lemma add_nan_r (x y : float) : isnan y = true -> add x y = NaN.
Proof. destruct y; try discriminate. destruct x; reflexivity. Qed.

Lemma rps_sum_nan (latest : Row) :
  isnan (rps latest 120) = true \/ isnan (rps latest 250) = true ->
  gtb (add (rps latest 120) (rps latest 250)) (Fin 185) = false.
Proof.
  intros [H | H]; [rewrite add_nan_l | rewrite add_nan_r]; trivial.
Qed.

Lemma all_second_false (a c d e : bool) : all [a; false; c; d; e] = false.
Proof. destruct a; reflexivity. Qed.

(** With a missing rps120 or rps250 on the latest row the first-pass
    filter never answers [True]: it answers [False], unless the yearly
    gain raises. *)
Lemma first_pass_rejects_missing_rps (YEAR_START_DATE now : Z) (df : DataFrame) (latest : Row) :
  Pd.iloc_last df = Ok latest ->
  isnan (rps latest 120) = true \/ isnan (rps latest 250) = true ->
  RpsTool.filter_criteria YEAR_START_DATE now df = Ok false
  \/ (RpsTool.filter_criteria YEAR_START_DATE now df = Raise IndexError
      /\ RpsTool.calculate_max_gain_this_year YEAR_START_DATE df = Raise IndexError).
Proof.
  intros Hlast Hnan. unfold RpsTool.filter_criteria. rewrite Hlast. cbn [bind].
  destruct (RpsTool.calculate_max_gain_this_year YEAR_START_DATE df) as [g | e] eqn:Eg.
  - left. cbn [bind]. unfold RpsTool.rps_condition.
    rewrite (rps_sum_nan latest Hnan), all_second_false. reflexivity.
  - right. cbn [bind].
    assert (e = IndexError) as ->; [| split; reflexivity].
    unfold RpsTool.calculate_max_gain_this_year in Eg.
    destruct (Pd.iloc_first df) as [first | e1] eqn:E1; cbn [bind] in Eg.
    + destruct (YEAR_START_DATE <? date first); [discriminate |].
      cbv zeta in Eg.
      destruct (Pd.iloc_first (map close _)) as [x | e2] eqn:E2; cbn [bind] in Eg;
        [discriminate Eg |].
      unfold Pd.iloc_first in E2. destruct (map close _); congruence.
    + unfold Pd.iloc_first in E1. destruct df; congruence.
Qed.

(** With a missing rps120 or rps250 on the latest row the second-pass
    filter answers [False]. *)
Lemma second_pass_rejects_missing_rps (now : Z) (df : DataFrame) (latest previous : Row) :
  Pd.iloc_last df = Ok latest ->
  Pd.iloc_prev df = Ok previous ->
  isnan (rps latest 120) = true \/ isnan (rps latest 250) = true ->
  Train.filter_criteria now df = Ok false.
Proof.
  intros Hlast Hprev Hnan. unfold Train.filter_criteria.
  rewrite Hlast, Hprev. cbn [bind]. unfold Train.check_rps.
  rewrite (rps_sum_nan latest Hnan). reflexivity.
Qed.

(** A frame of 250 bars that all predate the start of the year has no
    rps250, and [filter_criteria] of [rpstool.py] raises on it instead of
    returning [False]: the yearly gain reads the first bar of an empty
    selection.  The exception ends the run of [main]; [train.py] returns
    an empty table for the same cache. *)
Lemma stale_frame_raises :
  (latest <- Pd.iloc_last (RpsTool.calculate_moving_averages Scenario.stale) ;;
   Ok (isnan (rps latest 250)))
  = Ok true
  /\ Ranker.rps_score [("600000"%string, Scenario.stale)] 250 "600000"%string = Ok NaN
  /\ RpsTool.filter_criteria (timedelta_days 300) (timedelta_days 301)
       (RpsTool.calculate_moving_averages Scenario.stale)
     = Raise IndexError
  /\ RpsTool.main (timedelta_days 300) (timedelta_days 301)
       [("600000"%string, Scenario.stale)] ["600000"%string]
     = Raise IndexError
  /\ Train.main (timedelta_days 301)
       [("600000"%string, Scenario.stale)] ["600000"%string]
     = Ok [].
Proof. repeat split; vm_compute; reflexivity. Qed.

(** With a bar dated on or after the start of the year the yearly gain
    does not raise. *)
Lemma max_gain_returns (YEAR_START_DATE : Z) (df : DataFrame) (r : Row) :
  In r df -> YEAR_START_DATE <= date r ->
  exists g, RpsTool.calculate_max_gain_this_year YEAR_START_DATE df = Ok g.
Proof.
  intros Hin Hr. unfold RpsTool.calculate_max_gain_this_year.
  destruct df as [| first rest]; [contradiction |]. cbn [Pd.iloc_first bind].
  destruct (YEAR_START_DATE <? date first); [eexists; reflexivity |].
  cbv zeta.
  assert (Hf : In r (filter (fun r0 => YEAR_START_DATE <=? date r0) (first :: rest))).
  { apply filter_In. split; [exact Hin | apply Z.leb_le; exact Hr]. }
  destruct (filter (fun r0 => YEAR_START_DATE <=? date r0) (first :: rest)) as [| x xs];
    [contradiction |].
  cbn [map Pd.iloc_first bind]. eexists. reflexivity.
Qed.

Lemma first_pass_returns_false (YEAR_START_DATE now : Z) (df : DataFrame) (latest r : Row) :
  Pd.iloc_last df = Ok latest ->
  isnan (rps latest 120) = true \/ isnan (rps latest 250) = true ->
  In r df -> YEAR_START_DATE <= date r ->
  RpsTool.filter_criteria YEAR_START_DATE now df = Ok false.
Proof.
  intros Hlast Hnan Hin Hr.
  destruct (first_pass_rejects_missing_rps YEAR_START_DATE now df latest Hlast Hnan)
    as [H | [_ H]]; [exact H |].
  destruct (max_gain_returns YEAR_START_DATE df r Hin Hr) as [g Hg]. congruence.
Qed.

(** ** From the scores to the selected rows *)

Lemma set_rps_dates (p : nat) (v : float) (df : DataFrame) :
  map date (set_rps p v df) = map date df.
Proof. unfold set_rps. rewrite map_map. reflexivity. Qed.

Lemma cell_set_rps (d : Z) (p : nat) (v : float) (df : DataFrame) :
  Ranker.cell d (set_rps p v df) = Ranker.cell d df.
Proof.
  unfold Ranker.cell. induction df as [| r df IH]; simpl; [reflexivity |].
  destruct (date r =? d); [reflexivity | exact IH].
Qed.

Lemma same_bars_latest_changes (U U' : Universe) (p : nat) :
  Forall2 same_bars U U' ->
  Ranker.latest_changes U' p = Ranker.latest_changes U p.
Proof.
  intro H.
  assert (Hidx : Ranker.union_index U' = Ranker.union_index U).
  { unfold Ranker.union_index. f_equal.
    induction H as [| cd cd' U U' [_ [Hd _]] _ IH]; simpl; [reflexivity |].
    f_equal; [exact Hd | exact IH]. }
  unfold Ranker.latest_changes, Ranker.all_closes. rewrite Hidx. clear Hidx.
  generalize (Ranker.union_index U). intro idx.
  destruct (Pd.iloc_last idx); simpl; [| reflexivity].
  f_equal. rewrite !map_map.
  induction H as [| cd cd' U U' [Hc [_ Hcell]] _ IH]; simpl; [reflexivity |].
  f_equal; [| exact IH].
  f_equal; [exact Hc |].
  do 2 f_equal. apply map_ext. intro d. apply Hcell.
Qed.

Lemma same_bars_rps_score (U U' : Universe) (p : nat) (c : code) :
  Forall2 same_bars U U' -> Ranker.rps_score U' p c = Ranker.rps_score U p c.
Proof.
  intro H. unfold Ranker.rps_score, Ranker.rps_series.
  rewrite (same_bars_latest_changes U U' p H). reflexivity.
Qed.

Lemma calculate_rps_same_bars (U : Universe) (p : nat) :
  forall U', Ranker.calculate_rps U p = Ok U' -> Forall2 same_bars U U'.
Proof.
  unfold Ranker.calculate_rps.
  destruct (Ranker.rps_series U p) as [tbl | e]; simpl; [| discriminate].
  induction U as [| [k d] U IH]; simpl; intros U' Hm.
  - injection Hm as <-. constructor.
  - destruct (getitem tbl k) as [v | e]; simpl in Hm; [| discriminate].
    destruct (mapM _ U) as [bs | e]; simpl in Hm; [| discriminate].
    injection Hm as <-. constructor; [| apply IH; reflexivity].
    repeat split; simpl.
    + apply set_rps_dates.
    + intro d0. apply cell_set_rps.
Qed.

(** The frame that [calculate_rps] leaves under a code is the former one
    with the score broadcast over the rps column. *)
Lemma calculate_rps_getitem (U : Universe) (p : nat) :
  forall (U' : Universe) (c : code) (df' : DataFrame),
    Ranker.calculate_rps U p = Ok U' ->
    getitem U' c = Ok df' ->
    exists v df, Ranker.rps_score U p c = Ok v
                 /\ getitem U c = Ok df
                 /\ df' = set_rps p v df.
Proof.
  unfold Ranker.calculate_rps, Ranker.rps_score.
  destruct (Ranker.rps_series U p) as [tbl | e]; simpl; [| discriminate].
  induction U as [| [k d] U IH]; simpl; intros U' c df' Hm Hget.
  - injection Hm as <-. discriminate.
  - destruct (getitem tbl k) as [v | e] eqn:Ev; simpl in Hm; [| discriminate].
    destruct (mapM _ U) as [bs | e] eqn:Em; simpl in Hm; [| discriminate].
    injection Hm as <-. simpl in Hget.
    destruct (String.eqb_spec k c) as [-> | Hne].
    + injection Hget as <-. exists v, d. repeat split. exact Ev.
    + eapply IH; eauto.
Qed.

Lemma set_ma_rows (w : nat) (col : Pd.Series) (df : DataFrame) (r' : Row) :
  In r' (set_ma w col df) -> exists r, In r df /\ rps r' = rps r.
Proof.
  unfold set_ma. revert col. induction df as [| r df IH]; intros col Hin; simpl in Hin.
  - contradiction.
  - destruct col as [| v col]; [contradiction |]. destruct Hin as [<- | Hin].
    + exists r. split; [left; reflexivity | reflexivity].
    + destruct (IH col Hin) as [r0 [H0 H1]]. exists r0. split; [right |]; assumption.
Qed.

Lemma moving_averages_rows (df : DataFrame) (r' : Row) :
  In r' (RpsTool.calculate_moving_averages df) -> exists r, In r df /\ rps r' = rps r.
Proof.
  unfold RpsTool.calculate_moving_averages. simpl. intro H.
  apply set_ma_rows in H. destruct H as [r3 [H Hr3]].
  apply set_ma_rows in H. destruct H as [r2 [H Hr2]].
  apply set_ma_rows in H. destruct H as [r1 [H Hr1]].
  apply set_ma_rows in H. destruct H as [r0 [H Hr0]].
  exists r0. split; [exact H | congruence].
Qed.

Lemma iloc_last_In {A : Type} (l : list A) (x : A) : Pd.iloc_last l = Ok x -> In x l.
Proof.
  unfold Pd.iloc_last. destruct (rev l) as [| y r] eqn:E; [discriminate |].
  intro H. injection H as <-. apply in_rev. rewrite E. left. reflexivity.
Qed.

(** A selected instrument has both scores on its latest row. *)
Lemma process_stock_selected (YEAR_START_DATE now : Z) (c : code) (U : Universe)
      (sel : RpsTool.Selected) :
  RpsTool.process_stock YEAR_START_DATE now c U = Ok (Some sel) ->
  RpsTool.sel_code sel = c
  /\ exists df r, getitem U c = Ok df /\ In r df
                  /\ isnan (rps r 120) = false /\ isnan (rps r 250) = false.
Proof.
  unfold RpsTool.process_stock. intro H.
  destruct (getitem U c) as [df | e]; cbn [bind] in H; [| discriminate].
  destruct (250 <=? length df)%nat; [| discriminate].
  cbv zeta in H.
  destruct (RpsTool.filter_criteria _ _ _) as [[|] | e] eqn:Ef; cbn [bind] in H;
    try discriminate.
  destruct (Pd.iloc_last _) as [latest | e] eqn:El; cbn [bind] in H; [| discriminate].
  destruct (RpsTool.calculate_max_gain_this_year _ _) as [g | e]; cbn [bind] in H;
    [| discriminate].
  injection H as <-. split; [reflexivity |].
  destruct (moving_averages_rows df latest (iloc_last_In _ _ El)) as [r [Hr Hrps]].
  exists df, r. split; [reflexivity |]. split; [exact Hr |].
  rewrite <- Hrps.
  destruct (isnan (rps latest 120)) eqn:E120.
  - destruct (first_pass_rejects_missing_rps YEAR_START_DATE now _ latest El
                (or_introl E120))
      as [Hc | [Hc _]]; rewrite Hc in Ef; discriminate.
  - destruct (isnan (rps latest 250)) eqn:E250; [| split; reflexivity].
    destruct (first_pass_rejects_missing_rps YEAR_START_DATE now _ latest El
                (or_intror E250))
      as [Hc | [Hc _]]; rewrite Hc in Ef; discriminate.
Qed.

Lemma collect_In {A : Type} (done : list (result (option A))) :
  forall rows a, RpsTool.collect done = Ok rows -> In a rows -> In (Ok (Some a)) done.
Proof.
  induction done as [| r done IH]; simpl; intros rows a H Hin.
  - injection H as <-. contradiction.
  - destruct r as [o | e]; cbn [bind] in H; [| discriminate].
    destruct (RpsTool.collect done) as [rest | e]; cbn [bind] in H; [| discriminate].
    injection H as <-. destruct o as [b |].
    + destruct Hin as [-> | Hin]; [left; reflexivity | right; eapply IH; eauto].
    + right. eapply IH; eauto.
Qed.

(** No row of the table written by [rpstool.py] belongs to an instrument
    whose rps120 or rps250 is missing. *)
Lemma selected_rows_have_scores (YEAR_START_DATE now : Z) (cache : Universe)
      (completion : list code) (rows : list RpsTool.Selected) (sel : RpsTool.Selected) :
  RpsTool.main YEAR_START_DATE now cache completion = Ok rows ->
  In sel rows ->
  let all_stocks_data := filter (fun cd => (250 <=? length (snd cd))%nat) cache in
  exists v120 v250,
    Ranker.rps_score all_stocks_data 120 (RpsTool.sel_code sel) = Ok v120
    /\ Ranker.rps_score all_stocks_data 250 (RpsTool.sel_code sel) = Ok v250
    /\ isnan v120 = false /\ isnan v250 = false.
Proof.
  unfold RpsTool.main, RpsTool.calculate_rps. intros Hmain Hin. cbv zeta in *.
  set (U := filter (fun cd => (250 <=? length (snd cd))%nat) cache) in *.
  destruct (Ranker.calculate_rps U 50) as [u50 | e] eqn:E50; cbn [bind] in Hmain;
    [| discriminate].
  destruct (Ranker.calculate_rps u50 120) as [u120 | e] eqn:E120; cbn [bind] in Hmain;
    [| discriminate].
  destruct (Ranker.calculate_rps u120 250) as [u250 | e] eqn:E250; cbn [bind] in Hmain;
    [| discriminate].
  pose proof (collect_In _ _ _ Hmain Hin) as Hdone.
  apply in_map_iff in Hdone. destruct Hdone as [c [Hproc _]].
  apply process_stock_selected in Hproc.
  destruct Hproc as [Hcode [df250 [r [Hget [Hr [Hn120 Hn250]]]]]].
  rewrite Hcode.
  destruct (calculate_rps_getitem _ _ _ _ _ E250 Hget) as [v250 [df120 [Hs250 [Hg120 ->]]]].
  destruct (calculate_rps_getitem _ _ _ _ _ E120 Hg120) as [v120 [df50 [Hs120 [_ ->]]]].
  pose proof (calculate_rps_same_bars _ _ _ E50) as B50.
  pose proof (calculate_rps_same_bars _ _ _ E120) as B120.
  rewrite (same_bars_rps_score _ _ 250 c B120), (same_bars_rps_score _ _ 250 c B50) in Hs250.
  rewrite (same_bars_rps_score _ _ 120 c B50) in Hs120.
  exists v120, v250. split; [exact Hs120 |]. split; [exact Hs250 |].
  unfold set_rps in Hr. apply in_map_iff in Hr. destruct Hr as [r1 [<- Hr1]].
  apply in_map_iff in Hr1. destruct Hr1 as [r0 [<- _]].
  simpl in Hn120, Hn250. split; assumption.
Qed.

(** ** Calendars shorter than the lookback period *)

Lemma firstn_repeat_app {A : Type} (x : A) (n p : nat) (l : list A) :
  (n <= p)%nat -> firstn n (repeat x p ++ l) = repeat x n.
Proof.
  revert p. induction n as [| n IH]; intros p Hle; [reflexivity |].
  destruct p as [| p]; [lia |]. simpl. f_equal. apply IH. lia.
Qed.

Lemma pct_change_short (p : nat) (s : Pd.Series) :
  (length s <= p)%nat -> Forall (fun x => x = NaN) (Pd.pct_change_nofill p s).
Proof.
  intro Hle. unfold Pd.pct_change_nofill, Pd.shift.
  rewrite firstn_repeat_app by exact Hle.
  clear Hle. induction s as [| x s IH]; simpl; constructor; trivial.
  destruct x; reflexivity.
Qed.

Lemma last_all_nan (l : list float) : Forall (fun x => x = NaN) l -> last l NaN = NaN.
Proof.
  induction 1 as [| x l Hx Hl IH]; [reflexivity |].
  destruct l; [exact Hx | exact IH].
Qed.

(** When the union of the dates has no more than [p] entries, no
    instrument has a period-[p] score. *)
Lemma short_calendar_no_score (U : Universe) (p : nat) (c : code) (v : float) :
  (length (Ranker.union_index U) <= p)%nat ->
  Ranker.rps_score U p c = Ok v -> v = NaN.
Proof.
  intros Hle. unfold Ranker.rps_score, Ranker.rps_series, Ranker.latest_changes.
  destruct (Pd.iloc_last (Ranker.union_index U)); cbn [bind]; [| discriminate].
  rewrite getitem_rps_of_row.
  destruct (getitem _ c) as [v0 | e] eqn:Eg; cbn [bind]; [| discriminate].
  intro H. injection H as <-.
  apply getitem_In in Eg. rewrite map_map in Eg. apply in_map_iff in Eg.
  destruct Eg as [cc [<- Hcc]]. unfold Ranker.all_closes in Hcc.
  apply in_map_iff in Hcc. destruct Hcc as [cd [<- _]]. simpl.
  rewrite last_all_nan; [reflexivity |].
  apply pct_change_short. rewrite length_map. exact Hle.
Qed.

(** ** Missing scores and selection *)

(** C10, as amended.  On a frame whose latest row lacks rps120 or rps250
    the first-pass filter returns [False] as soon as one bar is dated on
    or after the start of the year, and the second-pass filter returns
    [False]; no row of the first-pass output belongs to an instrument
    without both scores; and when the union of the dates of the universe
    has at most 250 entries, no instrument has an rps250 and the output is
    empty. *)
Theorem missing_rps_never_selected (YEAR_START_DATE now : Z) :
  (forall df latest r,
      Pd.iloc_last df = Ok latest ->
      isnan (rps latest 120) = true \/ isnan (rps latest 250) = true ->
      In r df -> YEAR_START_DATE <= date r ->
      RpsTool.filter_criteria YEAR_START_DATE now df = Ok false)
  /\ (forall df latest previous,
         Pd.iloc_last df = Ok latest -> Pd.iloc_prev df = Ok previous ->
         isnan (rps latest 120) = true \/ isnan (rps latest 250) = true ->
         Train.filter_criteria now df = Ok false)
  /\ (forall cache completion rows,
         RpsTool.main YEAR_START_DATE now cache completion = Ok rows ->
         let all_stocks_data := filter (fun cd => (250 <=? length (snd cd))%nat) cache in
         (forall sel,
             In sel rows ->
             exists v120 v250,
               Ranker.rps_score all_stocks_data 120 (RpsTool.sel_code sel) = Ok v120
               /\ Ranker.rps_score all_stocks_data 250 (RpsTool.sel_code sel) = Ok v250
               /\ isnan v120 = false /\ isnan v250 = false)
         /\ ((length (Ranker.union_index all_stocks_data) <= 250)%nat -> rows = [])).
Proof.
  split; [| split].
  - intros df latest r. apply first_pass_returns_false.
  - intros df latest previous. apply second_pass_rejects_missing_rps.
  - intros cache completion rows Hmain. cbv zeta. split.
    + intros sel Hin.
      apply (selected_rows_have_scores YEAR_START_DATE now cache completion rows sel Hmain Hin).
    + intro Hshort. destruct rows as [| sel rows]; [reflexivity | exfalso].
      destruct (selected_rows_have_scores YEAR_START_DATE now cache completion
                  (sel :: rows) sel Hmain (or_introl eq_refl))
        as [v120 [v250 [_ [Hs [_ Hn]]]]].
      rewrite (short_calendar_no_score _ _ _ _ Hshort Hs) in Hn. discriminate.
Qed.

Lemma missing_rps_witness :
  RpsTool.filter_criteria (timedelta_days 200) (timedelta_days 251) Scenario.stale = Ok false
  /\ Train.filter_criteria (timedelta_days 6) Scenario.fresh_trend_rows = Ok false
  /\ (exists v120 v250,
         Ranker.rps_score Scenario.cache7 120 "600519"%string = Ok v120
         /\ Ranker.rps_score Scenario.cache7 250 "600519"%string = Ok v250
         /\ isnan v120 = false /\ isnan v250 = false)
  /\ Scenario.selected_codes
       (RpsTool.main (timedelta_days 200) (timedelta_days 251)
          [("600000"%string, Scenario.stale)] ["600000"%string])
     = [].
Proof.
  assert (Hlast : Pd.iloc_last Scenario.stale = Ok (Scenario.bar 250 10))
    by (vm_compute; reflexivity).
  assert (Hdate : timedelta_days 200 <= date (Scenario.bar 250 10))
    by (apply Z.leb_le; vm_compute; reflexivity).
  assert (Hrows : exists sel rows,
             RpsTool.main Scenario.year_start Scenario.noon_260 Scenario.cache7
               (map fst Scenario.cache7) = Ok (sel :: rows)
             /\ RpsTool.sel_code sel = "600519"%string).
  { eexists. eexists. split; [vm_compute; reflexivity | reflexivity]. }
  assert (Hkeep : filter (fun cd => (250 <=? length (snd cd))%nat) Scenario.cache7
                  = Scenario.cache7) by (vm_compute; reflexivity).
  assert (Hempty : exists rows,
             RpsTool.main (timedelta_days 200) (timedelta_days 251)
               [("600000"%string, Scenario.stale)] ["600000"%string] = Ok rows).
  { eexists. vm_compute. reflexivity. }
  assert (Hshort : (length (Ranker.union_index
                              (filter (fun cd => (250 <=? length (snd cd))%nat)
                                      [("600000"%string, Scenario.stale)])) <= 250)%nat)
    by (apply Nat.leb_le; vm_compute; reflexivity).
  destruct (missing_rps_never_selected (timedelta_days 200) (timedelta_days 251))
    as [Hfirst [_ Hmain]].
  destruct (missing_rps_never_selected Scenario.year_start (timedelta_days 6))
    as [_ [Hsecond Hmain7]].
  split.
  { apply (Hfirst Scenario.stale (Scenario.bar 250 10) (Scenario.bar 250 10) Hlast).
    - left. reflexivity.
    - apply iloc_last_In. exact Hlast.
    - exact Hdate. }
  split.
  { apply (Hsecond Scenario.fresh_trend_rows
             (Scenario.ma_row 5 12 11) (Scenario.ma_row 4 11 10) eq_refl eq_refl).
    left. reflexivity. }
  split.
  { destruct Hrows as [sel [rows [Hrun Hcode]]].
    destruct (missing_rps_never_selected Scenario.year_start Scenario.noon_260)
      as [_ [_ Hsel]].
    destruct (Hsel Scenario.cache7 (map fst Scenario.cache7) (sel :: rows) Hrun)
      as [Hscores _].
    specialize (Hscores sel (or_introl eq_refl)).
    rewrite Hkeep, Hcode in Hscores. exact Hscores. }
  { destruct Hempty as [rows Hrun].
    destruct (Hmain _ _ rows Hrun) as [_ Hnone].
    rewrite Hrun, (Hnone Hshort). reflexivity. }
Defined.

(** A stale frame without rps250 on which the first-pass filter raises,
    and a series of exactly 250 bars that is selected: its 250-period
    change is taken 250 rows back in the table aligned on the dates of the
    whole universe, which here has 260 of them. *)
Lemma missing_rps_raises_or_selected :
  ~ (forall (YEAR_START_DATE now : Z) (df : DataFrame) (latest : Row),
        Pd.iloc_last df = Ok latest ->
        isnan (rps latest 120) = true \/ isnan (rps latest 250) = true ->
        RpsTool.filter_criteria YEAR_START_DATE now df = Ok false)
  /\ ~ (forall (YEAR_START_DATE now : Z) (cache : Universe) (completion : list code)
               (c : code) (df : DataFrame),
           In (c, df) cache -> length df = 250%nat ->
           ~ In c (Scenario.selected_codes
                     (RpsTool.main YEAR_START_DATE now cache completion))).
Proof.
  split.
  - intro H. destruct stale_frame_raises as [Hnan [_ [Hraise _]]].
    destruct (Pd.iloc_last (RpsTool.calculate_moving_averages Scenario.stale))
      as [latest | e] eqn:El; cbn [bind] in Hnan; [| discriminate].
    injection Hnan as Hnan.
    rewrite (H (timedelta_days 300) (timedelta_days 301) _ latest El (or_intror Hnan))
      in Hraise.
    discriminate.
  - intro H.
    apply (H Scenario.year_start Scenario.noon_260 Scenario.cache_suspended
             (map fst Scenario.cache_suspended) "600519"%string Scenario.suspended).
    + left. reflexivity.
    + vm_compute. reflexivity.
    + assert (Hsel : Scenario.selected_codes
                       (RpsTool.main Scenario.year_start Scenario.noon_260
                          Scenario.cache_suspended (map fst Scenario.cache_suspended))
                     = ["600519"%string]) by (vm_compute; reflexivity).
      rewrite Hsel. left. reflexivity.
Qed.

(** * Further properties of the screeners *)

(** ** Columns of a frame after [calculate_moving_averages] *)

Lemma zip_with_length {A B C : Type} (f : A -> B -> C) (l : list A) (m : list B) :
  length (Pd.zip_with f l m) = Nat.min (length l) (length m).
Proof.
  revert m. induction l as [| a l IH]; intros [| b m]; simpl; auto.
Qed.

Lemma rolling_mean_length (w : nat) (s : Pd.Series) :
  length (Pd.rolling_mean w s) = length s.
Proof. unfold Pd.rolling_mean. rewrite length_map, length_seq. reflexivity. Qed.

Lemma set_ma_length (w : nat) (col : Pd.Series) (df : DataFrame) :
  length col = length df -> length (set_ma w col df) = length df.
Proof. intro H. unfold set_ma. rewrite zip_with_length, H. apply Nat.min_id. Qed.

Lemma set_ma_written (w : nat) (col : Pd.Series) (df : DataFrame) :
  length col = length df -> map (fun r => ma r w) (set_ma w col df) = col.
Proof.
  unfold set_ma. revert col. induction df as [| r df IH]; intros [| v col] H;
    simpl in *; try discriminate; trivial.
  rewrite Nat.eqb_refl. f_equal. apply IH. lia.
Qed.

Lemma set_ma_other (w k : nat) (col : Pd.Series) (df : DataFrame) :
  k <> w -> length col = length df ->
  map (fun r => ma r k) (set_ma w col df) = map (fun r => ma r k) df.
Proof.
  intro Hk. apply Nat.eqb_neq in Hk.
  unfold set_ma. revert col. induction df as [| r df IH]; intros [| v col] H;
    simpl in *; try discriminate; trivial.
  rewrite Hk. f_equal. apply IH. lia.
Qed.

Lemma set_ma_kept {A : Type} (f : Row -> A) (w : nat) (col : Pd.Series) (df : DataFrame) :
  (forall d c m m' r, f (mkRow d c m r) = f (mkRow d c m' r)) ->
  length col = length df ->
  map f (set_ma w col df) = map f df.
Proof.
  intro Hf. unfold set_ma. revert col.
  induction df as [| r df IH]; intros [| v col] H; simpl in *; try discriminate; trivial.
  f_equal; [| apply IH; lia].
  destruct r as [d c m rp]. simpl. apply Hf.
Qed.

(** The shared body of the two [calculate_moving_averages]. *)
Lemma windows_columns (ws : list nat) :
  forall df,
    let df' := fold_left (fun d w => set_ma w (Pd.rolling_mean w (map close d)) d) ws df in
    map date df' = map date df
    /\ map close df' = map close df
    /\ map rps df' = map rps df
    /\ forall k, map (fun r => ma r k) df'
                 = if existsb (Nat.eqb k) ws then Pd.rolling_mean k (map close df)
                   else map (fun r => ma r k) df.
Proof.
  induction ws as [| w ws IH]; intro df; cbv zeta; simpl.
  - repeat split.
  - specialize (IH (set_ma w (Pd.rolling_mean w (map close df)) df)). cbv zeta in IH.
    destruct IH as [Hd [Hc [Hr Hm]]].
    assert (Hlen : length (Pd.rolling_mean w (map close df)) = length df).
    { rewrite rolling_mean_length, length_map. reflexivity. }
    assert (Hc1 : map close (set_ma w (Pd.rolling_mean w (map close df)) df) = map close df).
    { apply set_ma_kept; [reflexivity | exact Hlen]. }
    split; [rewrite Hd; apply set_ma_kept; [reflexivity | exact Hlen] |].
    split; [rewrite Hc; exact Hc1 |].
    split; [rewrite Hr; apply set_ma_kept; [reflexivity | exact Hlen] |].
    intro k. rewrite Hm, Hc1.
    destruct (existsb (Nat.eqb k) ws); [rewrite orb_true_r; reflexivity |].
    rewrite orb_false_r. destruct (Nat.eqb_spec k w) as [-> | Hne].
    + apply set_ma_written. exact Hlen.
    + apply set_ma_other; assumption.
Qed.

Lemma first_pass_moving_averages_columns_hold (df : DataFrame) :
  let df' := RpsTool.calculate_moving_averages df in
  map date df' = map date df
  /\ map close df' = map close df
  /\ map rps df' = map rps df
  /\ forall k, map (fun r => ma r k) df'
               = if existsb (Nat.eqb k) [40; 60; 120; 250]%nat
                 then Pd.rolling_mean k (map close df)
                 else map (fun r => ma r k) df.
Proof. exact (windows_columns [40; 60; 120; 250]%nat df). Qed.

(** X1.  [calculate_moving_averages] of [rpstool.py] keeps the index, the
    closes and the rps columns of the frame, writes into each of ma40,
    ma60, ma120 and ma250 the rolling mean of the closes, and leaves every
    other column as it was; the four writes do not disturb one another. *)
Theorem first_pass_moving_averages_columns (df : DataFrame) :
  let df' := RpsTool.calculate_moving_averages df in
  map date df' = map date df
  /\ map close df' = map close df
  /\ map rps df' = map rps df
  /\ forall k, map (fun r => ma r k) df'
               = if existsb (Nat.eqb k) [40; 60; 120; 250]%nat
                 then Pd.rolling_mean k (map close df)
                 else map (fun r => ma r k) df.
Proof. exact (first_pass_moving_averages_columns_hold df). Qed.

Lemma second_pass_moving_averages_columns_hold (df : DataFrame) :
  let df' := Train.calculate_moving_averages df in
  map date df' = map date df
  /\ map close df' = map close df
  /\ map rps df' = map rps df
  /\ forall k, map (fun r => ma r k) df'
               = if existsb (Nat.eqb k) [10; 20; 200; 250]%nat
                 then Pd.rolling_mean k (map close df)
                 else map (fun r => ma r k) df.
Proof. exact (windows_columns [10; 20; 200; 250]%nat df). Qed.

(** X2.  The same for [train.py], whose windows are 10, 20, 200 and 250. *)
Theorem second_pass_moving_averages_columns (df : DataFrame) :
  let df' := Train.calculate_moving_averages df in
  map date df' = map date df
  /\ map close df' = map close df
  /\ map rps df' = map rps df
  /\ forall k, map (fun r => ma r k) df'
               = if existsb (Nat.eqb k) [10; 20; 200; 250]%nat
                 then Pd.rolling_mean k (map close df)
                 else map (fun r => ma r k) df.
Proof. exact (second_pass_moving_averages_columns_hold df). Qed.

(** ** Rolling means at the ends of a column *)

Lemma firstn_seq (k : nat) : forall a n, firstn k (seq a n) = seq a (Nat.min k n).
Proof.
  induction k as [| k IH]; intros a [| n]; simpl; trivial.
  f_equal. apply IH.
Qed.

Lemma rolling_mean_head (w : nat) (s : Pd.Series) :
  Forall (fun x => x = NaN) (firstn (w - 1) (Pd.rolling_mean w s)).
Proof.
  unfold Pd.rolling_mean. rewrite firstn_map, firstn_seq.
  apply Forall_forall. intros x Hx. apply in_map_iff in Hx.
  destruct Hx as [i [<- Hi]]. apply in_seq in Hi.
  destruct (Nat.leb_spec w (i + 1)); [lia | reflexivity].
Qed.

Lemma last_map_seq {A : Type} (g : nat -> A) (n : nat) (d : A) :
  last (map g (seq 0 (S n))) d = g n.
Proof.
  rewrite seq_S, map_app. simpl. apply last_last.
Qed.

Lemma rolling_mean_last (w : nat) (s : Pd.Series) :
  (w <= length s)%nat -> s <> [] ->
  last (Pd.rolling_mean w s) NaN = div (Pd.fsum (Pd.tail_rows w s)) (of_nat w).
Proof.
  intros Hw Hs. unfold Pd.rolling_mean, Pd.tail_rows.
  destruct (length s) as [| n] eqn:En; [destruct s; [contradiction | discriminate] |].
  rewrite last_map_seq.
  destruct (Nat.leb_spec w (n + 1)); [| lia].
  replace (n + 1 - w)%nat with (S n - w)%nat by lia.
  rewrite firstn_all2; [reflexivity |]. rewrite length_skipn. lia.
Qed.

Lemma rolling_mean_last_short (w : nat) (s : Pd.Series) :
  (length s < w)%nat -> last (Pd.rolling_mean w s) NaN = NaN.
Proof.
  intro Hw. apply last_all_nan.
  rewrite <- (firstn_all (Pd.rolling_mean w s)), rolling_mean_length.
  pose proof (rolling_mean_head w s) as H.
  rewrite <- (firstn_skipn (length s) (firstn (w - 1) (Pd.rolling_mean w s))) in H.
  apply Forall_app in H. destruct H as [H _].
  rewrite firstn_firstn in H. replace (Nat.min (length s) (w - 1)) with (length s) in H by lia.
  exact H.
Qed.

Lemma fold_add_nan (l : list float) : fold_left add l NaN = NaN.
Proof. induction l as [| x l IH]; simpl; trivial. Qed.

(** A missing value anywhere in the window makes the sum missing. *)
Lemma fsum_nan (l : list float) : In NaN l -> Pd.fsum l = NaN.
Proof.
  unfold Pd.fsum. generalize (Fin 0) as acc.
  induction l as [| x l IH]; intros acc Hin; [contradiction |].
  simpl. destruct Hin as [-> | Hin].
  - destruct acc; simpl; apply fold_add_nan.
  - apply IH. exact Hin.
Qed.

Lemma iloc_last_map {A B : Type} (f : A -> B) (l : list A) (x : A) (d : B) :
  Pd.iloc_last l = Ok x -> last (map f l) d = f x.
Proof.
  unfold Pd.iloc_last. destruct (rev l) as [| y r] eqn:E; [discriminate |].
  intro H. injection H as <-.
  apply (f_equal (@rev A)) in E. rewrite rev_involutive in E. subst l.
  simpl. rewrite map_app. simpl. apply last_last.
Qed.

Lemma all_third_false (a b d e : bool) : all [a; b; false; d; e] = false.
Proof. destruct a, b; reflexivity. Qed.

(** The ma250 of the latest row after the first-pass averages. *)
Lemma first_pass_latest_ma250 (df : DataFrame) (latest : Row) :
  Pd.iloc_last (RpsTool.calculate_moving_averages df) = Ok latest ->
  ma latest 250 = last (Pd.rolling_mean 250 (map close df)) NaN.
Proof.
  intro Hlast.
  destruct (first_pass_moving_averages_columns_hold df) as [_ [_ [_ Hm]]].
  rewrite <- (iloc_last_map (fun r => ma r 250%nat) _ latest NaN Hlast).
  rewrite (Hm 250%nat). reflexivity.
Qed.

Lemma ma_condition_needs_ma250 (latest : Row) :
  ma latest 250 = NaN -> RpsTool.ma_condition latest = false.
Proof.
  intro H. unfold RpsTool.ma_condition, gtb. rewrite H. simpl.
  apply andb_false_r.
Qed.

(** X3.  The first-pass filter never answers [True] for a frame with
    fewer than 250 bars, nor for a frame with a missing close among its
    last 250 bars: the 250-day average of the latest bar is then missing
    and the alignment test fails.  Such an instrument is not selected. *)
Theorem first_pass_needs_250_valid_closes
        (YEAR_START_DATE now : Z) (bs_code : code) (U : Universe) (df : DataFrame) :
  getitem U bs_code = Ok df ->
  (length df < 250)%nat \/ In NaN (Pd.tail_rows 250 (map close df)) ->
  (forall latest,
      Pd.iloc_last (RpsTool.calculate_moving_averages df) = Ok latest ->
      ma latest 250 = NaN)
  /\ RpsTool.filter_criteria YEAR_START_DATE now (RpsTool.calculate_moving_averages df)
     <> Ok true
  /\ forall sel, RpsTool.process_stock YEAR_START_DATE now bs_code U <> Ok (Some sel).
Proof.
  intros Hget Hbad.
  assert (Hma : forall latest,
             Pd.iloc_last (RpsTool.calculate_moving_averages df) = Ok latest ->
             ma latest 250 = NaN).
  { intros latest Hlast. rewrite (first_pass_latest_ma250 df latest Hlast).
    destruct (Nat.lt_ge_cases (length df) 250) as [Hshort | Hlong].
    - apply rolling_mean_last_short. rewrite length_map. exact Hshort.
    - destruct Hbad as [Hshort | Hnan]; [lia |].
      rewrite rolling_mean_last.
      + rewrite (fsum_nan _ Hnan). reflexivity.
      + rewrite length_map. exact Hlong.
      + destruct df; [simpl in Hlong; lia | discriminate]. }
  assert (Hfilter : RpsTool.filter_criteria YEAR_START_DATE now
                      (RpsTool.calculate_moving_averages df) <> Ok true).
  { unfold RpsTool.filter_criteria.
    destruct (Pd.iloc_last (RpsTool.calculate_moving_averages df)) as [latest | e] eqn:El;
      cbn [bind]; [| discriminate].
    destruct (RpsTool.calculate_max_gain_this_year _ _) as [g | e]; cbn [bind];
      [| discriminate].
    rewrite (ma_condition_needs_ma250 latest (Hma latest eq_refl)), all_third_false.
    discriminate. }
  split; [exact Hma |]. split; [exact Hfilter |].
  intros sel H. unfold RpsTool.process_stock in H. rewrite Hget in H. cbn [bind] in H.
  destruct (250 <=? length df)%nat; [| discriminate].
  cbv zeta in H.
  destruct (RpsTool.filter_criteria _ _ _) as [[|] | e]; cbn [bind] in H;
    try discriminate.
  apply Hfilter. reflexivity.
Qed.

Lemma first_pass_needs_250_witness :
  RpsTool.filter_criteria (timedelta_days 1) (timedelta_days 101)
    (RpsTool.calculate_moving_averages (Scenario.flat 1 100 10))
  <> Ok true
  /\ forall sel,
      RpsTool.process_stock (timedelta_days 1) (timedelta_days 101) "600000"%string
        [("600000"%string, Scenario.flat 1 100 10)]
      <> Ok (Some sel).
Proof.
  assert (Hshort : (length (Scenario.flat 1 100 10) < 250)%nat)
    by (apply Nat.ltb_lt; vm_compute; reflexivity).
  destruct (first_pass_needs_250_valid_closes (timedelta_days 1) (timedelta_days 101)
              "600000"%string [("600000"%string, Scenario.flat 1 100 10)]
              (Scenario.flat 1 100 10) eq_refl (or_introl Hshort))
    as [_ H].
  exact H.
Defined.

(** ** The second pass needs 274 bars *)

Lemma count_true_le_length (l : list bool) : (count_true l <= length l)%nat.
Proof. unfold count_true. apply filter_length_le. Qed.

Lemma count_true_app (l m : list bool) :
  count_true (l ++ m) = (count_true l + count_true m)%nat.
Proof. unfold count_true. rewrite filter_app, length_app. reflexivity. Qed.

Lemma count_true_skipn (k : nat) (l : list bool) :
  (count_true (skipn k l) <= count_true l)%nat.
Proof.
  rewrite <- (firstn_skipn k l) at 2. rewrite count_true_app. lia.
Qed.

Lemma count_true_all_false (l : list bool) :
  Forall (fun b => b = false) l -> count_true l = 0%nat.
Proof.
  unfold count_true. induction 1 as [| b l Hb _ IH]; simpl; trivial.
  rewrite Hb. exact IH.
Qed.

(** The test "close above both averages" fails on the rows that come
    before the long average exists, so it can hold on at most
    [length df - (long_ma - 1)] of the rows. *)
Lemma crossover_count_bound (df : DataFrame) (days short_ma long_ma : nat) :
  map (fun r => ma r long_ma) df = Pd.rolling_mean long_ma (map close df) ->
  (count_true
     (map (fun r => gtb (close r) (ma r short_ma) && gtb (close r) (ma r long_ma))
          (Pd.tail_rows days df))
   <= length df - (long_ma - 1))%nat.
Proof.
  intro Hcol. unfold Pd.tail_rows. rewrite <- skipn_map.
  eapply Nat.le_trans; [apply count_true_skipn |].
  rewrite <- (firstn_skipn (long_ma - 1) df) at 1.
  rewrite map_app, count_true_app.
  rewrite count_true_all_false.
  - simpl. eapply Nat.le_trans; [apply count_true_le_length |].
    rewrite length_map, length_skipn. lia.
  - pose proof (rolling_mean_head long_ma (map close df)) as Hhead.
    rewrite <- Hcol, firstn_map in Hhead.
    apply Forall_forall. intros b Hb. apply in_map_iff in Hb.
    destruct Hb as [r [<- Hr]].
    rewrite Forall_forall in Hhead.
    assert (Hnan : ma r long_ma = NaN).
    { apply Hhead. apply in_map_iff. exists r. split; [reflexivity | exact Hr]. }
    rewrite Hnan. unfold gtb. simpl. apply andb_false_r.
Qed.

Lemma second_pass_needs_274_bars_holds (now : Z) (bs_code : code) (U : Universe) (df : DataFrame) :
  getitem U bs_code = Ok df ->
  (length df < 274)%nat ->
  Train.process_stock now bs_code U = Ok None.
Proof.
  intros Hget Hshort. unfold Train.process_stock. rewrite Hget. cbn [bind].
  destruct (Nat.leb_spec 250 (length df)) as [Hlong | _]; [| reflexivity].
  cbv zeta. set (df' := Train.calculate_moving_averages df).
  destruct (second_pass_moving_averages_columns_hold df) as [Hd [_ [_ Hm]]].
  fold df' in Hd, Hm.
  assert (Hlen : length df' = length df).
  { rewrite <- (length_map date df'), Hd, length_map. reflexivity. }
  assert (Hcross : Train.check_ma_crossover df' 30 200 250 25 = false).
  { unfold Train.check_ma_crossover.
    apply Nat.leb_gt.
    pose proof (crossover_count_bound df' 30 200 250) as Hb.
    rewrite Hlen in Hb.
    assert (Hcol : map (fun r => ma r 250%nat) df' = Pd.rolling_mean 250 (map close df')).
    { rewrite (Hm 250%nat).
      destruct (second_pass_moving_averages_columns_hold df) as [_ [Hc _]].
      fold df' in Hc. rewrite Hc. reflexivity. }
    specialize (Hb Hcol). lia. }
  assert (Hfilter : Train.filter_criteria now df' = Ok false);
    [| rewrite Hfilter; reflexivity].
  unfold Train.filter_criteria.
  destruct (Pd.iloc_last df') as [latest | e] eqn:El.
  - destruct (Pd.iloc_prev df') as [previous | e] eqn:Ep.
    + cbn [bind]. rewrite Hcross. f_equal.
      unfold all. cbn [forallb id]. rewrite !andb_false_r. reflexivity.
    + exfalso. unfold Pd.iloc_prev in Ep.
      assert (Hr : length (rev df') = length df) by (rewrite length_rev; exact Hlen).
      destruct (rev df') as [| x [| y r]]; simpl in Hr; try discriminate; lia.
  - exfalso. unfold Pd.iloc_last in El.
    assert (Hr : length (rev df') = length df) by (rewrite length_rev; exact Hlen).
    destruct (rev df') as [| x r]; simpl in Hr; [lia | discriminate].
Qed.

(** X4.  Although [process_stock] of [train.py] admits frames of 250
    bars, its filter asks for the close to be above ma250 on 25 of the
    last 30 bars, and ma250 only exists from the 250th bar on: an
    instrument with fewer than 274 bars is never selected by the second
    pass. *)
Theorem second_pass_needs_274_bars (now : Z) (bs_code : code) (U : Universe) (df : DataFrame) :
  getitem U bs_code = Ok df ->
  (length df < 274)%nat ->
  Train.process_stock now bs_code U = Ok None.
Proof. exact (second_pass_needs_274_bars_holds now bs_code U df). Qed.

Lemma second_pass_needs_274_witness :
  Train.process_stock (timedelta_days 261) "600519"%string
    [("600519"%string, Scenario.diverging)]
  = Ok None.
Proof.
  apply (second_pass_needs_274_bars (timedelta_days 261) "600519"%string
           [("600519"%string, Scenario.diverging)] Scenario.diverging eq_refl).
  apply Nat.ltb_lt. vm_compute. reflexivity.
Defined.

(** ** What a selected row says about its instrument *)

Lemma all_cons_true (b : bool) (l : list bool) :
  all (b :: l) = true -> b = true /\ all l = true.
Proof. unfold all. simpl. intro H. apply andb_true_iff in H. exact H. Qed.

(** What [process_stock] has gone through when it returns a row. *)
Lemma process_stock_inv (YEAR_START_DATE now : Z) (c : code) (U : Universe)
      (sel : RpsTool.Selected) :
  RpsTool.process_stock YEAR_START_DATE now c U = Ok (Some sel) ->
  exists df latest gain,
    getitem U c = Ok df
    /\ (250 <= length df)%nat
    /\ RpsTool.filter_criteria YEAR_START_DATE now (RpsTool.calculate_moving_averages df)
       = Ok true
    /\ Pd.iloc_last (RpsTool.calculate_moving_averages df) = Ok latest
    /\ RpsTool.calculate_max_gain_this_year YEAR_START_DATE
         (RpsTool.calculate_moving_averages df) = Ok gain
    /\ sel = RpsTool.mkSelected c (round2 (rps latest 50)) (round2 (rps latest 120))
               (round2 (rps latest 250)) gain.
Proof.
  unfold RpsTool.process_stock. intro H.
  destruct (getitem U c) as [df | e]; cbn [bind] in H; [| discriminate].
  destruct (Nat.leb_spec 250 (length df)) as [Hlen | _]; [| discriminate].
  cbv zeta in H.
  destruct (RpsTool.filter_criteria _ _ _) as [[|] | e] eqn:Ef; cbn [bind] in H;
    try discriminate.
  destruct (Pd.iloc_last _) as [latest | e] eqn:El; cbn [bind] in H; [| discriminate].
  destruct (RpsTool.calculate_max_gain_this_year _ _) as [g | e] eqn:Eg; cbn [bind] in H;
    [| discriminate].
  injection H as <-. exists df, latest, g. repeat split; trivial.
Qed.

(** The frame that the three passes of [calculate_rps] in [main] leave
    under a code. *)
Lemma three_passes_frame (U u50 u120 u250 : Universe) (c : code) (df250 : DataFrame) :
  Ranker.calculate_rps U 50 = Ok u50 ->
  Ranker.calculate_rps u50 120 = Ok u120 ->
  Ranker.calculate_rps u120 250 = Ok u250 ->
  getitem u250 c = Ok df250 ->
  exists df v50 v120 v250,
    getitem U c = Ok df
    /\ Ranker.rps_score U 50 c = Ok v50
    /\ Ranker.rps_score U 120 c = Ok v120
    /\ Ranker.rps_score U 250 c = Ok v250
    /\ df250 = set_rps 250 v250 (set_rps 120 v120 (set_rps 50 v50 df)).
Proof.
  intros E50 E120 E250 Hget.
  destruct (calculate_rps_getitem _ _ _ _ _ E250 Hget) as [v250 [df120 [Hs250 [Hg120 ->]]]].
  destruct (calculate_rps_getitem _ _ _ _ _ E120 Hg120) as [v120 [df50 [Hs120 [Hg50 ->]]]].
  destruct (calculate_rps_getitem _ _ _ _ _ E50 Hg50) as [v50 [df [Hs50 [Hg ->]]]].
  pose proof (calculate_rps_same_bars _ _ _ E50) as B50.
  pose proof (calculate_rps_same_bars _ _ _ E120) as B120.
  rewrite (same_bars_rps_score _ _ 250 c B120), (same_bars_rps_score _ _ 250 c B50) in Hs250.
  rewrite (same_bars_rps_score _ _ 120 c B50) in Hs120.
  exists df, v50, v120, v250. repeat split; trivial.
Qed.

Lemma set_rps_length (p : nat) (v : float) (df : DataFrame) :
  length (set_rps p v df) = length df.
Proof. unfold set_rps. apply length_map. Qed.

(** X5.  Every row of the table written by [rpstool.py] belongs to a code
    of the completion list whose cached frame has at least 250 bars, and
    its rps50, rps120 and rps250 are the scores of the three ranking
    passes rounded to two decimals: a later pass does not disturb the
    column of an earlier one. *)
Theorem selected_row_reports_scores (YEAR_START_DATE now : Z) (cache : Universe)
        (completion : list code) (rows : list RpsTool.Selected) (sel : RpsTool.Selected) :
  RpsTool.main YEAR_START_DATE now cache completion = Ok rows ->
  In sel rows ->
  let all_stocks_data := filter (fun cd => (250 <=? length (snd cd))%nat) cache in
  In (RpsTool.sel_code sel) completion
  /\ (exists df, getitem all_stocks_data (RpsTool.sel_code sel) = Ok df
                 /\ (250 <= length df)%nat)
  /\ exists v50 v120 v250,
      Ranker.rps_score all_stocks_data 50 (RpsTool.sel_code sel) = Ok v50
      /\ Ranker.rps_score all_stocks_data 120 (RpsTool.sel_code sel) = Ok v120
      /\ Ranker.rps_score all_stocks_data 250 (RpsTool.sel_code sel) = Ok v250
      /\ RpsTool.sel_rps50 sel = round2 v50
      /\ RpsTool.sel_rps120 sel = round2 v120
      /\ RpsTool.sel_rps250 sel = round2 v250.
Proof.
  unfold RpsTool.main, RpsTool.calculate_rps. intros Hmain Hin. cbv zeta in *.
  set (U := filter (fun cd => (250 <=? length (snd cd))%nat) cache) in *.
  destruct (Ranker.calculate_rps U 50) as [u50 | e] eqn:E50; cbn [bind] in Hmain;
    [| discriminate].
  destruct (Ranker.calculate_rps u50 120) as [u120 | e] eqn:E120; cbn [bind] in Hmain;
    [| discriminate].
  destruct (Ranker.calculate_rps u120 250) as [u250 | e] eqn:E250; cbn [bind] in Hmain;
    [| discriminate].
  pose proof (collect_In _ _ _ Hmain Hin) as Hdone.
  apply in_map_iff in Hdone. destruct Hdone as [c [Hproc Hc]].
  apply process_stock_inv in Hproc.
  destruct Hproc as [df250 [latest [gain [Hget [Hlen [_ [Hlast [_ ->]]]]]]]].
  simpl RpsTool.sel_code. simpl RpsTool.sel_rps50. simpl RpsTool.sel_rps120.
  simpl RpsTool.sel_rps250.
  destruct (three_passes_frame _ _ _ _ _ _ E50 E120 E250 Hget)
    as [df [v50 [v120 [v250 [Hg [H50 [H120 [H250 ->]]]]]]]].
  split; [exact Hc |].
  split.
  { exists df. split; [exact Hg |]. rewrite !set_rps_length in Hlen. exact Hlen. }
  exists v50, v120, v250. repeat split; trivial;
    destruct (moving_averages_rows _ latest (iloc_last_In _ _ Hlast)) as [r [Hr ->]];
    unfold set_rps in Hr;
    apply in_map_iff in Hr; destruct Hr as [r2 [<- Hr2]];
    apply in_map_iff in Hr2; destruct Hr2 as [r1 [<- Hr1]];
    apply in_map_iff in Hr1; destruct Hr1 as [r0 [<- _]];
    reflexivity.
Qed.

Lemma selected_row_witness :
  exists sel rows,
    RpsTool.main Scenario.year_start Scenario.noon_260 Scenario.cache7
      (map fst Scenario.cache7) = Ok (sel :: rows)
    /\ In (RpsTool.sel_code sel) (map fst Scenario.cache7)
    /\ exists v50 v120 v250,
        Ranker.rps_score
          (filter (fun cd => (250 <=? length (snd cd))%nat) Scenario.cache7)
          50 (RpsTool.sel_code sel) = Ok v50
        /\ Ranker.rps_score
             (filter (fun cd => (250 <=? length (snd cd))%nat) Scenario.cache7)
             120 (RpsTool.sel_code sel) = Ok v120
        /\ Ranker.rps_score
             (filter (fun cd => (250 <=? length (snd cd))%nat) Scenario.cache7)
             250 (RpsTool.sel_code sel) = Ok v250
        /\ RpsTool.sel_rps50 sel = round2 v50
        /\ RpsTool.sel_rps120 sel = round2 v120
        /\ RpsTool.sel_rps250 sel = round2 v250.
Proof.
  assert (Hrows : exists sel rows,
             RpsTool.main Scenario.year_start Scenario.noon_260 Scenario.cache7
               (map fst Scenario.cache7) = Ok (sel :: rows)).
  { eexists. eexists. vm_compute. reflexivity. }
  destruct Hrows as [sel [rows Hrun]]. exists sel, rows.
  split; [exact Hrun |].
  destruct (selected_row_reports_scores Scenario.year_start Scenario.noon_260
              Scenario.cache7 (map fst Scenario.cache7) (sel :: rows) sel Hrun
              (or_introl eq_refl))
    as [Hcode [_ Hscores]].
  split; [exact Hcode | exact Hscores].
Defined.

(** A score of the ranking is missing or lies in (0, 100]. *)
Lemma rps_score_values (U : Universe) (p : nat) (c : code) (v : float) :
  Ranker.rps_score U p c = Ok v ->
  v = NaN \/ exists q, v = Fin q /\ (0 < q /\ q <= 100)%Q.
Proof.
  unfold Ranker.rps_score, Ranker.rps_series.
  destruct (Ranker.latest_changes U p) as [row | e]; cbn [bind]; [| discriminate].
  rewrite getitem_rps_of_row.
  destruct (getitem row c) as [v0 | e] eqn:Eg; cbn [bind]; [| discriminate].
  intro H. injection H as <-.
  destruct (isnan v0) eqn:Ev.
  - left. apply cell_score_nan. exact Ev.
  - right. pose proof (getitem_In _ _ _ Eg) as Hin.
    destruct (cell_score_valid _ v0 Ev Hin) as [q [Hq1 Hq2]].
    exists q. split; [exact Hq1 |].
    pose proof (percentile_range _ v0 Ev Hin) as [H0 H100].
    rewrite Hq2. split; assumption.
Qed.

Lemma filter_criteria_true_rps (YEAR_START_DATE now : Z) (df : DataFrame) (latest : Row) :
  RpsTool.filter_criteria YEAR_START_DATE now df = Ok true ->
  Pd.iloc_last df = Ok latest ->
  RpsTool.rps_condition latest = true.
Proof.
  unfold RpsTool.filter_criteria. intros H Hlast. rewrite Hlast in H. cbn [bind] in H.
  destruct (RpsTool.calculate_max_gain_this_year _ _) as [g | e]; cbn [bind] in H;
    [| discriminate].
  injection H as H.
  apply andb_true_iff in H. destruct H as [_ H].
  apply andb_true_iff in H. destruct H as [H _]. exact H.
Qed.

(** X6.  An instrument is selected by the first pass only if it ranks
    above the 85th percentile on both the 120- and the 250-day change:
    the two scores are at most 100 each and must add up to more than
    185. *)
Theorem selected_rows_rank_above_85 (YEAR_START_DATE now : Z) (cache : Universe)
        (completion : list code) (rows : list RpsTool.Selected) (sel : RpsTool.Selected) :
  RpsTool.main YEAR_START_DATE now cache completion = Ok rows ->
  In sel rows ->
  let all_stocks_data := filter (fun cd => (250 <=? length (snd cd))%nat) cache in
  exists q120 q250,
    Ranker.rps_score all_stocks_data 120 (RpsTool.sel_code sel) = Ok (Fin q120)
    /\ Ranker.rps_score all_stocks_data 250 (RpsTool.sel_code sel) = Ok (Fin q250)
    /\ (85 < q120 /\ q120 <= 100 /\ 85 < q250 /\ q250 <= 100)%Q.
Proof.
  unfold RpsTool.main, RpsTool.calculate_rps. intros Hmain Hin. cbv zeta in *.
  set (U := filter (fun cd => (250 <=? length (snd cd))%nat) cache) in *.
  destruct (Ranker.calculate_rps U 50) as [u50 | e] eqn:E50; cbn [bind] in Hmain;
    [| discriminate].
  destruct (Ranker.calculate_rps u50 120) as [u120 | e] eqn:E120; cbn [bind] in Hmain;
    [| discriminate].
  destruct (Ranker.calculate_rps u120 250) as [u250 | e] eqn:E250; cbn [bind] in Hmain;
    [| discriminate].
  pose proof (collect_In _ _ _ Hmain Hin) as Hdone.
  apply in_map_iff in Hdone. destruct Hdone as [c [Hproc Hc]].
  apply process_stock_inv in Hproc.
  destruct Hproc as [df250 [latest [gain [Hget [_ [Hfilter [Hlast [_ ->]]]]]]]].
  simpl RpsTool.sel_code.
  destruct (three_passes_frame _ _ _ _ _ _ E50 E120 E250 Hget)
    as [df [v50 [v120 [v250 [_ [_ [H120 [H250 ->]]]]]]]].
  pose proof (filter_criteria_true_rps _ _ _ _ Hfilter Hlast) as Hsum.
  unfold RpsTool.rps_condition in Hsum.
  destruct (moving_averages_rows _ latest (iloc_last_In _ _ Hlast)) as [r [Hr Hrps]].
  rewrite Hrps in Hsum.
  unfold set_rps in Hr.
  apply in_map_iff in Hr. destruct Hr as [r2 [<- Hr2]].
  apply in_map_iff in Hr2. destruct Hr2 as [r1 [<- Hr1]].
  apply in_map_iff in Hr1. destruct Hr1 as [r0 [<- _]].
  simpl in Hsum.
  destruct (rps_score_values _ _ _ _ H120) as [-> | [q120 [-> [L120 U120]]]];
    [discriminate Hsum |].
  destruct (rps_score_values _ _ _ _ H250) as [-> | [q250 [-> [L250 U250]]]];
    [discriminate Hsum |].
  exists q120, q250. split; [exact H120 |]. split; [exact H250 |].
  unfold gtb in Hsum. simpl in Hsum. apply Qlt_bool_iff in Hsum.
  repeat split; lra.
Qed.

Lemma selected_rows_rank_witness :
  exists sel rows,
    RpsTool.main Scenario.year_start Scenario.noon_260 Scenario.cache7
      (map fst Scenario.cache7) = Ok (sel :: rows)
    /\ exists q120 q250,
        Ranker.rps_score
          (filter (fun cd => (250 <=? length (snd cd))%nat) Scenario.cache7)
          120 (RpsTool.sel_code sel) = Ok (Fin q120)
        /\ Ranker.rps_score
             (filter (fun cd => (250 <=? length (snd cd))%nat) Scenario.cache7)
             250 (RpsTool.sel_code sel) = Ok (Fin q250)
        /\ (85 < q120 /\ q120 <= 100 /\ 85 < q250 /\ q250 <= 100)%Q.
Proof.
  assert (Hrows : exists sel rows,
             RpsTool.main Scenario.year_start Scenario.noon_260 Scenario.cache7
               (map fst Scenario.cache7) = Ok (sel :: rows)).
  { eexists. eexists. vm_compute. reflexivity. }
  destruct Hrows as [sel [rows Hrun]]. exists sel, rows.
  split; [exact Hrun |].
  exact (selected_rows_rank_above_85 Scenario.year_start Scenario.noon_260
           Scenario.cache7 (map fst Scenario.cache7) (sel :: rows) sel Hrun
           (or_introl eq_refl)).
Defined.

(** ** Windows of the calendar without bars *)

Lemma filter_none {A : Type} (f : A -> bool) (l : list A) :
  (forall x, In x l -> f x = false) -> filter f l = [].
Proof.
  induction l as [| x l IH]; simpl; intro H; trivial.
  rewrite (H x (or_introl eq_refl)). apply IH. intros y Hy. apply H. right. exact Hy.
Qed.

Lemma geb_nan_r (x : float) : geb x NaN = false.
Proof. destruct x; reflexivity. Qed.

Lemma geb_nan_l (x : float) : geb NaN x = false.
Proof. destruct x; reflexivity. Qed.

Lemma first_pass_no_year_high (YEAR_START_DATE now : Z) (df : DataFrame) :
  (forall r, In r df ->
             date r < YEAR_START_DATE \/ now - timedelta_days 30 < date r) ->
  RpsTool.filter_criteria YEAR_START_DATE now df <> Ok true.
Proof.
  intro Hwin. unfold RpsTool.filter_criteria.
  destruct (Pd.iloc_last df) as [latest | e]; cbn [bind]; [| discriminate].
  destruct (RpsTool.calculate_max_gain_this_year _ _) as [g | e]; cbn [bind];
    [| discriminate].
  rewrite (filter_none
             (fun r => (YEAR_START_DATE <=? date r) && (date r <=? now - timedelta_days 30))
             df).
  - simpl Pd.max at 2. rewrite geb_nan_r. discriminate.
  - intros r Hr. destruct (Hwin r Hr) as [H | H].
    + apply andb_false_iff. left. apply Z.leb_gt. exact H.
    + apply andb_false_iff. right. apply Z.leb_gt. exact H.
Qed.

Lemma main_selects_only_passing (YEAR_START_DATE now : Z) (cache : Universe)
      (completion : list code) (rows : list RpsTool.Selected) :
  (forall df, RpsTool.filter_criteria YEAR_START_DATE now df <> Ok true) ->
  RpsTool.main YEAR_START_DATE now cache completion = Ok rows -> rows = [].
Proof.
  intros Hnever Hmain. destruct rows as [| sel rows]; [reflexivity | exfalso].
  unfold RpsTool.main in Hmain.
  destruct (RpsTool.calculate_rps _ 50%nat) as [u50 | e]; cbn [bind] in Hmain;
    [| discriminate].
  destruct (RpsTool.calculate_rps u50 120%nat) as [u120 | e]; cbn [bind] in Hmain;
    [| discriminate].
  destruct (RpsTool.calculate_rps u120 250%nat) as [u250 | e]; cbn [bind] in Hmain;
    [| discriminate].
  pose proof (collect_In _ _ sel Hmain (or_introl eq_refl)) as Hdone.
  apply in_map_iff in Hdone. destruct Hdone as [c [Hproc _]].
  apply process_stock_inv in Hproc.
  destruct Hproc as [df [latest [gain [_ [_ [Hfilter _]]]]]].
  exact (Hnever _ Hfilter).
Qed.

(** X7.  The first pass compares the recent high with the highest close
    between the start of the year and 30 days before the run.  A frame
    with no bar in that span is never accepted; in particular, while
    fewer than 30 days of the year have elapsed the span is empty and
    [rpstool.py] selects nothing at all. *)
Theorem first_pass_needs_year_window (YEAR_START_DATE now : Z) :
  (forall df,
      (forall r, In r df ->
                 date r < YEAR_START_DATE \/ now - timedelta_days 30 < date r) ->
      RpsTool.filter_criteria YEAR_START_DATE now df <> Ok true)
  /\ (now - timedelta_days 30 < YEAR_START_DATE ->
      forall cache completion rows,
        RpsTool.main YEAR_START_DATE now cache completion = Ok rows -> rows = []).
Proof.
  split.
  - apply first_pass_no_year_high.
  - intros Hearly cache completion rows.
    apply main_selects_only_passing. intro df.
    apply first_pass_no_year_high. intros r _. lia.
Qed.

Lemma first_pass_needs_year_window_witness :
  RpsTool.filter_criteria Scenario.year_start (timedelta_days 250)
    (RpsTool.calculate_moving_averages Scenario.diverging)
  <> Ok true
  /\ Scenario.selected_codes
       (RpsTool.main Scenario.year_start (timedelta_days 250)
          [("600519"%string, Scenario.diverging)] ["600519"%string])
     = [].
Proof.
  assert (Hearly : timedelta_days 250 - timedelta_days 30 < Scenario.year_start)
    by (apply Z.ltb_lt; vm_compute; reflexivity).
  assert (Hrun : exists rows,
             RpsTool.main Scenario.year_start (timedelta_days 250)
               [("600519"%string, Scenario.diverging)] ["600519"%string] = Ok rows).
  { eexists. vm_compute. reflexivity. }
  destruct (first_pass_needs_year_window Scenario.year_start (timedelta_days 250))
    as [Hframe Hmain].
  split.
  - apply Hframe. intros r _.
    destruct (Z.lt_ge_cases (date r) Scenario.year_start) as [Hlt | Hge];
      [left; exact Hlt | right].
    eapply Z.lt_le_trans; [exact Hearly | exact Hge].
  - destruct Hrun as [rows Hrun]. rewrite Hrun.
    rewrite (Hmain Hearly _ _ rows Hrun). reflexivity.
Defined.

(** X8.  An instrument without a bar in the trailing window of the
    drawdown test (30 days in [rpstool.py], 20 days in [train.py]) is
    never accepted: the maximum over the empty window is missing and the
    comparison with it is false. *)
Theorem stale_instrument_rejected (now : Z) (df : DataFrame) :
  ((forall r, In r df -> date r <= now - timedelta_days 30) ->
   forall YEAR_START_DATE, RpsTool.filter_criteria YEAR_START_DATE now df <> Ok true)
  /\ ((forall r, In r df -> date r <= now - timedelta_days 20) ->
      forall latest previous,
        Pd.iloc_last df = Ok latest -> Pd.iloc_prev df = Ok previous ->
        Train.filter_criteria now df = Ok false).
Proof.
  split.
  - intros Hold YEAR_START_DATE. unfold RpsTool.filter_criteria.
    destruct (Pd.iloc_last df) as [latest | e]; cbn [bind]; [| discriminate].
    destruct (RpsTool.calculate_max_gain_this_year _ _) as [g | e]; cbn [bind];
      [| discriminate].
    rewrite (filter_none (fun r => now - timedelta_days 30 <? date r) df).
    + simpl Pd.max at 1. rewrite geb_nan_l. discriminate.
    + intros r Hr. apply Z.ltb_ge. apply Hold. exact Hr.
  - intros Hold latest previous Hlast Hprev. unfold Train.filter_criteria.
    rewrite Hlast, Hprev. cbn [bind]. f_equal.
    assert (Hdd : Train.check_drawdown now df latest = false).
    { unfold Train.check_drawdown.
      rewrite (filter_none (fun r => now - timedelta_days 20 <? date r) df).
      - reflexivity.
      - intros r Hr. apply Z.ltb_ge. apply Hold. exact Hr. }
    rewrite Hdd. unfold all. cbn [forallb id]. apply andb_false_r.
Qed.

Lemma stale_instrument_witness :
  RpsTool.filter_criteria (timedelta_days 300) (timedelta_days 301) Scenario.stale <> Ok true
  /\ Train.filter_criteria (timedelta_days 301) Scenario.stale = Ok false.
Proof.
  assert (Hold30 : forall r, In r Scenario.stale ->
                             date r <= timedelta_days 301 - timedelta_days 30).
  { intros r Hr. unfold Scenario.stale, Scenario.flat in Hr.
    apply in_map_iff in Hr. destruct Hr as [i [<- Hi]]. apply in_seq in Hi.
    unfold Scenario.bar, timedelta_days. cbn [date]. lia. }
  assert (Hold20 : forall r, In r Scenario.stale ->
                             date r <= timedelta_days 301 - timedelta_days 20).
  { intros r Hr. specialize (Hold30 r Hr). unfold timedelta_days in *. lia. }
  destruct (stale_instrument_rejected (timedelta_days 301) Scenario.stale) as [H1 H2].
  split.
  - apply H1. exact Hold30.
  - apply (H2 Hold20 (Scenario.bar 250 10) (Scenario.bar 249 10));
      vm_compute; reflexivity.
Defined.

(** ** The yearly gain *)

Lemma leb_refl (x : float) : isnan x = false -> leb x x = true.
Proof. intro H. unfold leb. rewrite (eqb_refl x H). apply orb_true_r. Qed.

Lemma fold_fmax_ge (xs : list float) :
  forall a,
    isnan a = false -> Forall (fun x => isnan x = false) xs ->
    isnan (fold_left Pd.fmax xs a) = false /\ leb a (fold_left Pd.fmax xs a) = true.
Proof.
  induction xs as [| x xs IH]; intros a Ha Hxs; simpl.
  - split; [exact Ha | apply leb_refl; exact Ha].
  - inversion Hxs as [| ? ? Hx Hxs']; subst.
    assert (Hm : isnan (Pd.fmax a x) = false /\ leb a (Pd.fmax a x) = true).
    { unfold Pd.fmax. destruct (ltb a x) eqn:E.
      - split; [exact Hx | unfold leb; rewrite E; reflexivity].
      - split; [exact Ha | apply leb_refl; exact Ha]. }
    destruct Hm as [Hm1 Hm2]. destruct (IH _ Hm1 Hxs') as [H1 H2].
    split; [exact H1 | eapply leb_trans; eauto].
Qed.

(** The maximum of a column is at least its first cell when that cell is
    valid. *)
Lemma max_ge_first (x : float) (s : Pd.Series) :
  isnan x = false ->
  isnan (Pd.max (x :: s)) = false /\ leb x (Pd.max (x :: s)) = true.
Proof.
  intro Hx. unfold Pd.max, Pd.dropna. simpl. rewrite Hx. simpl.
  apply fold_fmax_ge; [exact Hx | apply dropna_notnan].
Qed.

Lemma rint_nonneg (q : Q) : (0 <= q)%Q -> 0 <= rint q.
Proof.
  intro Hq. unfold rint.
  assert (Hfloor : 0 <= Qfloor q).
  { change 0 with (Qfloor 0). apply Qfloor_resp_le. exact Hq. }
  destruct (Qcompare _ _); [destruct (Z.even _) | |]; lia.
Qed.

(** X9.  When the yearly gain is computable and the first close of the
    year is a positive price, the reported gain is never negative: the
    maximum of the year is taken over a span that contains that first
    close. *)
Theorem yearly_gain_nonnegative
        (YEAR_START_DATE : Z) (df : DataFrame) (first y : Row) (rest : DataFrame) (p : Q) :
  Pd.iloc_first df = Ok first ->
  date first <= YEAR_START_DATE ->
  filter (fun r => YEAR_START_DATE <=? date r) df = y :: rest ->
  close y = Fin p -> (0 < p)%Q ->
  exists g, RpsTool.calculate_max_gain_this_year YEAR_START_DATE df = Ok (Some g)
            /\ geb g (Fin 0) = true.
Proof.
  intros Hfirst Hdate Hyear Hclose Hp.
  unfold RpsTool.calculate_max_gain_this_year. rewrite Hfirst. cbn [bind].
  destruct (Z.ltb_spec YEAR_START_DATE (date first)); [lia |].
  cbv zeta. rewrite Hyear. cbn [map Pd.iloc_first bind]. rewrite Hclose.
  eexists. split; [reflexivity |].
  destruct (max_ge_first (Fin p) (map close rest) eq_refl) as [Hnan Hge].
  destruct (Pd.max (Fin p :: map close rest)) as [| | q |]; try discriminate.
  - unfold sub, neg, add, div.
    assert (Qeq_bool p 0 = false) as -> by (apply Qeq_bool_false; lra).
    unfold mul, round2, geb, leb, ltb, eqb.
    assert (Hpq : (p <= q)%Q).
    { unfold leb, ltb, eqb in Hge. apply orb_true_iff in Hge.
      destruct Hge as [H1 | H1]; q_reflect; lra. }
    assert (Hx : (0 <= (q + - p) / p * 100 * 100)%Q).
    { apply Qmult_le_0_compat; [| lra]. apply Qmult_le_0_compat; [| lra].
      apply Qle_shift_div_l; lra. }
    pose proof (rint_nonneg _ Hx) as Hr.
    assert (Hres : (0 <= inject_Z (rint ((q + - p) / p * 100 * 100)) / 100)%Q).
    { apply Qle_shift_div_l; [lra |].
      rewrite Qmult_0_l. change 0%Q with (inject_Z 0). rewrite <- Zle_Qle. exact Hr. }
    apply orb_true_iff.
    destruct (Qeq_bool 0 (inject_Z (rint ((q + - p) / p * 100 * 100)) / 100)) eqn:E;
      [right; reflexivity | left].
    apply Qlt_bool_iff. apply Qeq_bool_false in E. lra.
  - simpl. assert (Qle_bool 0 p = true) as -> by (apply Qle_bool_iff; lra).
    reflexivity.
Qed.

Lemma yearly_gain_witness :
  exists g, RpsTool.calculate_max_gain_this_year Scenario.year_start Scenario.diverging
            = Ok (Some g)
            /\ geb g (Fin 0) = true.
Proof.
  assert (Hyear : exists y rest,
             filter (fun r => Scenario.year_start <=? date r) Scenario.diverging = y :: rest
             /\ close y = Fin 18).
  { eexists. eexists. split; [vm_compute; reflexivity | reflexivity]. }
  destruct Hyear as [y [rest [Hyear Hclose]]].
  apply (yearly_gain_nonnegative Scenario.year_start Scenario.diverging
           (Scenario.bar 1 20) y rest 18).
  - reflexivity.
  - apply Z.leb_le. vm_compute. reflexivity.
  - exact Hyear.
  - exact Hclose.
  - reflexivity.
Defined.

(** ** The lookup's scores *)

Lemma inject_nat_lt (n m : nat) :
  (n < m)%nat -> (inject_Z (Z.of_nat n) < inject_Z (Z.of_nat m))%Q.
Proof. intro H. rewrite <- Zlt_Qlt. lia. Qed.

(** X10.  For a valid change the lookup of [checkrps.py] reports a score
    in [0, 100): it never reaches 100, and a strictly higher change gets a
    strictly higher score. *)
Theorem lookup_score_range (changes : list (code * float)) (v w : float) :
  isnan v = false -> In v (map snd changes) ->
  (exists q, CheckRps.score changes v = Ok (Fin q) /\ (0 <= q /\ q < 100)%Q)
  /\ (In w (map snd changes) -> ltb v w = true ->
      exists q q', CheckRps.score changes v = Ok (Fin q)
                   /\ CheckRps.score changes w = Ok (Fin q')
                   /\ (q < q')%Q).
Proof.
  intros Hv Hin. set (s := map snd changes) in *.
  destruct (checkrps_score_counts_below changes v Hv Hin) as [q [Hs Hq]].
  fold s in Hq.
  pose proof (count_equal_pos v s Hv Hin) as Hkv.
  pose proof (count_less_equal_le v s) as Hle.
  assert (Hn : Pd.count s <> 0%nat) by lia.
  pose proof (inject_nat_pos _ Hn) as Hpos.
  assert (Hbelow : (inject_Z (Z.of_nat (Spec.count_less v s))
                    < inject_Z (Z.of_nat (Pd.count s)))%Q)
    by (apply inject_nat_lt; lia).
  assert (H0 : (0 <= inject_Z (Z.of_nat (Spec.count_less v s)))%Q).
  { change 0%Q with (inject_Z (Z.of_nat 0)). apply inject_nat_le. lia. }
  split.
  - exists q. split; [exact Hs |]. rewrite Hq. split.
    + apply Qmult_le_0_compat; [| lra]. apply Qle_shift_div_l; lra.
    + assert (E : (100 == 1 * 100)%Q) by reflexivity. rewrite E at 2.
      apply Qmult_lt_compat_r; [lra |].
      apply Qlt_shift_div_r; lra.
  - intros Hw Hlt. destruct (ltb_notnan _ _ Hlt) as [_ Hnw].
    destruct (checkrps_score_counts_below changes w Hnw Hw) as [q' [Hs' Hq']].
    fold s in Hq'.
    exists q, q'. split; [exact Hs |]. split; [exact Hs' |].
    rewrite Hq, Hq'.
    pose proof (count_less_mono v w s Hlt) as Hmono.
    assert (Hstrict : (inject_Z (Z.of_nat (Spec.count_less v s))
                       < inject_Z (Z.of_nat (Spec.count_less w s)))%Q)
      by (apply inject_nat_lt; lia).
    apply Qmult_lt_compat_r; [lra |].
    unfold Qdiv. apply Qmult_lt_compat_r; [| exact Hstrict].
    apply Qinv_lt_0_compat. exact Hpos.
Qed.

Lemma lookup_score_range_witness :
  (exists q, CheckRps.score Scenario.newcomer_changes (Fin 0.10) = Ok (Fin q)
             /\ (0 <= q /\ q < 100)%Q)
  /\ exists q q', CheckRps.score Scenario.newcomer_changes (Fin 0.10) = Ok (Fin q)
                  /\ CheckRps.score Scenario.newcomer_changes (Fin 0.20) = Ok (Fin q')
                  /\ (q < q')%Q.
Proof.
  destruct (lookup_score_range Scenario.newcomer_changes (Fin 0.10) (Fin 0.20) eq_refl)
    as [Hrange Hmono].
  - simpl. tauto.
  - split; [exact Hrange |]. apply Hmono; [simpl; tauto | reflexivity].
Defined.

(** X11.  On the same row of latest changes the score of the screeners
    exceeds the score of the lookup by [(k + 1) / 2 * 100 / n], where [k]
    counts the valid changes equal to the instrument's and [n] the valid
    changes: by exactly [100 / n] when the change is not tied. *)
Theorem screener_minus_lookup (row : list (code * float)) (c : code) (v : float) :
  getitem row c = Ok v -> isnan v = false ->
  exists q q',
    getitem (Ranker.rps_of_row row) c = Ok (Fin q)
    /\ CheckRps.score row v = Ok (Fin q')
    /\ (q - q' == (inject_Z (Z.of_nat (Spec.count_equal v (map snd row))) + 1) / 2
                  * (100 / inject_Z (Z.of_nat (Pd.count (map snd row)))))%Q.
Proof.
  intros Hget Hv. pose proof (getitem_In _ _ _ Hget) as Hin.
  destruct (cell_score_valid _ v Hv Hin) as [q [Hq1 Hq2]].
  destruct (checkrps_score_counts_below row v Hv Hin) as [q' [Hs Hq']].
  exists q, q'. split.
  { rewrite getitem_rps_of_row, Hget. cbn [bind]. rewrite Hq1. reflexivity. }
  split; [exact Hs |].
  rewrite Hq2, Hq'. unfold Spec.percentile, Spec.ascending_rank.
  pose proof (count_equal_pos v _ Hv Hin) as Hk.
  pose proof (count_less_equal_le v (map snd row)) as Hle.
  assert (Hn : Pd.count (map snd row) <> 0%nat) by lia.
  pose proof (inject_nat_pos _ Hn) as Hpos.
  field. lra.
Qed.

Lemma screener_minus_lookup_witness :
  exists q q',
    getitem (Ranker.rps_of_row Scenario.newcomer_changes) "000001"%string = Ok (Fin q)
    /\ CheckRps.score Scenario.newcomer_changes (Fin 0.10) = Ok (Fin q')
    /\ (q - q' == (inject_Z (Z.of_nat (Spec.count_equal (Fin 0.10)
                                         (map snd Scenario.newcomer_changes))) + 1) / 2
                  * (100 / inject_Z (Z.of_nat (Pd.count
                                                 (map snd Scenario.newcomer_changes)))))%Q.
Proof.
  apply (screener_minus_lookup Scenario.newcomer_changes "000001"%string (Fin 0.10));
    reflexivity.
Defined.

(** ** The lookup's outcomes *)

Lemma ffill_from_length (s : Pd.Series) :
  forall prev, length (Pd.ffill_from prev s) = length s.
Proof. induction s as [| x s IH]; intro prev; simpl; [| rewrite IH]; reflexivity. Qed.

Lemma shift_length (p : nat) (s : Pd.Series) : length (Pd.shift p s) = length s.
Proof.
  unfold Pd.shift. rewrite length_firstn, length_app, repeat_length. lia.
Qed.

Lemma pct_change_length (pad : bool) (p : nat) (s : Pd.Series) :
  length (Pd.pct_change pad p s) = length s.
Proof.
  unfold Pd.pct_change, Pd.pct_change_nofill.
  rewrite zip_with_length, shift_length, Nat.min_id.
  destruct pad; [apply ffill_from_length | reflexivity].
Qed.

Lemma iloc_last_total {A : Type} (l : list A) :
  l <> [] -> exists x, Pd.iloc_last l = Ok x /\ In x l.
Proof.
  intro Hl. destruct l as [| a l]; [contradiction |].
  destruct (iloc_last_cons a l) as [x Hx]. exists x. split; [exact Hx |].
  apply iloc_last_In. exact Hx.
Qed.

Lemma nonempty_length {A : Type} (l : list A) : l <> [] <-> length l <> 0%nat.
Proof. destruct l; simpl; split; intro H; congruence. Qed.

(** The latest change of a frame exists as soon as the frame has a row,
    and is missing when the frame has no more than [p] rows. *)
Lemma latest_change_total (pad : bool) (p : nat) (c : code) (df : DataFrame) :
  df <> [] ->
  exists v, CheckRps.latest_change pad p (c, df) = Ok (c, v)
            /\ ((length df <= p)%nat -> v = NaN).
Proof.
  intro Hdf. unfold CheckRps.latest_change. cbn [fst snd].
  assert (Hne : Pd.pct_change pad p (map close df) <> []).
  { apply nonempty_length. rewrite pct_change_length, length_map.
    apply nonempty_length. exact Hdf. }
  destruct (iloc_last_total _ Hne) as [v [Hv Hin]].
  exists v. rewrite Hv. split; [reflexivity |].
  intro Hshort.
  assert (Hall : Forall (fun x => x = NaN) (Pd.pct_change pad p (map close df))).
  { unfold Pd.pct_change. apply pct_change_short.
    destruct pad; [unfold Pd.ffill; rewrite ffill_from_length |];
      rewrite length_map; exact Hshort. }
  rewrite Forall_forall in Hall. apply Hall. exact Hin.
Qed.

Lemma latest_change_empty (pad : bool) (p : nat) (c : code) :
  CheckRps.latest_change pad p (c, []) = Raise IndexError.
Proof. unfold CheckRps.latest_change. destruct pad; reflexivity. Qed.

Lemma has_latest_nonempty (pad : bool) (p : nat) (U : Universe) :
  forallb (has_latest pad p) U = no_empty_frame U.
Proof.
  unfold no_empty_frame. induction U as [| [c df] U IH]; simpl; [reflexivity |].
  rewrite IH. f_equal. unfold has_latest.
  destruct df as [| r df].
  - rewrite latest_change_empty. reflexivity.
  - destruct (latest_change_total pad p c (r :: df)) as [v [Hv _]]; [discriminate |].
    rewrite Hv. reflexivity.
Qed.

Lemma getitem_latest (pad : bool) (p : nat) (U : Universe) (c : code) (df : DataFrame) :
  getitem U c = Ok df ->
  getitem (map (latest_or_nan pad p) U) c = Ok (snd (latest_or_nan pad p (c, df))).
Proof.
  induction U as [| [k d] U IH]; cbn [map getitem]; [discriminate |].
  destruct (latest_or_nan pad p (k, d)) as [k' v'] eqn:E.
  pose proof (latest_change_fst pad p (k, d)) as Hf. rewrite E in Hf. cbn [fst] in Hf.
  subst k'.
  destruct (String.eqb_spec k c) as [-> | Hne].
  - intro H. injection H as <-. rewrite E. reflexivity.
  - exact IH.
Qed.

Lemma in_cache_getitem (U : Universe) (c : code) :
  CheckRps.in_cache U c = true <-> exists df, getitem U c = Ok df.
Proof.
  unfold CheckRps.in_cache. induction U as [| [k d] U IH]; simpl.
  - split; [discriminate | intros [df H]; discriminate].
  - destruct (String.eqb k c); simpl.
    + split; [intros _; exists d; reflexivity | reflexivity].
    + exact IH.
Qed.

Lemma in_cache_false (U : Universe) (c : code) :
  CheckRps.in_cache U c = false -> getitem U c = Raise KeyError.
Proof.
  unfold CheckRps.in_cache. induction U as [| [k d] U IH]; simpl; [reflexivity |].
  destruct (String.eqb k c); simpl; [discriminate | exact IH].
Qed.

(** The quotient of the two counts never divides by zero: the target's
    own change is among the valid ones. *)
Lemma score_total (changes : list (code * float)) (v : float) :
  In v (map snd changes) -> exists x, CheckRps.score changes v = Ok x.
Proof.
  intro Hin. destruct (isnan v) eqn:Ev.
  - exists NaN. unfold CheckRps.score. rewrite Ev. reflexivity.
  - destruct (checkrps_score_counts_below changes v Ev Hin) as [q [Hq _]].
    exists (Fin q). exact Hq.
Qed.

(** One turn of the loop over the periods. *)
Lemma lookup_period (pad : bool) (U : Universe) (target : code) (df : DataFrame) (p : nat) :
  getitem U target = Ok df ->
  no_empty_frame U = true ->
  exists v,
    (changes <- CheckRps.all_changes pad U p ;;
     target_change <- getitem changes target ;;
     x <- CheckRps.score changes target_change ;;
     Ok (p, x)) = Ok (p, v)
    /\ ((length df <= p)%nat -> v = NaN).
Proof.
  intros Hget Hfull. rewrite all_changes_spec, has_latest_nonempty, Hfull. cbn [bind].
  rewrite (getitem_latest pad p U target df Hget). cbn [bind].
  pose proof (getitem_In _ _ _ (getitem_latest pad p U target df Hget)) as Hin.
  destruct (score_total _ _ Hin) as [x Hx]. rewrite Hx. cbn [bind].
  exists x. split; [reflexivity |].
  intro Hshort.
  assert (Hdf : df <> []).
  { intros ->. clear Hin Hx. unfold no_empty_frame in Hfull.
    rewrite forallb_forall in Hfull.
    assert (Hmem : In (target, @nil Row) U).
    { clear Hfull. induction U as [| [k d] U IH]; simpl in Hget; [discriminate |].
      destruct (String.eqb_spec k target) as [-> | Hne].
      - injection Hget as ->. left. reflexivity.
      - right. apply IH. exact Hget. }
    specialize (Hfull _ Hmem). discriminate. }
  destruct (latest_change_total pad p target df Hdf) as [v [Hv Hnan]].
  unfold latest_or_nan in Hx. rewrite Hv in Hx. cbn [snd] in Hx.
  rewrite (Hnan Hshort) in Hx. unfold CheckRps.score in Hx. simpl in Hx. congruence.
Qed.

Lemma lookup_outcomes_holds (pad : bool) (U : Universe) (target : code) :
  (CheckRps.in_cache U target = false ->
   CheckRps.calculate_rps pad U target = Raise KeyError)
  /\ (CheckRps.in_cache U target = true -> no_empty_frame U = false ->
      CheckRps.calculate_rps pad U target = Raise IndexError)
  /\ (forall df,
         getitem U target = Ok df -> no_empty_frame U = true ->
         exists v50 v120 v250,
           CheckRps.calculate_rps pad U target
           = Ok [(50%nat, v50); (120%nat, v120); (250%nat, v250)]
           /\ ((length df <= 50)%nat -> v50 = NaN)
           /\ ((length df <= 120)%nat -> v120 = NaN)
           /\ ((length df <= 250)%nat -> v250 = NaN)).
Proof.
  split; [| split].
  - intro H. unfold CheckRps.calculate_rps. rewrite (in_cache_false _ _ H). reflexivity.
  - intros Hin Hempty. apply in_cache_getitem in Hin. destruct Hin as [df Hget].
    unfold CheckRps.calculate_rps. rewrite Hget. cbn [bind].
    unfold CheckRps.RPS_PERIODS. cbn [mapM].
    rewrite all_changes_spec, has_latest_nonempty, Hempty. reflexivity.
  - intros df Hget Hfull.
    destruct (lookup_period pad U target df 50 Hget Hfull) as [v50 [H50 N50]].
    destruct (lookup_period pad U target df 120 Hget Hfull) as [v120 [H120 N120]].
    destruct (lookup_period pad U target df 250 Hget Hfull) as [v250 [H250 N250]].
    exists v50, v120, v250. split; [| repeat split; assumption].
    unfold CheckRps.calculate_rps. rewrite Hget. cbn [bind].
    unfold CheckRps.RPS_PERIODS. cbn [mapM].
    rewrite H50. cbn [bind]. rewrite H120. cbn [bind]. rewrite H250. reflexivity.
Qed.

(** X12.  [calculate_rps] of [checkrps.py] raises [KeyError] for a target
    that is not cached and [IndexError] as soon as one cached frame is
    empty; otherwise it returns one score for each of the periods 50, 120
    and 250, in this order, and never divides by zero.  The score of a
    period is NaN when the target has no more bars than the period is
    long. *)
Theorem lookup_outcomes (pad : bool) (U : Universe) (target : code) :
  (CheckRps.in_cache U target = false ->
   CheckRps.calculate_rps pad U target = Raise KeyError)
  /\ (CheckRps.in_cache U target = true -> no_empty_frame U = false ->
      CheckRps.calculate_rps pad U target = Raise IndexError)
  /\ (forall df,
         getitem U target = Ok df -> no_empty_frame U = true ->
         exists v50 v120 v250,
           CheckRps.calculate_rps pad U target
           = Ok [(50%nat, v50); (120%nat, v120); (250%nat, v250)]
           /\ ((length df <= 50)%nat -> v50 = NaN)
           /\ ((length df <= 120)%nat -> v120 = NaN)
           /\ ((length df <= 250)%nat -> v250 = NaN)).
Proof. exact (lookup_outcomes_holds pad U target). Qed.

Lemma lookup_outcomes_witness :
  CheckRps.calculate_rps false Scenario.three "999999"%string = Raise KeyError
  /\ CheckRps.calculate_rps false (("300001"%string, []) :: Scenario.three) "000001"%string
     = Raise IndexError
  /\ exists v50,
      CheckRps.calculate_rps false Scenario.three "000001"%string
      = Ok [(50%nat, v50); (120%nat, NaN); (250%nat, NaN)].
Proof.
  split; [| split].
  - apply (proj1 (lookup_outcomes false Scenario.three "999999"%string)). reflexivity.
  - apply (proj1 (proj2 (lookup_outcomes false (("300001"%string, []) :: Scenario.three)
                           "000001"%string)));
      reflexivity.
  - destruct (proj2 (proj2 (lookup_outcomes false Scenario.three "000001"%string))
                (Scenario.series 0 50 100 110) eq_refl eq_refl)
      as [v50 [v120 [v250 [Hrun [_ [H120 H250]]]]]].
    assert (Hlen : (length (Scenario.series 0 50 100 110) <= 120)%nat)
      by (apply Nat.leb_le; vm_compute; reflexivity).
    assert (Hlen' : (length (Scenario.series 0 50 100 110) <= 250)%nat)
      by (apply Nat.leb_le; vm_compute; reflexivity).
    exists v50. rewrite Hrun, (H120 Hlen), (H250 Hlen'). reflexivity.
Defined.

(** X13.  Given a six-digit code that is cached, no cached frame being
    empty, the lookup prints the header and one line for each of the
    periods 50, 120 and 250, in this order, and exits with status 0. *)
Theorem lookup_prints_three_periods
        (pad : bool) (prog target : string) (cache : Universe) (df : DataFrame) :
  String.length target = 6%nat -> CheckRps.isdigit target = true ->
  getitem cache target = Ok df -> no_empty_frame cache = true ->
  exists v50 v120 v250,
    CheckRps.main pad [prog; target] cache
    = CheckRps.mkOutcome
        [CheckRps.Header target; CheckRps.RpsLine 50 v50; CheckRps.RpsLine 120 v120;
         CheckRps.RpsLine 250 v250]
        0 true.
Proof.
  intros Hlen Hdig Hget Hfull.
  destruct (proj2 (proj2 (lookup_outcomes_holds pad cache target)) df Hget Hfull)
    as [v50 [v120 [v250 [Hrun _]]]].
  exists v50, v120, v250. unfold CheckRps.main.
  rewrite Hlen, Hdig. cbn [Nat.eqb negb orb].
  assert (Hin : CheckRps.in_cache cache target = true).
  { apply in_cache_getitem. exists df. exact Hget. }
  rewrite Hin. cbn [negb]. rewrite Hrun. reflexivity.
Qed.

Lemma lookup_prints_witness :
  exists v50 v120 v250,
    CheckRps.main true ["checkrps.py"%string; "000002"%string] Scenario.three
    = CheckRps.mkOutcome
        [CheckRps.Header "000002"%string; CheckRps.RpsLine 50 v50;
         CheckRps.RpsLine 120 v120; CheckRps.RpsLine 250 v250]
        0 true.
Proof.
  apply (lookup_prints_three_periods true "checkrps.py"%string "000002"%string
           Scenario.three (Scenario.series 0 50 100 95));
    reflexivity.
Defined.

(** * The cache directory *)

(** ** File names *)

Lemma append_assoc (a b c : string) :
  String.append (String.append a b) c = String.append a (String.append b c).
Proof. induction a as [| x a IH]; simpl; [| rewrite IH]; reflexivity. Qed.

Lemma length_append (a b : string) :
  String.length (String.append a b) = (String.length a + String.length b)%nat.
Proof. induction a as [| x a IH]; simpl; [| rewrite IH]; reflexivity. Qed.

Lemma substring_all (s : string) : String.substring 0 (String.length s) s = s.
Proof. induction s as [| c s IH]; simpl; [| rewrite IH]; reflexivity. Qed.

Lemma substring_append_r (a b : string) :
  String.substring (String.length a) (String.length b) (String.append a b) = b.
Proof. induction a as [| x a IH]; simpl; [apply substring_all | exact IH]. Qed.

Lemma endswith_append (x suffix : string) :
  Cache.endswith suffix (String.append x suffix) = true.
Proof.
  unfold Cache.endswith. rewrite length_append.
  replace (String.length x + String.length suffix - String.length suffix)%nat
    with (String.length x) by lia.
  rewrite substring_append_r, String.eqb_refl.
  apply andb_true_iff. split; [apply Nat.leb_le; lia | reflexivity].
Qed.

Lemma substring_split (s : string) :
  forall k, (k <= String.length s)%nat ->
            s = String.append (String.substring 0 k s)
                              (String.substring k (String.length s - k) s).
Proof.
  induction s as [| c s IH]; intros [| k] Hk; simpl in *; try lia.
  - reflexivity.
  - rewrite substring_all. reflexivity.
  - f_equal. apply IH. lia.
Qed.

Lemma endswith_inv (suffix s : string) :
  Cache.endswith suffix s = true -> exists x, s = String.append x suffix.
Proof.
  unfold Cache.endswith. intro H. apply andb_true_iff in H. destruct H as [Hle Heq].
  apply Nat.leb_le in Hle. apply String.eqb_eq in Heq.
  remember (String.length suffix) as m eqn:Em. clear Em.
  exists (String.substring 0 (String.length s - m) s).
  rewrite <- Heq.
  pose proof (substring_split s (String.length s - m) ltac:(lia)) as Hsplit.
  replace (String.length s - (String.length s - m))%nat with m in Hsplit by lia.
  exact Hsplit.
Qed.

Lemma split_nonempty (s : string) : Cache.split s <> [].
Proof.
  induction s as [| c s IH]; simpl; [discriminate |].
  destruct (Ascii.eqb c Cache.dot); [discriminate |].
  destruct (Cache.split s); discriminate.
Qed.

Lemma split_no_dot (s : string) : no_dot s = true -> Cache.split s = [s].
Proof.
  induction s as [| c s IH]; simpl; intro H; [reflexivity |].
  apply andb_true_iff in H. destruct H as [Hc Hs].
  apply negb_true_iff in Hc. rewrite Hc, (IH Hs). reflexivity.
Qed.

Lemma split_at_dot (a rest : string) :
  no_dot a = true ->
  Cache.split (String.append a (String Cache.dot rest)) = a :: Cache.split rest.
Proof.
  induction a as [| c a IH]; simpl; intro H.
  - reflexivity.
  - apply andb_true_iff in H. destruct H as [Hc Ha].
    apply negb_true_iff in Hc. rewrite Hc, (IH Ha). reflexivity.
Qed.

Lemma split_with_dot (a rest : string) :
  (2 <= length (Cache.split (String.append a (String Cache.dot rest))))%nat.
Proof.
  induction a as [| c a IH]; simpl.
  - pose proof (split_nonempty rest) as H. destruct (Cache.split rest); [contradiction |].
    simpl. lia.
  - destruct (Ascii.eqb c Cache.dot).
    + pose proof (split_nonempty (String.append a (String Cache.dot rest))) as H.
      destruct (Cache.split _); [contradiction | simpl; lia].
    + destruct (Cache.split _) as [| part parts]; simpl in *; lia.
Qed.

(** X14.  The file that [save_cache] of fetchdata.py writes for the
    exchange code [prefix.code] is the file that [load_cache] of the
    screeners opens for that prefix and code, it passes their
    [endswith(".json")] test, and the code they read off its name is
    [code]: names written by the fetcher are found again by the
    screeners. *)
Theorem cache_name_round_trip (prefix bs_code : string) :
  no_dot prefix = true -> no_dot bs_code = true ->
  let written := Cache.saved_name (String.append prefix (String Cache.dot bs_code)) in
  Cache.cache_file prefix bs_code = written
  /\ Cache.endswith ".json" written = true
  /\ Cache.code_of written = Ok bs_code.
Proof.
  intros Hp Hc. cbv zeta. unfold Cache.saved_name, Cache.cache_file.
  split; [| split].
  - rewrite append_assoc. reflexivity.
  - apply endswith_append.
  - unfold Cache.code_of. rewrite append_assoc.
    change (String.append (String Cache.dot bs_code) ".json")
      with (String Cache.dot (String.append bs_code ".json")).
    rewrite (split_at_dot prefix _ Hp).
    change ".json"%string with (String Cache.dot "json").
    rewrite (split_at_dot bs_code _ Hc). reflexivity.
Qed.

Lemma cache_name_witness :
  Cache.cache_file "sh" "600000" = Cache.saved_name "sh.600000"
  /\ Cache.endswith ".json" (Cache.saved_name "sh.600000") = true
  /\ Cache.code_of (Cache.saved_name "sh.600000") = Ok "600000"%string.
Proof.
  exact (cache_name_round_trip "sh" "600000" eq_refl eq_refl).
Defined.

Lemma mapM_total {A B : Type} (f : A -> result B) (l : list A) :
  (forall a, In a l -> exists b, f a = Ok b) ->
  exists bs, mapM f l = Ok bs /\ length bs = length l.
Proof.
  induction l as [| a l IH]; intro H; simpl.
  - exists []. split; reflexivity.
  - destruct (H a (or_introl eq_refl)) as [b Hb].
    destruct IH as [bs [Hbs Hlen]]; [intros x Hx; apply H; right; exact Hx |].
    exists (b :: bs). rewrite Hb, Hbs. simpl. split; [reflexivity | lia].
Qed.

(** X15.  Listing the cache never fails: every name that ends in
    [".json"] has a second dot-separated part, so [split(".")[1]] does not
    raise; [stock_list] holds one code for each such file, whatever else
    the directory contains. *)
Theorem stock_list_total (dir : Cache.Directory) :
  exists codes,
    Cache.stock_list dir = Ok codes
    /\ length codes = length (filter (Cache.endswith ".json") (map fst dir)).
Proof.
  unfold Cache.stock_list. apply mapM_total.
  intros name Hname. apply filter_In in Hname. destruct Hname as [_ Hend].
  apply endswith_inv in Hend. destruct Hend as [x ->].
  unfold Cache.code_of.
  pose proof (split_with_dot x "json") as Hlen.
  change (String Cache.dot "json") with ".json"%string in Hlen.
  destruct (Cache.split (String.append x ".json")) as [| p [| c parts]];
    simpl in Hlen; try lia.
  exists c. reflexivity.
Qed.

(** ** Loading a frame *)

Lemma insert_row_perm (r : Row) (df : DataFrame) :
  Permutation (Cache.insert_row r df) (r :: df).
Proof.
  induction df as [| r' df IH]; simpl.
  - apply Permutation_refl.
  - destruct (date r <=? date r').
    + apply Permutation_refl.
    + eapply Permutation_trans; [apply perm_skip, IH | apply perm_swap].
Qed.

Lemma sort_index_perm (df : DataFrame) : Permutation df (Cache.sort_index df).
Proof.
  unfold Cache.sort_index. induction df as [| r df IH]; simpl.
  - constructor.
  - eapply Permutation_trans; [apply perm_skip, IH |].
    apply Permutation_sym, insert_row_perm.
Qed.

Lemma insert_row_sorted (r : Row) (df : DataFrame) :
  date_sorted df -> date_sorted (Cache.insert_row r df).
Proof.
  unfold date_sorted. induction 1 as [| r' df Hs IH Hr']; simpl.
  - repeat constructor.
  - destruct (Z.leb_spec (date r) (date r')).
    + constructor; [constructor; assumption |].
      constructor; [assumption |].
      eapply Forall_impl; [| exact Hr']. simpl. intros. lia.
    + constructor; [exact IH |].
      eapply Permutation_Forall; [apply Permutation_sym, insert_row_perm |].
      constructor; [lia | exact Hr'].
Qed.

Lemma sort_index_sorted (df : DataFrame) : date_sorted (Cache.sort_index df).
Proof.
  unfold Cache.sort_index. induction df as [| r df IH]; simpl.
  - constructor.
  - apply insert_row_sorted. exact IH.
Qed.

Lemma load_cache_returns_sorted_rows_holds (dir : Cache.Directory) (bs_code : code) :
  (forall rows,
      Cache.read dir (Cache.cache_file "sh" bs_code) = Some (Cache.Rows rows) ->
      Cache.load_cache dir bs_code = ([], Ok (Some (Cache.sort_index rows))))
  /\ (forall df,
         snd (Cache.load_cache dir bs_code) = Ok (Some df) ->
         date_sorted df
         /\ exists prefix rows,
             Cache.read dir (Cache.cache_file prefix bs_code) = Some (Cache.Rows rows)
             /\ Permutation rows df
             /\ (prefix = "sh"%string
                 \/ prefix = "sz"%string
                    /\ (Cache.read dir (Cache.cache_file "sh" bs_code) = None
                        \/ Cache.read dir (Cache.cache_file "sh" bs_code)
                           = Some Cache.Unreadable))).
Proof.
  split.
  - intros rows H. unfold Cache.load_cache. cbn [Cache.load_from]. rewrite H. reflexivity.
  - intros df. unfold Cache.load_cache. cbn [Cache.load_from].
    destruct (Cache.read dir (Cache.cache_file "sh" bs_code)) as [[rows | |] |] eqn:Esh.
    + cbn [snd]. intro H. injection H as <-.
      split; [apply sort_index_sorted |].
      exists "sh"%string, rows. split; [exact Esh |].
      split; [apply sort_index_perm | left; reflexivity].
    + destruct (Cache.read dir (Cache.cache_file "sz" bs_code)) as [[rows | |] |] eqn:Esz;
        cbn [snd]; try discriminate.
      intro H. injection H as <-.
      split; [apply sort_index_sorted |].
      exists "sz"%string, rows. split; [exact Esz |].
      split; [apply sort_index_perm | right; split; [reflexivity | right; reflexivity]].
    + cbn [snd]. discriminate.
    + destruct (Cache.read dir (Cache.cache_file "sz" bs_code)) as [[rows | |] |] eqn:Esz;
        cbn [snd]; try discriminate.
      intro H. injection H as <-.
      split; [apply sort_index_sorted |].
      exists "sz"%string, rows. split; [exact Esz |].
      split; [apply sort_index_perm | right; split; [reflexivity | left; reflexivity]].
Qed.

(** X16.  A frame returned by [load_cache] holds the rows of the cached
    file in ascending order of their dates, whatever their order in the
    file.  The file is [sh.<code>.json] when that one is readable, the
    [sz] file not being consulted then; the [sz] file is used only when
    the [sh] file is absent or could not be read. *)
Theorem load_cache_returns_sorted_rows (dir : Cache.Directory) (bs_code : code) :
  (forall rows,
      Cache.read dir (Cache.cache_file "sh" bs_code) = Some (Cache.Rows rows) ->
      Cache.load_cache dir bs_code = ([], Ok (Some (Cache.sort_index rows))))
  /\ (forall df,
         snd (Cache.load_cache dir bs_code) = Ok (Some df) ->
         date_sorted df
         /\ exists prefix rows,
             Cache.read dir (Cache.cache_file prefix bs_code) = Some (Cache.Rows rows)
             /\ Permutation rows df
             /\ (prefix = "sh"%string
                 \/ prefix = "sz"%string
                    /\ (Cache.read dir (Cache.cache_file "sh" bs_code) = None
                        \/ Cache.read dir (Cache.cache_file "sh" bs_code)
                           = Some Cache.Unreadable))).
Proof. exact (load_cache_returns_sorted_rows_holds dir bs_code). Qed.

Lemma load_cache_witness :
  Cache.load_cache Shelf.both_prefixes "600000"%string
  = ([], Ok (Some (Cache.sort_index Shelf.latest_first)))
  /\ date_sorted (Cache.sort_index Shelf.latest_first)
  /\ exists prefix rows,
      Cache.read Shelf.both_prefixes (Cache.cache_file prefix "600000"%string)
      = Some (Cache.Rows rows)
      /\ Permutation rows (Cache.sort_index Shelf.latest_first).
Proof.
  destruct (load_cache_returns_sorted_rows Shelf.both_prefixes "600000"%string) as [Hsh Hany].
  pose proof (Hsh Shelf.latest_first eq_refl) as Hload.
  split; [exact Hload |].
  destruct (Hany (Cache.sort_index Shelf.latest_first)) as [Hsorted [prefix [rows [Hr [Hp _]]]]].
  - rewrite Hload. reflexivity.
  - split; [exact Hsorted |]. exists prefix, rows. split; assumption.
Defined.

(** ** The universe built from the directory *)

Lemma dict_set_keys {A : Type} (d : list (code * A)) (key : code) (value : A) :
  map fst (Cache.dict_set d key value)
  = if existsb (String.eqb key) (map fst d) then map fst d else map fst d ++ [key].
Proof.
  induction d as [| [k v] d IH]; simpl; [reflexivity |].
  rewrite (String.eqb_sym key k).
  destruct (String.eqb k key); simpl; [reflexivity |].
  rewrite IH. destruct (existsb (String.eqb key) (map fst d)); reflexivity.
Qed.

Lemma dict_set_distinct {A : Type} (d : list (code * A)) (key : code) (value : A) :
  NoDup (map fst d) -> NoDup (map fst (Cache.dict_set d key value)).
Proof.
  intro Hnd. rewrite dict_set_keys.
  destruct (existsb (String.eqb key) (map fst d)) eqn:E; [exact Hnd |].
  apply NoDup_app; [exact Hnd | repeat constructor; intros [] |].
  intros x Hx Hkey. destruct Hkey as [Hkey | []]. subst x.
  assert (existsb (String.eqb key) (map fst d) = true); [| congruence].
  apply existsb_exists. exists key. split; [exact Hx | apply String.eqb_refl].
Qed.

Lemma dict_set_In {A : Type} (d : list (code * A)) (key : code) (value : A) (kv : code * A) :
  In kv (Cache.dict_set d key value) -> kv = (key, value) \/ In kv d.
Proof.
  induction d as [| [k v] d IH]; simpl.
  - intros [<- | []]. left. reflexivity.
  - destruct (String.eqb_spec k key) as [-> | Hne]; simpl.
    + intros [<- | H]; [left; reflexivity | right; right; exact H].
    + intros [<- | H]; [right; left; reflexivity |].
      destruct (IH H) as [-> | H']; [left; reflexivity | right; right; exact H'].
Qed.

Lemma mapM_In {A B : Type} (f : A -> result B) (l : list A) :
  forall bs b, mapM f l = Ok bs -> In b bs -> exists a, In a l /\ f a = Ok b.
Proof.
  induction l as [| a l IH]; simpl; intros bs b H Hb.
  - injection H as <-. contradiction.
  - destruct (f a) as [b0 | e] eqn:Ea; cbn [bind] in H; [| discriminate].
    destruct (mapM f l) as [bs0 | e]; cbn [bind] in H; [| discriminate].
    injection H as <-. destruct Hb as [<- | Hb].
    + exists a. split; [left; reflexivity | exact Ea].
    + destruct (IH bs0 b eq_refl Hb) as [a' [Ha' Hf]].
      exists a'. split; [right; exact Ha' | exact Hf].
Qed.

Lemma collect_frames_invariant (dir : Cache.Directory) (all_codes : list code) :
  forall codes acc U,
    incl codes all_codes ->
    NoDup (map fst acc) -> Forall (loaded_entry dir all_codes) acc ->
    Cache.collect_frames dir codes acc = Ok U ->
    NoDup (map fst U) /\ Forall (loaded_entry dir all_codes) U.
Proof.
  induction codes as [| c codes IH]; intros acc U Hincl Hnd Hacc Hrun;
    cbn [Cache.collect_frames] in Hrun.
  - injection Hrun as <-. split; assumption.
  - assert (Hincl' : incl codes all_codes).
    { intros x Hx. apply Hincl. right. exact Hx. }
    destruct (snd (Cache.load_cache dir c)) as [[df |] | e] eqn:El; cbn [bind] in Hrun;
      try discriminate.
    + destruct (Nat.leb_spec 250 (length df)) as [Hlen | _].
      * apply (IH _ _ Hincl') in Hrun; trivial.
        -- apply dict_set_distinct. exact Hnd.
        -- apply Forall_forall. intros kv Hkv. apply dict_set_In in Hkv.
           destruct Hkv as [-> | Hkv].
           ++ repeat split; simpl; trivial. apply Hincl. left. reflexivity.
           ++ rewrite Forall_forall in Hacc. apply Hacc. exact Hkv.
      * apply (IH _ _ Hincl') in Hrun; trivial.
    + apply (IH _ _ Hincl') in Hrun; trivial.
Qed.

(** X17.  The universe that [main] builds from the cache directory has
    distinct codes; each of its frames is what [load_cache] returns for
    its code, is in ascending order of its dates, has at least 250 bars,
    and its code is read off the name of a [.json] file of the
    directory. *)
Theorem universe_from_directory (dir : Cache.Directory) (U : Universe) :
  Cache.all_stocks_data dir = Ok U ->
  NoDup (map fst U)
  /\ filter (fun cd => (250 <=? length (snd cd))%nat) U = U
  /\ forall bs_code df,
      In (bs_code, df) U ->
      snd (Cache.load_cache dir bs_code) = Ok (Some df)
      /\ date_sorted df
      /\ (250 <= length df)%nat
      /\ exists name, In name (map fst dir)
                      /\ Cache.endswith ".json" name = true
                      /\ Cache.code_of name = Ok bs_code.
Proof.
  unfold Cache.all_stocks_data. intro Hrun.
  destruct (Cache.stock_list dir) as [codes | e] eqn:Ecodes; cbn [bind] in Hrun;
    [| discriminate].
  destruct (collect_frames_invariant dir codes codes [] U (incl_refl _)
              (NoDup_nil _) (Forall_nil _) Hrun) as [Hnd Hall].
  rewrite Forall_forall in Hall.
  split; [exact Hnd |]. split.
  - apply forallb_filter_id. apply forallb_forall. intros cd Hcd.
    destruct (Hall cd Hcd) as [_ [_ Hlen]]. apply Nat.leb_le. exact Hlen.
  - intros bs_code df Hin. destruct (Hall _ Hin) as [Hcode [Hload Hlen]].
    cbn [fst snd] in *.
    split; [exact Hload |].
    split; [apply (proj2 (load_cache_returns_sorted_rows_holds dir bs_code) df Hload) |].
    split; [exact Hlen |].
    unfold Cache.stock_list in Ecodes.
    destruct (mapM_In _ _ _ _ Ecodes Hcode) as [name [Hname Hc]].
    apply filter_In in Hname. destruct Hname as [Hdir Hend].
    exists name. repeat split; assumption.
Qed.

Lemma universe_from_directory_witness :
  exists U,
    Cache.all_stocks_data Shelf.mixed = Ok U
    /\ map fst U = ["600519"%string; "000001"%string]
    /\ NoDup (map fst U)
    /\ filter (fun cd => (250 <=? length (snd cd))%nat) U = U.
Proof.
  assert (Hrun : exists U, Cache.all_stocks_data Shelf.mixed = Ok U
                           /\ map fst U = ["600519"%string; "000001"%string]).
  { eexists. split; vm_compute; reflexivity. }
  destruct Hrun as [U [Hrun Hkeys]]. exists U.
  destruct (universe_from_directory Shelf.mixed U Hrun) as [Hnd [Hfilter _]].
  repeat split; assumption.
Defined.

(** ** Rows of the second pass *)

Lemma train_process_stock_inv (now : Z) (c : code) (U : Universe) (sel : Train.Selected) :
  Train.process_stock now c U = Ok (Some sel) ->
  exists df latest,
    getitem U c = Ok df
    /\ Train.filter_criteria now (Train.calculate_moving_averages df) = Ok true
    /\ Pd.iloc_last (Train.calculate_moving_averages df) = Ok latest
    /\ sel = Train.mkSelected c (round2 (rps latest 120)) (round2 (rps latest 250)).
Proof.
  unfold Train.process_stock. intro H.
  destruct (getitem U c) as [df | e]; cbn [bind] in H; [| discriminate].
  destruct (250 <=? length df)%nat; [| discriminate].
  cbv zeta in H.
  destruct (Train.filter_criteria _ _) as [[|] | e] eqn:Ef; cbn [bind] in H;
    try discriminate.
  destruct (Pd.iloc_last _) as [latest | e] eqn:El; cbn [bind] in H; [| discriminate].
  injection H as <-. exists df, latest. repeat split; trivial.
Qed.

Lemma train_filter_true_rps (now : Z) (df : DataFrame) (latest : Row) :
  Train.filter_criteria now df = Ok true ->
  Pd.iloc_last df = Ok latest ->
  Train.check_rps latest = true.
Proof.
  unfold Train.filter_criteria. intros H Hlast. rewrite Hlast in H. cbn [bind] in H.
  destruct (Pd.iloc_prev df) as [previous | e]; cbn [bind] in H; [| discriminate].
  injection H as H. unfold all in H. cbn [forallb id] in H.
  apply andb_true_iff in H. destruct H as [H _]. exact H.
Qed.

Lemma train_latest_rps (df : DataFrame) (latest : Row) :
  Pd.iloc_last (Train.calculate_moving_averages df) = Ok latest ->
  exists r, In r df /\ rps r = rps latest.
Proof.
  intro Hlast. apply iloc_last_In in Hlast.
  destruct (second_pass_moving_averages_columns_hold df) as [_ [_ [Hrps _]]].
  assert (Hin : In (rps latest) (map rps (Train.calculate_moving_averages df))).
  { apply in_map. exact Hlast. }
  rewrite Hrps in Hin. apply in_map_iff in Hin. destruct Hin as [r [Hr Hin]].
  exists r. split; assumption.
Qed.

Lemma second_pass_rows_holds (now : Z) (cache : Universe) (completion : list code)
        (rows : list Train.Selected) (sel : Train.Selected) :
  Train.main now cache completion = Ok rows ->
  In sel rows ->
  let all_stocks_data := filter (fun cd => (250 <=? length (snd cd))%nat) cache in
  In (Train.sel_code sel) completion
  /\ (exists df, getitem all_stocks_data (Train.sel_code sel) = Ok df
                 /\ (274 <= length df)%nat)
  /\ exists q120 q250,
      Ranker.rps_score all_stocks_data 120 (Train.sel_code sel) = Ok (Fin q120)
      /\ Ranker.rps_score all_stocks_data 250 (Train.sel_code sel) = Ok (Fin q250)
      /\ Train.sel_rps120 sel = round2 (Fin q120)
      /\ Train.sel_rps250 sel = round2 (Fin q250)
      /\ (85 < q120 /\ q120 <= 100 /\ 85 < q250 /\ q250 <= 100)%Q.
Proof.
  unfold Train.main, Train.calculate_rps. intros Hmain Hin. cbv zeta in *.
  set (U := filter (fun cd => (250 <=? length (snd cd))%nat) cache) in *.
  destruct (Ranker.calculate_rps U 120) as [u120 | e] eqn:E120; cbn [bind] in Hmain;
    [| discriminate].
  destruct (Ranker.calculate_rps u120 250) as [u250 | e] eqn:E250; cbn [bind] in Hmain;
    [| discriminate].
  pose proof (collect_In _ _ _ Hmain Hin) as Hdone.
  apply in_map_iff in Hdone. destruct Hdone as [c [Hproc Hc]].
  assert (Hlong : forall df, getitem u250 c = Ok df -> (274 <= length df)%nat).
  { intros df Hget. destruct (Nat.lt_ge_cases (length df) 274) as [Hshort | Hok]; trivial.
    rewrite (second_pass_needs_274_bars_holds now c u250 df Hget Hshort) in Hproc.
    discriminate. }
  apply train_process_stock_inv in Hproc.
  destruct Hproc as [df250 [latest [Hget [Hfilter [Hlast ->]]]]].
  simpl Train.sel_code. simpl Train.sel_rps120. simpl Train.sel_rps250.
  specialize (Hlong df250 Hget).
  destruct (calculate_rps_getitem _ _ _ _ _ E250 Hget) as [v250 [df120 [Hs250 [Hg120 ->]]]].
  destruct (calculate_rps_getitem _ _ _ _ _ E120 Hg120) as [v120 [df [Hs120 [Hg ->]]]].
  pose proof (calculate_rps_same_bars _ _ _ E120) as B120.
  rewrite (same_bars_rps_score _ _ 250 c B120) in Hs250.
  rewrite !set_rps_length in Hlong.
  split; [exact Hc |].
  split; [exists df; split; assumption |].
  pose proof (train_filter_true_rps _ _ _ Hfilter Hlast) as Hsum.
  unfold Train.check_rps in Hsum.
  destruct (train_latest_rps _ _ Hlast) as [r [Hr Hrps]]. rewrite <- Hrps in *.
  unfold set_rps in Hr.
  apply in_map_iff in Hr. destruct Hr as [r1 [<- Hr1]].
  apply in_map_iff in Hr1. destruct Hr1 as [r0 [<- _]].
  simpl in Hsum. simpl.
  destruct (rps_score_values _ _ _ _ Hs120) as [-> | [q120 [-> [L120 U120]]]];
    [discriminate Hsum |].
  destruct (rps_score_values _ _ _ _ Hs250) as [-> | [q250 [-> [L250 U250]]]];
    [discriminate Hsum |].
  exists q120, q250. split; [exact Hs120 |]. split; [exact Hs250 |].
  split; [reflexivity |]. split; [reflexivity |].
  unfold gtb in Hsum. simpl in Hsum. apply Qlt_bool_iff in Hsum.
  repeat split; lra.
Qed.

(** X18.  Every row of the table written by [train.py] belongs to a code
    of the completion list whose cached frame has at least 274 bars; its
    rps120 and rps250 are the scores of the two ranking passes rounded to
    two decimals, and both scores are above 85. *)
Theorem second_pass_rows (now : Z) (cache : Universe) (completion : list code)
        (rows : list Train.Selected) (sel : Train.Selected) :
  Train.main now cache completion = Ok rows ->
  In sel rows ->
  let all_stocks_data := filter (fun cd => (250 <=? length (snd cd))%nat) cache in
  In (Train.sel_code sel) completion
  /\ (exists df, getitem all_stocks_data (Train.sel_code sel) = Ok df
                 /\ (274 <= length df)%nat)
  /\ exists q120 q250,
      Ranker.rps_score all_stocks_data 120 (Train.sel_code sel) = Ok (Fin q120)
      /\ Ranker.rps_score all_stocks_data 250 (Train.sel_code sel) = Ok (Fin q250)
      /\ Train.sel_rps120 sel = round2 (Fin q120)
      /\ Train.sel_rps250 sel = round2 (Fin q250)
      /\ (85 < q120 /\ q120 <= 100 /\ 85 < q250 /\ q250 <= 100)%Q.
Proof. exact (second_pass_rows_holds now cache completion rows sel). Qed.

Lemma second_pass_rows_witness :
  exists sel rows,
    Train.main (timedelta_days 300 + 43200) [("600036"%string, Shelf.rising)]
      ["600036"%string] = Ok (sel :: rows)
    /\ In (Train.sel_code sel) ["600036"%string]
    /\ exists q120 q250,
        Train.sel_rps120 sel = round2 (Fin q120)
        /\ Train.sel_rps250 sel = round2 (Fin q250)
        /\ (85 < q120 /\ q120 <= 100 /\ 85 < q250 /\ q250 <= 100)%Q.
Proof.
  assert (Hrows : exists sel rows,
             Train.main (timedelta_days 300 + 43200) [("600036"%string, Shelf.rising)]
               ["600036"%string] = Ok (sel :: rows)).
  { eexists. eexists. vm_compute. reflexivity. }
  destruct Hrows as [sel [rows Hrun]]. exists sel, rows.
  split; [exact Hrun |].
  destruct (second_pass_rows (timedelta_days 300 + 43200) [("600036"%string, Shelf.rising)]
              ["600036"%string] (sel :: rows) sel Hrun (or_introl eq_refl))
    as [Hcode [_ [q120 [q250 [_ [_ [H120 [H250 Hrange]]]]]]]].
  split; [exact Hcode |].
  exists q120, q250. repeat split; tauto.
Defined.

(** ** Instruments without a bar on the latest date *)

Lemma last_cons_cons {A : Type} (x y : A) (l : list A) (d : A) :
  last (x :: y :: l) d = last (y :: l) d.
Proof. reflexivity. Qed.

Lemma last_zip_with {A B C : Type} (f : A -> B -> C) (l : list A) :
  forall (m : list B) (da : A) (db : B) (dc : C),
    length l = length m -> l <> [] ->
    last (Pd.zip_with f l m) dc = f (last l da) (last m db).
Proof.
  induction l as [| a l IH]; intros [| b m] da db dc Hlen Hne; simpl in Hlen;
    try discriminate; [contradiction |].
  destruct l as [| a' l].
  - destruct m; [reflexivity | discriminate].
  - destruct m as [| b' m]; [discriminate |].
    specialize (IH (b' :: m) da db dc ltac:(simpl in *; lia) ltac:(discriminate)).
    cbn [Pd.zip_with] in *. rewrite !last_cons_cons. exact IH.
Qed.

Lemma pct_change_last_nan (p : nat) (s : Pd.Series) :
  last s NaN = NaN -> last (Pd.pct_change_nofill p s) NaN = NaN.
Proof.
  intro Hlast. unfold Pd.pct_change_nofill. destruct s as [| x s]; [reflexivity |].
  rewrite (last_zip_with _ (x :: s) (Pd.shift p (x :: s)) NaN NaN NaN).
  - rewrite Hlast. reflexivity.
  - rewrite shift_length. reflexivity.
  - discriminate.
Qed.

Lemma last_default {A : Type} (l : list A) (d d' : A) :
  l <> [] -> last l d = last l d'.
Proof.
  induction l as [| a l IH]; intro H; [contradiction |].
  destruct l as [| a' l]; [reflexivity |].
  rewrite !last_cons_cons. apply IH. discriminate.
Qed.

Lemma last_map {A B : Type} (f : A -> B) (l : list A) (d : A) :
  l <> [] -> last (map f l) (f d) = f (last l d).
Proof.
  induction l as [| a l IH]; intro H; [contradiction |].
  destruct l as [| a' l]; [reflexivity |].
  specialize (IH ltac:(discriminate)).
  cbn [map] in *. rewrite !last_cons_cons. exact IH.
Qed.

Lemma last_sorted_max (l : list Z) (x d : Z) :
  StronglySorted Z.lt l -> In x l -> x <= last l d.
Proof.
  intro Hs. revert x. induction Hs as [| a l Hs IH Ha]; intros x Hin; [contradiction |].
  destruct l as [| b l].
  - destruct Hin as [Hin | []]. subst x. simpl. lia.
  - rewrite last_cons_cons.
    destruct Hin as [Hin | Hin].
    + subst x. rewrite Forall_forall in Ha.
      assert (Hb : a < b) by (apply Ha; left; reflexivity).
      specialize (IH b (or_introl eq_refl)). lia.
    + apply IH. exact Hin.
Qed.

Lemma cell_no_bar (d : Z) (df : DataFrame) :
  (forall r, In r df -> date r <> d) -> Ranker.cell d df = NaN.
Proof.
  intro H. unfold Ranker.cell. induction df as [| r df IH]; simpl; [reflexivity |].
  destruct (Z.eqb_spec (date r) d) as [E | _].
  - exfalso. apply (H r (or_introl eq_refl) E).
  - apply IH. intros r0 Hr0. apply H. right. exact Hr0.
Qed.

Lemma union_index_dates (U : Universe) (c : code) (df : DataFrame) (r : Row) :
  In (c, df) U -> In r df -> In (date r) (Ranker.union_index U).
Proof.
  intros HU Hr. unfold Ranker.union_index. apply fold_insert_date_In.
  apply in_flat_map. exists (c, df). split; [exact HU |].
  apply in_map. exact Hr.
Qed.

(** The score of an instrument whose bars all predate some bar of the
    universe. *)
Lemma behind_universe_no_score (U : Universe) (c c' : code) (df df' : DataFrame)
      (r' : Row) (p : nat) :
  getitem U c = Ok df ->
  In (c', df') U -> In r' df' ->
  (forall r, In r df -> date r < date r') ->
  Ranker.rps_score U p c = Ok NaN.
Proof.
  intros Hget HU Hr' Hbehind.
  pose proof (union_index_dates U c' df' r' HU Hr') as Hidx.
  assert (Hs : StronglySorted Z.lt (Ranker.union_index U))
    by (apply fold_insert_date_sorted).
  unfold Ranker.rps_score, Ranker.rps_series, Ranker.latest_changes, Ranker.all_closes.
  destruct (Ranker.union_index U) as [| d0 idx] eqn:Eidx; [contradiction |].
  destruct (iloc_last_cons d0 idx) as [dl ->]. cbn [bind].
  rewrite getitem_rps_of_row, map_map. cbn [fst snd].
  rewrite (getitem_map_snd
             (fun d => last (Pd.pct_change_nofill p
                               (map (fun x => Ranker.cell x d) (d0 :: idx))) NaN) U c).
  rewrite Hget. cbn [bind].
  assert (Hnan : last (Pd.pct_change_nofill p
                         (map (fun x => Ranker.cell x df) (d0 :: idx))) NaN = NaN).
  { apply pct_change_last_nan.
    rewrite (last_default _ NaN (Ranker.cell d0 df)) by discriminate.
    rewrite (last_map (fun x => Ranker.cell x df) (d0 :: idx) d0) by discriminate.
    apply cell_no_bar.
    intros r Hr E.
    pose proof (last_sorted_max _ _ d0 Hs Hidx) as Hmax.
    specialize (Hbehind r Hr). lia. }
  rewrite Hnan. rewrite cell_score_nan; reflexivity.
Qed.

(** X19.  The screeners rank the last row of the table aligned on all
    dates of the universe.  An instrument whose bars all predate some bar
    of another instrument has no close on that row: its score is NaN for
    every period, and it appears in the output of neither pass. *)
Theorem behind_latest_date_never_selected
        (cache : Universe) (c c' : code) (df df' : DataFrame) (r' : Row) :
  let all_stocks_data := filter (fun cd => (250 <=? length (snd cd))%nat) cache in
  getitem all_stocks_data c = Ok df ->
  In (c', df') all_stocks_data -> In r' df' ->
  (forall r, In r df -> date r < date r') ->
  (forall p, Ranker.rps_score all_stocks_data p c = Ok NaN)
  /\ (forall YEAR_START_DATE now completion rows sel,
         RpsTool.main YEAR_START_DATE now cache completion = Ok rows ->
         In sel rows -> RpsTool.sel_code sel <> c)
  /\ (forall now completion rows sel,
         Train.main now cache completion = Ok rows ->
         In sel rows -> Train.sel_code sel <> c).
Proof.
  cbv zeta. intros Hget HU Hr' Hbehind.
  assert (Hnan : forall p,
             Ranker.rps_score (filter (fun cd => (250 <=? length (snd cd))%nat) cache) p c
             = Ok NaN).
  { intro p. eapply behind_universe_no_score; eauto. }
  split; [exact Hnan |]. split.
  - intros ys now completion rows sel Hmain Hin Hc.
    destruct (selected_rows_have_scores ys now cache completion rows sel Hmain Hin)
      as [v120 [v250 [_ [Hs [_ Hv]]]]].
    rewrite Hc, (Hnan 250%nat) in Hs. injection Hs as <-. discriminate.
  - intros now completion rows sel Hmain Hin Hc.
    destruct (second_pass_rows_holds now cache completion rows sel Hmain Hin)
      as [_ [_ [q120 [q250 [_ [Hs _]]]]]].
    rewrite Hc, (Hnan 250%nat) in Hs. discriminate.
Qed.

Lemma behind_latest_date_witness :
  Ranker.rps_score
    (filter (fun cd => (250 <=? length (snd cd))%nat)
            [("600519"%string, Scenario.stale); ("000001"%string, Scenario.loser 10)])
    250 "600519"%string
  = Ok NaN
  /\ forall YEAR_START_DATE now completion rows sel,
      RpsTool.main YEAR_START_DATE now
        [("600519"%string, Scenario.stale); ("000001"%string, Scenario.loser 10)]
        completion = Ok rows ->
      In sel rows -> RpsTool.sel_code sel <> "600519"%string.
Proof.
  destruct (behind_latest_date_never_selected
              [("600519"%string, Scenario.stale); ("000001"%string, Scenario.loser 10)]
              "600519"%string "000001"%string Scenario.stale (Scenario.loser 10)
              (Scenario.bar 260 (10 / 2)))
    as [Hscore [Hfirst _]].
  - vm_compute. reflexivity.
  - apply filter_In. split; [right; left; reflexivity | vm_compute; reflexivity].
  - apply iloc_last_In. vm_compute. reflexivity.
  - intros r Hr. unfold Scenario.stale, Scenario.flat in Hr.
    apply in_map_iff in Hr. destruct Hr as [i [<- Hi]]. apply in_seq in Hi.
    unfold Scenario.bar, timedelta_days. cbn [date]. lia.
  - split; [apply Hscore | exact Hfirst].
Defined.

(** ** Ties *)

Lemma ltb_eqb_right (x v w : float) : eqb v w = true -> ltb x v = ltb x w.
Proof.
  float_cases. intro H.
  destruct (Qlt_bool q1 q0) eqn:E1; destruct (Qlt_bool q1 q) eqn:E2; trivial;
    q_reflect; exfalso; lra.
Qed.

Lemma ltb_eqb_left (x v w : float) : eqb v w = true -> ltb v x = ltb w x.
Proof.
  float_cases. intro H.
  destruct (Qlt_bool q0 q1) eqn:E1; destruct (Qlt_bool q q1) eqn:E2; trivial;
    q_reflect; exfalso; lra.
Qed.

Lemma eqb_eqb_right (x v w : float) : eqb v w = true -> eqb x v = eqb x w.
Proof.
  float_cases. intro H.
  destruct (Qeq_bool q1 q0) eqn:E1; destruct (Qeq_bool q1 q) eqn:E2; trivial;
    q_reflect; exfalso; lra.
Qed.

(** X20.  Two instruments with equal latest changes get the same score,
    from the screeners and from the lookup. *)
Theorem tied_changes_tied_scores (row : list (code * float)) (c c' : code) (v w : float) :
  getitem row c = Ok v -> getitem row c' = Ok w -> eqb v w = true ->
  getitem (Ranker.rps_of_row row) c = getitem (Ranker.rps_of_row row) c'
  /\ CheckRps.score row v = CheckRps.score row w.
Proof.
  intros Hv Hw Heq. destruct (eqb_notnan _ _ Heq) as [Nv Nw].
  split.
  - rewrite !getitem_rps_of_row, Hv, Hw. cbn [bind]. f_equal.
    unfold cell_score. rewrite Nv, Nw. do 3 f_equal.
    unfold Pd.average_rank. rewrite !tied_ranks_sort_values.
    unfold Spec.count_less, Spec.count_equal.
    rewrite (filter_ext (fun x => ltb x v) (fun x => ltb x w))
      by (intro x; apply ltb_eqb_right; exact Heq).
    rewrite (filter_ext (fun x => eqb x v) (fun x => eqb x w))
      by (intro x; apply eqb_eqb_right; exact Heq).
    reflexivity.
  - unfold CheckRps.score. rewrite Nv, Nw.
    rewrite (filter_ext (fun change => ltb change v && negb (isnan change))
                        (fun change => ltb change w && negb (isnan change)))
      by (intro x; rewrite (ltb_eqb_right x v w Heq); reflexivity).
    reflexivity.
Qed.

Lemma tied_changes_witness :
  getitem (Ranker.rps_of_row [("600519"%string, Fin (1 # 2)); ("600520"%string, Fin (2 # 4))])
          "600519"%string
  = getitem (Ranker.rps_of_row [("600519"%string, Fin (1 # 2)); ("600520"%string, Fin (2 # 4))])
            "600520"%string
  /\ CheckRps.score [("600519"%string, Fin (1 # 2)); ("600520"%string, Fin (2 # 4))]
                    (Fin (1 # 2))
     = CheckRps.score [("600519"%string, Fin (1 # 2)); ("600520"%string, Fin (2 # 4))]
                      (Fin (2 # 4)).
Proof.
  apply (tied_changes_tied_scores
           [("600519"%string, Fin (1 # 2)); ("600520"%string, Fin (2 # 4))]
           "600519"%string "600520"%string (Fin (1 # 2)) (Fin (2 # 4)));
    reflexivity.
Defined.

(** ** The drawdown threshold of the second pass *)

Lemma drawdown_ratio (m c t : Q) :
  (0 < m)%Q ->
  leb (div (sub (Fin m) (Fin c)) (Fin m)) (Fin t) = true <-> ((1 - t) * m <= c)%Q.
Proof.
  intro Hm. unfold sub, neg, add, div.
  assert (Qeq_bool m 0 = false) as -> by (apply Qeq_bool_false; lra).
  unfold leb, ltb, eqb. rewrite orb_true_iff, Qlt_bool_iff, Qeq_bool_iff.
  assert (Hdiv : ((m + - c) / m == 1 - c / m)%Q) by (field; lra).
  rewrite Hdiv.
  assert (Hc : (c == c / m * m)%Q) by (field; lra).
  split.
  - intro H. rewrite Hc.
    assert (Hle : (1 - t <= c / m)%Q) by (destruct H; lra).
    setoid_replace ((1 - t) * m)%Q with (m * (1 - t))%Q by ring.
    setoid_replace (c / m * m)%Q with (m * (c / m))%Q by ring.
    apply Qmult_le_l; assumption.
  - intro H.
    assert (Hle : (1 - t <= c / m)%Q).
    { apply Qle_shift_div_l; assumption. }
    destruct (Qlt_le_dec (1 - c / m) t) as [Hlt | Hge]; [left; exact Hlt |].
    right. lra.
Qed.

(** X21.  With a positive maximum over the trailing 20 days, the drawdown
    test of [train.py] holds exactly when the latest close is at least 75%
    of that maximum, the boundary included. *)
Theorem second_pass_drawdown_threshold
        (now : Z) (df : DataFrame) (latest : Row) (m c : Q) :
  close latest = Fin c -> (0 < m)%Q ->
  Pd.max (map close (filter (fun r => now - timedelta_days 20 <? date r) df)) = Fin m ->
  (Train.check_drawdown now df latest = true <-> ((3 # 4) * m <= c)%Q).
Proof.
  intros Hc Hm Hmax. unfold Train.check_drawdown. rewrite Hmax, Hc.
  rewrite (drawdown_ratio m c (1 # 4) Hm).
  assert (E : (1 - (1 # 4) == 3 # 4)%Q) by reflexivity. rewrite E. reflexivity.
Qed.

Lemma second_pass_drawdown_witness :
  Train.check_drawdown Scenario.noon_260 (Scenario.flat 1 259 10) (Scenario.bar 259 10) = true
  /\ Train.check_drawdown Scenario.noon_260
       (Scenario.flat 1 258 10 ++ [Scenario.bar 259 7]) (Scenario.bar 259 7) = false.
Proof.
  assert (Hm : (0 < 10)%Q) by reflexivity.
  split.
  - assert (Hmax : Pd.max (map close
                     (filter (fun r => Scenario.noon_260 - timedelta_days 20 <? date r)
                             (Scenario.flat 1 259 10))) = Fin 10)
      by (vm_compute; reflexivity).
    apply (second_pass_drawdown_threshold Scenario.noon_260 (Scenario.flat 1 259 10)
             (Scenario.bar 259 10) 10 10 eq_refl Hm Hmax).
    vm_compute. discriminate.
  - assert (Hmax : Pd.max (map close
                     (filter (fun r => Scenario.noon_260 - timedelta_days 20 <? date r)
                             (Scenario.flat 1 258 10 ++ [Scenario.bar 259 7]))) = Fin 10)
      by (vm_compute; reflexivity).
    destruct (Train.check_drawdown Scenario.noon_260
                (Scenario.flat 1 258 10 ++ [Scenario.bar 259 7]) (Scenario.bar 259 7)) eqn:E;
      [| reflexivity].
    apply (second_pass_drawdown_threshold Scenario.noon_260
             (Scenario.flat 1 258 10 ++ [Scenario.bar 259 7])
             (Scenario.bar 259 7) 10 7 eq_refl Hm Hmax) in E.
    exfalso. vm_compute in E. apply E. reflexivity.
Defined.

(** ** The order of the directory listing *)

Lemma read_In (dir : Cache.Directory) (name : string) (f : Cache.file) :
  NoDup (map fst dir) -> (Cache.read dir name = Some f <-> In (name, f) dir).
Proof.
  induction dir as [| [n g] dir IH]; simpl; intro Hnd.
  - split; [discriminate | contradiction].
  - inversion Hnd as [| ? ? Hn Hnd']; subst.
    destruct (String.eqb_spec n name) as [-> | Hne].
    + split.
      * intro H. injection H as ->. left. reflexivity.
      * intros [H | H]; [injection H as ->; reflexivity |].
        exfalso. apply Hn. apply (in_map fst) in H. exact H.
    + rewrite (IH Hnd'). split.
      * intro H. right. exact H.
      * intros [H | H]; [injection H as H _; contradiction | exact H].
Qed.

Lemma read_perm (dir dir' : Cache.Directory) (name : string) :
  NoDup (map fst dir) -> Permutation dir dir' ->
  Cache.read dir' name = Cache.read dir name.
Proof.
  intros Hnd HP.
  assert (Hnd' : NoDup (map fst dir')).
  { eapply Permutation_NoDup; [apply Permutation_map, HP | exact Hnd]. }
  destruct (Cache.read dir name) as [f |] eqn:E.
  - apply (read_In dir' name f Hnd'). apply (Permutation_in _ HP).
    apply (read_In dir name f Hnd). exact E.
  - destruct (Cache.read dir' name) as [f' |] eqn:E'; [| reflexivity].
    apply (read_In dir' name f' Hnd') in E'.
    apply (Permutation_in _ (Permutation_sym HP)) in E'.
    apply (read_In dir name f' Hnd) in E'. congruence.
Qed.

Lemma load_from_ext (dir dir' : Cache.Directory) (c : code) (prefixes : list string) :
  (forall name, Cache.read dir' name = Cache.read dir name) ->
  Cache.load_from dir' c prefixes = Cache.load_from dir c prefixes.
Proof.
  intro H. induction prefixes as [| prefix rest IH]; simpl; [reflexivity |].
  rewrite H, IH. reflexivity.
Qed.

Lemma mapM_perm {A B : Type} (f : A -> result B) (l l' : list A) :
  Permutation l l' ->
  forall bs, mapM f l = Ok bs -> exists bs', mapM f l' = Ok bs' /\ Permutation bs bs'.
Proof.
  induction 1 as [| a l l' HP IH | a b l | l l' l'' HP1 IH1 HP2 IH2]; intros bs Hrun.
  - exists bs. split; [exact Hrun | apply Permutation_refl].
  - simpl in Hrun |- *. destruct (f a) as [y | e]; cbn [bind] in Hrun |- *; [| discriminate].
    destruct (mapM f l) as [ys | e]; cbn [bind] in Hrun; [| discriminate].
    injection Hrun as <-. destruct (IH ys eq_refl) as [ys' [-> Hys]]. cbn [bind].
    exists (y :: ys'). split; [reflexivity | apply perm_skip, Hys].
  - simpl in Hrun |- *.
    destruct (f b) as [y | e]; cbn [bind] in Hrun |- *; [| discriminate].
    destruct (f a) as [x | e]; cbn [bind] in Hrun |- *; [| discriminate].
    destruct (mapM f l) as [ys | e]; cbn [bind] in Hrun |- *; [| discriminate].
    injection Hrun as <-. exists (x :: y :: ys). split; [reflexivity | apply perm_swap].
  - destruct (IH1 bs Hrun) as [bs' [Hrun' Hbs']].
    destruct (IH2 bs' Hrun') as [bs'' [Hrun'' Hbs'']].
    exists bs''. split; [exact Hrun'' | eapply Permutation_trans; eassumption].
Qed.

Lemma filter_perm {A : Type} (f : A -> bool) (l l' : list A) :
  Permutation l l' -> Permutation (filter f l) (filter f l').
Proof.
  induction 1 as [| a l l' HP IH | a b l | l l' l'' HP1 IH1 HP2 IH2]; simpl.
  - constructor.
  - destruct (f a); [apply perm_skip |]; exact IH.
  - destruct (f a), (f b); try apply Permutation_refl. apply perm_swap.
  - eapply Permutation_trans; eassumption.
Qed.

Lemma dict_set_In_new {A : Type} (d : list (code * A)) (key : code) (value : A) :
  In (key, value) (Cache.dict_set d key value).
Proof.
  induction d as [| [k v] d IH]; simpl; [left; reflexivity |].
  destruct (String.eqb_spec k key) as [-> | Hne]; [left; reflexivity | right; exact IH].
Qed.

Lemma dict_set_In_old {A : Type} (d : list (code * A)) (key : code) (value : A)
    (kv : code * A) :
  In kv d -> fst kv <> key -> In kv (Cache.dict_set d key value).
Proof.
  induction d as [| [k v] d IH]; simpl; [contradiction |].
  intros [<- | H] Hne.
  - simpl in Hne. destruct (String.eqb_spec k key); [contradiction | left; reflexivity].
  - destruct (String.eqb k key); right; [exact H | apply IH; assumption].
Qed.

Lemma collect_frames_members (dir : Cache.Directory) :
  forall codes acc U,
    (forall c df, In (c, df) acc -> snd (Cache.load_cache dir c) = Ok (Some df)) ->
    Cache.collect_frames dir codes acc = Ok U ->
    forall c df,
      In (c, df) U <->
      In (c, df) acc
      \/ (In c codes /\ snd (Cache.load_cache dir c) = Ok (Some df) /\ (250 <= length df)%nat).
Proof.
  induction codes as [| k codes IH]; intros acc U Hacc Hrun c df;
    cbn [Cache.collect_frames] in Hrun.
  - injection Hrun as <-. split; [intro H; left; exact H |].
    intros [H | [[] _]]. exact H.
  - destruct (snd (Cache.load_cache dir k)) as [[d |] | e] eqn:El; cbn [bind] in Hrun;
      try discriminate.
    + destruct (Nat.leb_spec 250 (length d)) as [Hlen | Hlen].
      * assert (Hacc' : forall c df, In (c, df) (Cache.dict_set acc k d) ->
                                     snd (Cache.load_cache dir c) = Ok (Some df)).
        { intros c0 df0 H0. apply dict_set_In in H0. destruct H0 as [H0 | H0].
          - injection H0 as -> ->. exact El.
          - apply Hacc. exact H0. }
        rewrite (IH _ _ Hacc' Hrun c df). split.
        -- intros [H | [Hc [Hl Hn]]].
           ++ apply dict_set_In in H. destruct H as [H | H].
              ** injection H as -> ->. right. repeat split; trivial. left. reflexivity.
              ** left. exact H.
           ++ right. repeat split; trivial. right. exact Hc.
        -- intros [H | [[<- | Hc] [Hl Hn]]].
           ++ left. destruct (String.eqb_spec c k) as [-> | Hne].
              ** pose proof (Hacc _ _ H) as Hl. rewrite El in Hl. injection Hl as ->.
                 apply dict_set_In_new.
              ** apply dict_set_In_old; [exact H | exact Hne].
           ++ left. rewrite El in Hl. injection Hl as ->. apply dict_set_In_new.
           ++ right. repeat split; trivial.
      * rewrite (IH _ _ Hacc Hrun c df). split.
        -- intros [H | [Hc [Hl Hn]]]; [left; exact H |].
           right. repeat split; trivial. right. exact Hc.
        -- intros [H | [[<- | Hc] [Hl Hn]]]; [left; exact H | | right; repeat split; trivial].
           rewrite El in Hl. injection Hl as ->. lia.
    + rewrite (IH _ _ Hacc Hrun c df). split.
      * intros [H | [Hc [Hl Hn]]]; [left; exact H |].
        right. repeat split; trivial. right. exact Hc.
      * intros [H | [[<- | Hc] [Hl Hn]]]; [left; exact H | | right; repeat split; trivial].
        rewrite El in Hl. discriminate.
Qed.

Lemma collect_frames_loads (dir : Cache.Directory) :
  forall codes acc U,
    Cache.collect_frames dir codes acc = Ok U ->
    forall c, In c codes -> exists o, snd (Cache.load_cache dir c) = Ok o.
Proof.
  induction codes as [| k codes IH]; intros acc U Hrun c Hc; [contradiction |].
  cbn [Cache.collect_frames] in Hrun.
  destruct (snd (Cache.load_cache dir k)) as [o | e] eqn:El; cbn [bind] in Hrun;
    [| discriminate].
  destruct Hc as [<- | Hc]; [exists o; exact El |].
  destruct o as [d |]; [destruct (250 <=? length d)%nat |]; eapply IH; eassumption.
Qed.

Lemma collect_frames_runs (dir : Cache.Directory) :
  forall codes acc,
    (forall c, In c codes -> exists o, snd (Cache.load_cache dir c) = Ok o) ->
    exists U, Cache.collect_frames dir codes acc = Ok U.
Proof.
  induction codes as [| k codes IH]; intros acc Hloads; cbn [Cache.collect_frames].
  - exists acc. reflexivity.
  - destruct (Hloads k (or_introl eq_refl)) as [o ->]. cbn [bind].
    assert (Hrest : forall c, In c codes -> exists o, snd (Cache.load_cache dir c) = Ok o).
    { intros c Hc. apply Hloads. right. exact Hc. }
    destruct o as [d |]; [destruct (250 <=? length d)%nat |]; apply IH; exact Hrest.
Qed.

Lemma collect_frames_ext (dir dir' : Cache.Directory) :
  (forall c, Cache.load_cache dir' c = Cache.load_cache dir c) ->
  forall codes acc, Cache.collect_frames dir' codes acc = Cache.collect_frames dir codes acc.
Proof.
  intros H. induction codes as [| k codes IH]; intro acc; cbn [Cache.collect_frames];
    [reflexivity |].
  rewrite H. destruct (snd (Cache.load_cache dir k)) as [[d |] | e]; cbn [bind];
    [destruct (250 <=? length d)%nat | |]; try apply IH; reflexivity.
Qed.

(** X22.  The universe does not depend on the order in which the
    directory is listed: for two listings of the same files, if [main]
    builds a universe from one it builds one from the other, with the
    same entries in a possibly different order, and every score of the
    ranker is the same. *)
Theorem listing_order_irrelevant (dir dir' : Cache.Directory) (U : Universe) :
  NoDup (map fst dir) -> Permutation dir dir' ->
  Cache.all_stocks_data dir = Ok U ->
  exists U',
    Cache.all_stocks_data dir' = Ok U'
    /\ Permutation U U'
    /\ forall p c, Ranker.rps_score U' p c = Ranker.rps_score U p c.
Proof.
  intros Hnd HP Hrun. unfold Cache.all_stocks_data in Hrun |- *.
  destruct (Cache.stock_list dir) as [codes | e] eqn:Ecodes; cbn [bind] in Hrun;
    [| discriminate].
  assert (Hload : forall c, Cache.load_cache dir' c = Cache.load_cache dir c).
  { intro c. unfold Cache.load_cache. apply load_from_ext.
    intro name. apply read_perm; assumption. }
  unfold Cache.stock_list in Ecodes |- *.
  assert (HPn : Permutation (filter (Cache.endswith ".json") (map fst dir))
                            (filter (Cache.endswith ".json") (map fst dir'))).
  { apply filter_perm, Permutation_map, HP. }
  destruct (mapM_perm Cache.code_of _ _ HPn codes Ecodes) as [codes' [-> Hcodes]].
  cbn [bind]. rewrite (collect_frames_ext dir dir' Hload).
  destruct (collect_frames_runs dir codes' []) as [U' Hrun'].
  { intros c Hc. apply (collect_frames_loads dir codes [] U Hrun).
    apply (Permutation_in _ (Permutation_sym Hcodes)). exact Hc. }
  exists U'. split; [exact Hrun' |].
  assert (Hnil : forall c df, In (c, df) (@nil (code * DataFrame)) ->
                              snd (Cache.load_cache dir c) = Ok (Some df))
    by (intros c df []).
  assert (HU : Permutation U U').
  { destruct (collect_frames_invariant dir codes codes [] U (incl_refl _)
                (NoDup_nil _) (Forall_nil _) Hrun) as [HndU _].
    destruct (collect_frames_invariant dir codes' codes' [] U' (incl_refl _)
                (NoDup_nil _) (Forall_nil _) Hrun') as [HndU' _].
    apply NoDup_Permutation.
    - eapply NoDup_map_inv. exact HndU.
    - eapply NoDup_map_inv. exact HndU'.
    - intros [c df].
      rewrite (collect_frames_members dir codes [] U Hnil Hrun c df).
      rewrite (collect_frames_members dir codes' [] U' Hnil Hrun' c df).
      split; (intros [[] | [Hc Hrest]]; right; split; [| exact Hrest]).
      + apply (Permutation_in _ Hcodes). exact Hc.
      + apply (Permutation_in _ (Permutation_sym Hcodes)). exact Hc. }
  split; [exact HU |].
  intros p c. symmetry. apply rps_score_perm; [| exact HU].
  destruct (collect_frames_invariant dir codes codes [] U (incl_refl _)
              (NoDup_nil _) (Forall_nil _) Hrun) as [HndU _]. exact HndU.
Qed.

Lemma listing_order_witness :
  exists U U',
    Cache.all_stocks_data Shelf.mixed = Ok U
    /\ Cache.all_stocks_data (rev Shelf.mixed) = Ok U'
    /\ Permutation U U'
    /\ forall p c, Ranker.rps_score U' p c = Ranker.rps_score U p c.
Proof.
  assert (Hrun : exists U, Cache.all_stocks_data Shelf.mixed = Ok U).
  { eexists. vm_compute. reflexivity. }
  destruct Hrun as [U Hrun].
  assert (Hnd : NoDup (map fst Shelf.mixed)).
  { unfold Shelf.mixed. simpl. repeat constructor; simpl; intuition discriminate. }
  destruct (listing_order_irrelevant Shelf.mixed (rev Shelf.mixed) U Hnd
              (Permutation_rev _) Hrun) as [U' [Hrun' [HP Hscore]]].
  exists U, U'. repeat split; assumption.
Defined.

(** ** Fetching, then loading *)

Lemma read_write_same (dir : Cache.Directory) (name : string) (f : Cache.file) :
  Cache.read (FetchData.write dir name f) name = Some f.
Proof.
  induction dir as [| [n g] dir IH]; simpl.
  - rewrite String.eqb_refl. reflexivity.
  - destruct (String.eqb n name) eqn:E; simpl; rewrite E; [reflexivity | exact IH].
Qed.

Lemma read_write_other (dir : Cache.Directory) (name other : string) (f : Cache.file) :
  other <> name ->
  Cache.read (FetchData.write dir name f) other = Cache.read dir other.
Proof.
  intro Hne. induction dir as [| [n g] dir IH]; simpl.
  - destruct (String.eqb_spec name other); [congruence | reflexivity].
  - destruct (String.eqb_spec n name) as [-> | Hn]; simpl.
    + destruct (String.eqb_spec name other); [congruence | reflexivity].
    + rewrite IH. reflexivity.
Qed.

Lemma insert_row_first (r : Row) (df : DataFrame) :
  Forall (fun r' => date r <= date r') df -> Cache.insert_row r df = r :: df.
Proof.
  destruct df as [| r' df]; simpl; [reflexivity |].
  intro H. inversion H as [| ? ? Hr _]; subst.
  destruct (Z.leb_spec (date r) (date r')); [reflexivity | lia].
Qed.

Lemma sort_index_sorted_id (df : DataFrame) :
  date_sorted df -> Cache.sort_index df = df.
Proof.
  unfold date_sorted, Cache.sort_index. induction 1 as [| r df Hs IH Hr]; simpl.
  - reflexivity.
  - rewrite IH. apply insert_row_first. exact Hr.
Qed.

(** X23.  A fetch that returns no bar leaves the cache directory as it
    is.  After a fetch of at least one bar for the exchange code
    [prefix.bs_code], with prefix [sh], or with prefix [sz] when the
    directory has no [sh] file for that code, [load_cache] of the
    screeners returns for [bs_code] the fetched bars in ascending order of
    their dates and prints nothing, and files of other names read as
    before. *)
Theorem fetch_then_load (dir : Cache.Directory) (prefix bs_code : string)
    (fetched : DataFrame) :
  prefix = "sh"%string
  \/ (prefix = "sz"%string /\ Cache.read dir (Cache.cache_file "sh" bs_code) = None) ->
  let written :=
    FetchData.fetch_and_cache_stock_data dir
      (String.append prefix (String Cache.dot bs_code)) fetched in
  (fetched = [] -> written = dir)
  /\ (fetched <> [] ->
      Cache.load_cache written bs_code = ([], Ok (Some (Cache.sort_index fetched)))
      /\ forall other, other <> Cache.cache_file prefix bs_code ->
                       Cache.read written other = Cache.read dir other).
Proof.
  intros Hprefix. cbv zeta. split.
  - intros ->. reflexivity.
  - intro Hne. destruct fetched as [| r rest]; [contradiction |].
    unfold FetchData.fetch_and_cache_stock_data, FetchData.save_cache.
    assert (Hname : Cache.saved_name (String.append prefix (String Cache.dot bs_code))
                    = Cache.cache_file prefix bs_code).
    { unfold Cache.saved_name, Cache.cache_file. rewrite append_assoc. reflexivity. }
    rewrite Hname. split.
    + unfold Cache.load_cache. cbn [Cache.load_from].
      destruct Hprefix as [-> | [-> Hsh]].
      * rewrite read_write_same.
        rewrite (sort_index_sorted_id _ (sort_index_sorted _)). reflexivity.
      * rewrite read_write_other.
        2:{ unfold Cache.cache_file. simpl. intro H. discriminate H. }
        rewrite Hsh. rewrite read_write_same.
        rewrite (sort_index_sorted_id _ (sort_index_sorted _)). reflexivity.
    + intros other Hother. apply read_write_other. exact Hother.
Qed.

Lemma fetch_then_load_witness :
  Cache.load_cache
    (FetchData.fetch_and_cache_stock_data Shelf.mixed "sz.300001" Shelf.latest_first)
    "300001"%string
  = ([], Ok (Some (Cache.sort_index Shelf.latest_first))).
Proof.
  assert (Hsh : Cache.read Shelf.mixed (Cache.cache_file "sh" "300001") = None)
    by (vm_compute; reflexivity).
  destruct (fetch_then_load Shelf.mixed "sz" "300001" Shelf.latest_first
              (or_intror (conj eq_refl Hsh))) as [_ H].
  assert (Hne : Shelf.latest_first <> []) by discriminate.
  destruct (H Hne) as [Hload _]. exact Hload.
Defined.
